(** * vlkEngine: frame synchronisation and presentation pipeline

    A shallow embedding of the renderer's swapchain, sync-primitive and
    command-buffer modules (swapchain.c, sync.c, command_buffer.c, the
    frame counter and the device queries of vulkan_core.c and the
    assertion handler of assert.c), followed by the properties
    established about them.

    The C globals live in one [world] record that every function threads
    through the monad [M].  Calls into the Vulkan driver and into malloc
    are external to the repository: they are modelled by a small
    deterministic driver whose fallible calls read their result from a
    script carried by the world, so that every statement below quantifies
    over all the ways the driver may answer. *)

From Stdlib Require Import ZArith Lia String.
From stdpp Require Import base option list gmap strings.

Local Open Scope Z_scope.

(** ** Constants of the Vulkan headers *)

Definition VK_NULL_HANDLE : Z := 0.
Definition UINT32_MAX : Z := 4294967295.
Definition UINT64_MAX : Z := 18446744073709551615.

(** [VkResult] is a C enum; its values are kept as the integers of the
    Khronos header. *)
Definition VK_SUCCESS : Z := 0.
Definition VK_SUBOPTIMAL_KHR : Z := 1000001003.
Definition VK_ERROR_OUT_OF_DATE_KHR : Z := -1000001004.
Definition VK_ERROR_OUT_OF_HOST_MEMORY : Z := -1.
Definition VK_ERROR_OUT_OF_DEVICE_MEMORY : Z := -2.

Definition VK_PRESENT_MODE_IMMEDIATE_KHR : Z := 0.
Definition VK_PRESENT_MODE_MAILBOX_KHR : Z := 1.
Definition VK_PRESENT_MODE_FIFO_KHR : Z := 2.
Definition VK_PRESENT_MODE_FIFO_RELAXED_KHR : Z := 3.

Definition VK_FORMAT_UNDEFINED : Z := 0.
Definition VK_FORMAT_B8G8R8A8_UNORM : Z := 44.
Definition VK_FORMAT_B8G8R8A8_SRGB : Z := 50.
Definition VK_COLOR_SPACE_SRGB_NONLINEAR_KHR : Z := 0.

Definition VK_FENCE_CREATE_SIGNALED_BIT : Z := 1.
Definition VK_COMMAND_BUFFER_USAGE_ONE_TIME_SUBMIT_BIT : Z := 1.
Definition VK_KHR_TIMELINE_SEMAPHORE_EXTENSION_NAME : string :=
  "VK_KHR_timeline_semaphore".

(** vulkan_core.h *)
Definition VE_MAX_FRAMES_IN_FLIGHT : Z := 3.

(** [uint32_t] arithmetic wraps around. *)
Definition u32 (z : Z) : Z := z mod 2 ^ 32.

(** ** Data model *)

Record VkExtent2D := mkExtent { width : Z; height : Z }.

Record VkSurfaceFormatKHR := mkSurfaceFormat { sf_format : Z; sf_colorSpace : Z }.

Record VkSurfaceCapabilitiesKHR := mkCapabilities {
  minImageCount : Z;
  maxImageCount : Z;
  currentExtent : VkExtent2D;
  minImageExtent : VkExtent2D;
  maxImageExtent : VkExtent2D;
}.

(** swapchain.h *)
Record ve_swapchain_config := mkConfig {
  cfg_width : Z;
  cfg_height : Z;
  vsync : bool;
  triple_buffering : bool;
  preferred_format : VkSurfaceFormatKHR;
  preferred_present_mode : Z;
  additional_usage : Z;
}.

(** Pointers are addresses of host blocks, 0 being NULL. *)
Record ve_swapchain := mkSwapchain {
  swapchain : Z;
  images : Z;
  image_views : Z;
  framebuffers : Z;
  format : Z;
  extent : VkExtent2D;
  image_count : Z;
  current_image_index : Z;
  out_of_date : bool;
}.

(** sync.h *)
Record ve_frame_sync := mkFrameSync {
  render_fence : Z;
  compute_fence : Z;
  transfer_fence : Z;
  image_available : Z;
  render_finished : Z;
  compute_finished : Z;
  transfer_finished : Z;
}.

Record ve_sync_state := mkSyncState {
  frames : list ve_frame_sync;
  current_frame : Z;
  timeline_semaphores : bool;
}.

(** command_buffer.h *)
Inductive ve_command_buffer_type :=
| VE_COMMAND_BUFFER_GRAPHICS
| VE_COMMAND_BUFFER_COMPUTE
| VE_COMMAND_BUFFER_TRANSFER.

Record ve_command_buffer := mkCommandBuffer {
  buffer : Z;
  cb_type : ve_command_buffer_type;
  is_recording : bool;
  is_submitting : bool;
}.

(** assert.h *)
Inductive ve_assert_mode :=
| VE_ASSERT_MODE_DEBUG_BREAK
| VE_ASSERT_MODE_LOG_AND_CONTINUE
| VE_ASSERT_MODE_LOG_AND_EXIT
| VE_ASSERT_MODE_CALLBACK.

(** The fields of [ve_vulkan_context] read by the modules embedded here. *)
Record ve_vulkan_context := mkContext {
  physical_device : Z;
  surface : Z;
  device : Z;
  queues_present : Z;
  vk_current_frame : Z;
}.

(** ** The driver and the host heap *)

(** Objects a logical device keeps alive, by handle. *)
Inductive vk_object :=
| Fence (signaled : bool)
| Semaphore
| ImageView
| Framebuffer
| Swapchain (imgs : list Z).

Record driver := mkDriver {
  live : gmap Z vk_object;
  (** the next handle the driver hands out *)
  next_handle : Z;
  (** results of the coming fallible driver calls, in call order; once the
      script is used up every call succeeds *)
  vk_results : list Z;
  (** image indices handed out by the coming acquire calls *)
  vk_indices : list Z;
  (** number of completed vkDeviceWaitIdle calls *)
  idle_waits : nat;
}.

(** What the surface and the physical device report when queried. *)
Record surface_report := mkReport {
  rep_capabilities : VkSurfaceCapabilitiesKHR;
  rep_formats : list VkSurfaceFormatKHR;
  rep_present_modes : list Z;
  rep_extensions : list string;
}.

(** One element of a host array. *)
Inductive cell :=
| CUninit
| CHandle (h : Z)
| CFormat (f : VkSurfaceFormatKHR)
| CMode (m : Z)
| CExt (name : string).

Record host := mkHost {
  heap : gmap Z (list cell);
  next_block : Z;
  (** whether the coming malloc calls succeed; used up = they succeed *)
  alloc_results : list bool;
}.

Record world := mkWorld {
  drv : driver;
  mem : host;
  report : surface_report;
  g_assert_mode : ve_assert_mode;
  (** the registered assert callback, as the answer it gives *)
  g_assert_callback : option bool;
  g_vulkan_context : ve_vulkan_context;
  g_swapchain : ve_swapchain;
  g_owns_framebuffers : bool;
  g_sync_state : ve_sync_state;
  (** command_buffer.c: the per-frame table holds pointers into the store
      of heap-allocated [ve_command_buffer] structs *)
  g_frame_command_buffers : list (list Z);
  g_initialized : bool;
  cmd_store : gmap Z ve_command_buffer;
}.

#[global] Instance VkExtent2D_eq_dec : EqDecision VkExtent2D.
Proof. solve_decision. Defined.

#[global] Instance VkSurfaceFormatKHR_eq_dec : EqDecision VkSurfaceFormatKHR.
Proof. solve_decision. Defined.

#[global] Instance vk_object_eq_dec : EqDecision vk_object.
Proof. solve_decision. Defined.

#[global] Instance cell_eq_dec : EqDecision cell.
Proof. solve_decision. Defined.

(** ** Field updates *)

Definition set_drv (d : driver) (w : world) : world :=
  mkWorld d (mem w) (report w) (g_assert_mode w) (g_assert_callback w)
    (g_vulkan_context w) (g_swapchain w) (g_owns_framebuffers w)
    (g_sync_state w) (g_frame_command_buffers w) (g_initialized w) (cmd_store w).

Definition set_mem (m : host) (w : world) : world :=
  mkWorld (drv w) m (report w) (g_assert_mode w) (g_assert_callback w)
    (g_vulkan_context w) (g_swapchain w) (g_owns_framebuffers w)
    (g_sync_state w) (g_frame_command_buffers w) (g_initialized w) (cmd_store w).

Definition set_g_vulkan_context (c : ve_vulkan_context) (w : world) : world :=
  mkWorld (drv w) (mem w) (report w) (g_assert_mode w) (g_assert_callback w)
    c (g_swapchain w) (g_owns_framebuffers w)
    (g_sync_state w) (g_frame_command_buffers w) (g_initialized w) (cmd_store w).

Definition set_g_swapchain (s : ve_swapchain) (w : world) : world :=
  mkWorld (drv w) (mem w) (report w) (g_assert_mode w) (g_assert_callback w)
    (g_vulkan_context w) s (g_owns_framebuffers w)
    (g_sync_state w) (g_frame_command_buffers w) (g_initialized w) (cmd_store w).

Definition set_g_owns_framebuffers (b : bool) (w : world) : world :=
  mkWorld (drv w) (mem w) (report w) (g_assert_mode w) (g_assert_callback w)
    (g_vulkan_context w) (g_swapchain w) b
    (g_sync_state w) (g_frame_command_buffers w) (g_initialized w) (cmd_store w).

Definition set_g_sync_state (s : ve_sync_state) (w : world) : world :=
  mkWorld (drv w) (mem w) (report w) (g_assert_mode w) (g_assert_callback w)
    (g_vulkan_context w) (g_swapchain w) (g_owns_framebuffers w)
    s (g_frame_command_buffers w) (g_initialized w) (cmd_store w).

Definition set_cmd_store (m : gmap Z ve_command_buffer) (w : world) : world :=
  mkWorld (drv w) (mem w) (report w) (g_assert_mode w) (g_assert_callback w)
    (g_vulkan_context w) (g_swapchain w) (g_owns_framebuffers w)
    (g_sync_state w) (g_frame_command_buffers w) (g_initialized w) m.

Definition set_swapchain (h : Z) (s : ve_swapchain) : ve_swapchain :=
  mkSwapchain h (images s) (image_views s) (framebuffers s) (format s)
    (extent s) (image_count s) (current_image_index s) (out_of_date s).

Definition set_images (p : Z) (s : ve_swapchain) : ve_swapchain :=
  mkSwapchain (swapchain s) p (image_views s) (framebuffers s) (format s)
    (extent s) (image_count s) (current_image_index s) (out_of_date s).

Definition set_image_views (p : Z) (s : ve_swapchain) : ve_swapchain :=
  mkSwapchain (swapchain s) (images s) p (framebuffers s) (format s)
    (extent s) (image_count s) (current_image_index s) (out_of_date s).

Definition set_framebuffers (p : Z) (s : ve_swapchain) : ve_swapchain :=
  mkSwapchain (swapchain s) (images s) (image_views s) p (format s)
    (extent s) (image_count s) (current_image_index s) (out_of_date s).

Definition set_format (f : Z) (s : ve_swapchain) : ve_swapchain :=
  mkSwapchain (swapchain s) (images s) (image_views s) (framebuffers s) f
    (extent s) (image_count s) (current_image_index s) (out_of_date s).

Definition set_extent (e : VkExtent2D) (s : ve_swapchain) : ve_swapchain :=
  mkSwapchain (swapchain s) (images s) (image_views s) (framebuffers s)
    (format s) e (image_count s) (current_image_index s) (out_of_date s).

Definition set_image_count (n : Z) (s : ve_swapchain) : ve_swapchain :=
  mkSwapchain (swapchain s) (images s) (image_views s) (framebuffers s)
    (format s) (extent s) n (current_image_index s) (out_of_date s).

Definition set_current_image_index (i : Z) (s : ve_swapchain) : ve_swapchain :=
  mkSwapchain (swapchain s) (images s) (image_views s) (framebuffers s)
    (format s) (extent s) (image_count s) i (out_of_date s).

Definition set_out_of_date (b : bool) (s : ve_swapchain) : ve_swapchain :=
  mkSwapchain (swapchain s) (images s) (image_views s) (framebuffers s)
    (format s) (extent s) (image_count s) (current_image_index s) b.

(** ** The monad of the embedding

    A call either returns a value and a new world, or the process is
    terminated by [ve_assert_fatal], or it runs into behaviour that C or
    the Vulkan specification leave undefined. *)

Inductive outcome (A : Type) : Type :=
| Ret (a : A)
| Fatal
| Undef.
Arguments Ret {A} a.
Arguments Fatal {A}.
Arguments Undef {A}.

Definition M (A : Type) : Type := world → outcome (A * world).

Definition ret {A} (a : A) : M A := λ w, Ret (a, w).

Definition bind {A B} (m : M A) (k : A → M B) : M B := λ w,
  match m w with
  | Ret (a, w') => k a w'
  | Fatal => Fatal
  | Undef => Undef
  end.

Declare Scope M_scope.
Delimit Scope M_scope with M.
Notation "x ← y ; z" := (bind y (λ x, z))
  (at level 20, y at level 100, z at level 200, only parsing) : M_scope.
Notation "' x ← y ; z" := (bind y (λ x, z))
  (at level 20, x pattern, y at level 100, z at level 200, only parsing) : M_scope.
Notation "x ;; z" := (bind x (λ _, z))
  (at level 100, z at level 200, only parsing, right associativity) : M_scope.
Local Open Scope M_scope.

Definition gets {A} (f : world → A) : M A := λ w, Ret (f w, w).
Definition modify (f : world → world) : M unit := λ w, Ret ((), f w).
Definition undef {A} : M A := λ _, Undef.

(** [for (uint32_t i = lo; i < hi; i++) body], where the body may leave
    the enclosing function through [return v] (it then yields [Some v]). *)
Fixpoint for_range {R} (n : nat) (i : Z) (body : Z → M (option R)) : M (option R) :=
  match n with
  | O => ret None
  | S n' =>
      r ← body i;
      match r with
      | Some v => ret (Some v)
      | None => for_range n' (i + 1) body
      end
  end.

Definition for_u32 {R} (lo hi : Z) (body : Z → M (option R)) : M (option R) :=
  for_range (Z.to_nat (hi - lo)) lo body.

(** The same loop with a body that never returns from the function. *)
Fixpoint iter_range (n : nat) (i : Z) (body : Z → M unit) : M unit :=
  match n with
  | O => ret ()
  | S n' => body i;; iter_range n' (i + 1) body
  end.

Definition iter_u32 (lo hi : Z) (body : Z → M unit) : M unit :=
  iter_range (Z.to_nat (hi - lo)) lo body.

(** ** assert.c *)

(** [debug_break] raises a trap; when a debugger resumes the process,
    [should_continue] is false all the same and the caller goes on to
    [ve_assert_fatal]. *)
Definition ve_assert_handle : M bool :=
  mode ← gets g_assert_mode;
  match mode with
  | VE_ASSERT_MODE_DEBUG_BREAK => ret false
  | VE_ASSERT_MODE_LOG_AND_CONTINUE => ret true
  | VE_ASSERT_MODE_LOG_AND_EXIT => ret false
  | VE_ASSERT_MODE_CALLBACK =>
      cb ← gets g_assert_callback;
      match cb with
      | Some answer => ret answer
      | None => ret false
      end
  end.

Definition ve_assert_fatal {A} : M A := λ _, Fatal.

(** The macro [VE_ASSERT(expr)] of assert.h. *)
Definition VE_ASSERT (expr : bool) : M unit :=
  if expr then ret ()
  else
    go_on ← ve_assert_handle;
    if go_on then ret () else ve_assert_fatal.

(** ** Driver calls *)

(** What the driver's bookkeeping looks like after a call. *)
Definition drv_pop_result (d : driver) : driver :=
  mkDriver (live d) (next_handle d) (tl (vk_results d)) (vk_indices d) (idle_waits d).

Definition drv_pop_index (d : driver) : driver :=
  mkDriver (live d) (next_handle d) (vk_results d) (tl (vk_indices d)) (idle_waits d).

Definition drv_insert (o : vk_object) (d : driver) : driver :=
  mkDriver (<[next_handle d := o]> (live d)) (next_handle d + 1) (vk_results d)
           (vk_indices d) (idle_waits d).

Definition drv_delete (h : Z) (d : driver) : driver :=
  mkDriver (delete h (live d)) (next_handle d) (vk_results d) (vk_indices d) (idle_waits d).

Definition drv_idle (d : driver) : driver :=
  mkDriver (live d) (next_handle d) (vk_results d) (vk_indices d) (S (idle_waits d)).

Definition vk_pop_result : M Z := λ w,
  Ret (hd VK_SUCCESS (vk_results (drv w)), set_drv (drv_pop_result (drv w)) w).

Definition vk_pop_index : M Z := λ w,
  Ret (hd 0 (vk_indices (drv w)), set_drv (drv_pop_index (drv w)) w).

(** A new object under a handle never handed out before. *)
Definition vk_fresh (o : vk_object) : M Z := λ w,
  Ret (next_handle (drv w), set_drv (drv_insert o (drv w)) w).

(** The vkCreate* family.  A successful call yields the new handle, which
    the caller's output location receives; a failing call writes nothing.
    Calling through a NULL device is undefined. *)
Definition vk_create (dev : Z) (o : vk_object) : M (Z * option Z) :=
  if bool_decide (dev = VK_NULL_HANDLE) then undef
  else
    r ← vk_pop_result;
    if bool_decide (r = VK_SUCCESS) then h ← vk_fresh o; ret (r, Some h)
    else ret (r, None).

(** The vkDestroy* family. *)
Definition vk_destroy (dev : Z) (h : Z) : M unit :=
  if bool_decide (dev = VK_NULL_HANDLE) then undef
  else modify (λ w, set_drv (drv_delete h (drv w)) w).

Definition vkCreateFence (dev flags : Z) : M (Z * option Z) :=
  vk_create dev (Fence (Z.testbit flags 0)).
Definition vkCreateSemaphore (dev : Z) : M (Z * option Z) :=
  vk_create dev Semaphore.
Definition vkCreateImageView (dev image : Z) : M (Z * option Z) :=
  vk_create dev ImageView.
Definition vkCreateFramebuffer (dev render_pass view depth_view : Z) : M (Z * option Z) :=
  vk_create dev Framebuffer.

Definition vkDestroyFence : Z → Z → M unit := vk_destroy.
Definition vkDestroySemaphore : Z → Z → M unit := vk_destroy.
Definition vkDestroyImageView : Z → Z → M unit := vk_destroy.
Definition vkDestroyFramebuffer : Z → Z → M unit := vk_destroy.
Definition vkDestroySwapchainKHR : Z → Z → M unit := vk_destroy.

Definition vkDeviceWaitIdle (dev : Z) : M unit :=
  if bool_decide (dev = VK_NULL_HANDLE) then undef
  else modify (λ w, set_drv (drv_idle (drv w)) w).

(** A swapchain comes with [min_image_count] images owned by the driver. *)
Definition vkCreateSwapchainKHR (dev min_image_count : Z) : M (Z * option Z) :=
  if bool_decide (dev = VK_NULL_HANDLE) then undef
  else
    r ← vk_pop_result;
    if bool_decide (r = VK_SUCCESS) then
      λ w,
        let d := drv w in
        let h := next_handle d in
        let imgs := seqZ (h + 1) min_image_count in
        Ret ((r, Some h),
             set_drv (mkDriver (<[h := Swapchain imgs]> (live d))
                               (h + 1 + Z.max 0 min_image_count)
                               (vk_results d) (vk_indices d) (idle_waits d)) w)
    else ret (r, None).

(** Only a successful or suboptimal acquire hands out an image index. *)
Definition vkAcquireNextImageKHR (dev chain timeout semaphore : Z) : M (Z * option Z) :=
  if bool_decide (dev = VK_NULL_HANDLE) then undef
  else
    r ← vk_pop_result;
    if bool_decide (r = VK_SUCCESS) || bool_decide (r = VK_SUBOPTIMAL_KHR)
    then i ← vk_pop_index; ret (r, Some i)
    else ret (r, None).

Definition vkQueuePresentKHR (queue chain image_index semaphore : Z) : M Z :=
  if bool_decide (queue = VK_NULL_HANDLE) then undef else vk_pop_result.

(** ** memory.c: [ve_allocate] and [ve_free]

    [count] is the number of array elements asked for; the byte size
    handed to [ve_allocate] is zero exactly when [count] is. *)
Definition ve_allocate (count : Z) : M Z :=
  if bool_decide (count = 0) then ret 0
  else λ w,
    let m := mem w in
    if hd true (alloc_results m) then
      let p := next_block m in
      Ret (p, set_mem (mkHost (<[p := replicate (Z.to_nat count) CUninit]> (heap m))
                              (p + 1) (tl (alloc_results m))) w)
    else
      Ret (0, set_mem (mkHost (heap m) (next_block m) (tl (alloc_results m))) w).

(** The host memory with block [p] set to [l]. *)
Definition mem_write (p : Z) (l : list cell) (m : host) : host :=
  mkHost (<[p := l]> (heap m)) (next_block m) (alloc_results m).

Definition mem_free (p : Z) (m : host) : host :=
  mkHost (delete p (heap m)) (next_block m) (alloc_results m).

Definition ve_free (p : Z) : M unit :=
  if bool_decide (p = 0) then ret ()
  else modify (λ w, set_mem (mem_free p (mem w)) w).

(** [p[i]] as an rvalue; reading outside a live block is undefined. *)
Definition load (p i : Z) : M cell := λ w,
  match heap (mem w) !! p with
  | Some l =>
      match l !! Z.to_nat i with
      | Some c => Ret (c, w)
      | None => Undef
      end
  | None => Undef
  end.

(** Reading a handle that was never written is undefined as well. *)
Definition load_handle (p i : Z) : M Z :=
  c ← load p i;
  match c with
  | CHandle h => ret h
  | _ => undef
  end.

(** [p[i] = c] *)
Definition store (p i : Z) (c : cell) : M unit := λ w,
  match heap (mem w) !! p with
  | Some l =>
      if bool_decide (Z.to_nat i < length l)%nat then
        Ret ((), set_mem (mem_write p (<[Z.to_nat i := c]> l) (mem w)) w)
      else Undef
  | None => Undef
  end.

(** A driver query filling the caller's array: with a NULL array it only
    reports the count. *)
Definition vk_fill (p : Z) (cells : list cell) : M unit := λ w,
  if bool_decide (p = 0) then Ret ((), w)
  else
    match heap (mem w) !! p with
    | Some l =>
        Ret ((), set_mem (mem_write p (take (length l) cells ++ drop (length cells) l) (mem w)) w)
    | None => Undef
    end.

(** [vkGetSwapchainImagesKHR(dev, chain, &count, p)]: yields the new value
    of [count]. *)
Definition vkGetSwapchainImagesKHR (dev chain count p : Z) : M Z :=
  d ← gets drv;
  match live d !! chain with
  | Some (Swapchain imgs) =>
      if bool_decide (p = 0) then ret (Z.of_nat (length imgs))
      else
        let written := take (Z.to_nat count) imgs in
        vk_fill p (CHandle <$> written);;
        ret (Z.of_nat (length written))
  | _ => undef
  end.

(** ** Conversions between [uint32_t] and [float]

    Every [uint32_t] converts to a binary32 number that is an integer, so
    a [float] is represented here by the integer it denotes.  The
    conversion rounds to the nearest number with a 24-bit significand,
    ties to even; [fminf] and [fmaxf] are exact. *)
Module Float32.

Definition of_u32 (n : Z) : Z :=
  if n <? 2 ^ 24 then n
  else
    let e := Z.log2 n - 23 in
    let q := Z.shiftr n e in
    let r := Z.land n (Z.ones e) in
    let half := Z.shiftl 1 (e - 1) in
    let q' := if (half <? r) || ((r =? half) && Z.odd q) then q + 1 else q in
    Z.shiftl q' e.

Definition fminf (x y : Z) : Z := Z.min x y.
Definition fmaxf (x y : Z) : Z := Z.max x y.

(** [(uint32_t)x]: undefined when the value does not fit. *)
Definition to_u32 (x : Z) : M Z :=
  if (0 <=? x) && (x <? 2 ^ 32) then ret x else undef.

End Float32.

(** ** vulkan_core.c *)

Record ve_swapchain_support := mkSupport {
  capabilities : VkSurfaceCapabilitiesKHR;
  formats : Z;
  format_count : Z;
  present_modes : Z;
  present_mode_count : Z;
}.

Definition zero_extent : VkExtent2D := mkExtent 0 0.
Definition zero_capabilities : VkSurfaceCapabilitiesKHR :=
  mkCapabilities 0 0 zero_extent zero_extent zero_extent.

Definition ve_vulkan_wait_idle : M unit :=
  dev ← gets (λ w, device (g_vulkan_context w));
  if bool_decide (dev ≠ VK_NULL_HANDLE) then vkDeviceWaitIdle dev else ret ().

Definition ve_vulkan_get_current_frame : M Z :=
  gets (λ w, vk_current_frame (g_vulkan_context w)).

Definition ve_vulkan_advance_frame : M unit :=
  modify (λ w,
    let c := g_vulkan_context w in
    set_g_vulkan_context
      (mkContext (physical_device c) (surface c) (device c) (queues_present c)
                 (u32 (vk_current_frame c + 1) mod VE_MAX_FRAMES_IN_FLIGHT)) w).

Definition ve_vulkan_query_swapchain_support (phys : Z) : M ve_swapchain_support :=
  surf ← gets (λ w, surface (g_vulkan_context w));
  if bool_decide (surf ≠ VK_NULL_HANDLE) then
    caps ← gets (λ w, rep_capabilities (report w));
    fmts ← gets (λ w, rep_formats (report w));
    let count := Z.of_nat (length fmts) in
    fp ← (if bool_decide (0 < count) then
            p ← ve_allocate count;
            vk_fill p (CFormat <$> fmts);;
            ret p
          else ret 0);
    modes ← gets (λ w, rep_present_modes (report w));
    let mode_count := Z.of_nat (length modes) in
    mp ← (if bool_decide (0 < mode_count) then
            p ← ve_allocate mode_count;
            vk_fill p (CMode <$> modes);;
            ret p
          else ret 0);
    ret (mkSupport caps fp count mp mode_count)
  else ret (mkSupport zero_capabilities 0 0 0 0).

(** ** swapchain.c *)

Definition load_format (p i : Z) : M VkSurfaceFormatKHR :=
  c ← load p i;
  match c with
  | CFormat f => ret f
  | _ => undef
  end.

Definition load_mode (p i : Z) : M Z :=
  c ← load p i;
  match c with
  | CMode m => ret m
  | _ => undef
  end.

Definition B8G8R8A8_SRGB_NONLINEAR : VkSurfaceFormatKHR :=
  mkSurfaceFormat VK_FORMAT_B8G8R8A8_SRGB VK_COLOR_SPACE_SRGB_NONLINEAR_KHR.

(** [fmts] and [count] are the array pointer and its length; [preferred]
    is the pointee of the optional argument, [None] for NULL. *)
Definition ve_swapchain_choose_surface_format
    (fmts count : Z) (preferred : option VkSurfaceFormatKHR) : M VkSurfaceFormatKHR :=
  VE_ASSERT (bool_decide (fmts ≠ 0) && bool_decide (0 < count));;
  (* Check preferred format *)
  found ← match preferred with
          | Some pref =>
              for_u32 0 count (λ i,
                f ← load_format fmts i;
                if (sf_format f =? sf_format pref) && (sf_colorSpace f =? sf_colorSpace pref)
                then ret (Some f) else ret None)
          | None => ret None
          end;
  match found with
  | Some f => ret f
  | None =>
      (* Look for B8G8R8A8_SRGB with nonlinear color space *)
      found ← for_u32 0 count (λ i,
                f ← load_format fmts i;
                if (sf_format f =? VK_FORMAT_B8G8R8A8_SRGB)
                   && (sf_colorSpace f =? VK_COLOR_SPACE_SRGB_NONLINEAR_KHR)
                then ret (Some f) else ret None);
      match found with
      | Some f => ret f
      | None => load_format fmts 0 (* Fallback to first available *)
      end
  end.

Definition ve_swapchain_choose_present_mode
    (modes mode_count : Z) (vsync triple_buffering : bool) : M Z :=
  VE_ASSERT (bool_decide (modes ≠ 0) && bool_decide (0 < mode_count));;
  (* Mailbox mode is best for triple buffering without tearing *)
  found ← (if triple_buffering && negb vsync then
             for_u32 0 mode_count (λ i,
               m ← load_mode modes i;
               if m =? VK_PRESENT_MODE_MAILBOX_KHR then ret (Some m) else ret None)
           else ret None);
  match found with
  | Some m => ret m
  | None =>
      (* Immediate mode for lowest latency *)
      found ← (if negb vsync then
                 for_u32 0 mode_count (λ i,
                   m ← load_mode modes i;
                   if m =? VK_PRESENT_MODE_IMMEDIATE_KHR then ret (Some m) else ret None)
               else ret None);
      match found with
      | Some m => ret m
      | None => ret VK_PRESENT_MODE_FIFO_KHR (* FIFO is guaranteed and is V-Sync *)
      end
  end.

(** [caps] is the pointee of the [capabilities] argument, [None] for NULL. *)
Definition ve_swapchain_choose_extent
    (caps : option VkSurfaceCapabilitiesKHR) (w h : Z) : M VkExtent2D :=
  VE_ASSERT (bool_decide (is_Some caps));;
  match caps with
  | None => undef
  | Some c =>
      if bool_decide (width (currentExtent c) ≠ UINT32_MAX) then ret (currentExtent c)
      else
        ew ← Float32.to_u32
               (Float32.fmaxf (Float32.of_u32 (width (minImageExtent c)))
                  (Float32.fminf (Float32.of_u32 (width (maxImageExtent c)))
                                 (Float32.of_u32 w)));
        eh ← Float32.to_u32
               (Float32.fmaxf (Float32.of_u32 (height (minImageExtent c)))
                  (Float32.fminf (Float32.of_u32 (height (maxImageExtent c)))
                                 (Float32.of_u32 h)));
        ret (mkExtent ew eh)
  end.

Definition update_swapchain (f : ve_swapchain → ve_swapchain) : M unit :=
  modify (λ w, set_g_swapchain (f (g_swapchain w)) w).

(** What an output location [&array[i]] receives from a vkCreate* call. *)
Definition out_array (p i : Z) (oh : option Z) : M unit :=
  match oh with
  | Some h => store p i (CHandle h)
  | None => ret ()
  end.

Definition ve_swapchain_create_image_views : M Z :=
  dev ← gets (λ w, device (g_vulkan_context w));
  VE_ASSERT (bool_decide (dev ≠ VK_NULL_HANDLE));;
  n ← gets (λ w, image_count (g_swapchain w));
  views ← ve_allocate n;
  update_swapchain (set_image_views views);;
  if bool_decide (views = 0) then ret VK_ERROR_OUT_OF_HOST_MEMORY
  else
    failed ← for_u32 0 n (λ i,
      imgs ← gets (λ w, images (g_swapchain w));
      image ← load_handle imgs i;
      '(result, oh) ← vkCreateImageView dev image;
      out_array views i oh;;
      if bool_decide (result ≠ VK_SUCCESS) then
        (* Clean up already created views *)
        iter_u32 0 i (λ j,
          v ← load_handle views j;
          vkDestroyImageView dev v);;
        ve_free views;;
        update_swapchain (set_image_views 0);;
        ret (Some result)
      else ret None);
    match failed with
    | Some result => ret result
    | None => ret VK_SUCCESS
    end.

(** The block "free old framebuffers if we own them", which the source
    repeats in [ve_swapchain_create_framebuffers] and
    [ve_swapchain_set_framebuffers]. *)
Definition free_owned_framebuffers (dev : Z) : M unit :=
  owns ← gets g_owns_framebuffers;
  fbs ← gets (λ w, framebuffers (g_swapchain w));
  if owns && bool_decide (fbs ≠ 0) then
    n ← gets (λ w, image_count (g_swapchain w));
    iter_u32 0 n (λ i,
      fb ← load_handle fbs i;
      if bool_decide (fb ≠ VK_NULL_HANDLE) then vkDestroyFramebuffer dev fb else ret ());;
    ve_free fbs
  else ret ().

Definition ve_swapchain_create_framebuffers (render_pass depth_view : Z) : M Z :=
  dev ← gets (λ w, device (g_vulkan_context w));
  VE_ASSERT (bool_decide (dev ≠ VK_NULL_HANDLE));;
  VE_ASSERT (bool_decide (render_pass ≠ VK_NULL_HANDLE));;
  free_owned_framebuffers dev;;
  n ← gets (λ w, image_count (g_swapchain w));
  fbs ← ve_allocate n;
  update_swapchain (set_framebuffers fbs);;
  if bool_decide (fbs = 0) then ret VK_ERROR_OUT_OF_HOST_MEMORY
  else
    modify (set_g_owns_framebuffers true);;
    failed ← for_u32 0 n (λ i,
      views ← gets (λ w, image_views (g_swapchain w));
      view ← load_handle views i;
      '(result, oh) ← vkCreateFramebuffer dev render_pass view depth_view;
      out_array fbs i oh;;
      if bool_decide (result ≠ VK_SUCCESS) then
        (* Clean up already created framebuffers *)
        iter_u32 0 i (λ j,
          fb ← load_handle fbs j;
          vkDestroyFramebuffer dev fb);;
        ve_free fbs;;
        update_swapchain (set_framebuffers 0);;
        ret (Some result)
      else ret None);
    match failed with
    | Some result => ret result
    | None => ret VK_SUCCESS
    end.

Definition ve_swapchain_set_framebuffers (fbs count : Z) (owns_framebuffers : bool) : M unit :=
  dev ← gets (λ w, device (g_vulkan_context w));
  free_owned_framebuffers dev;;
  update_swapchain (set_framebuffers fbs);;
  update_swapchain (set_image_count count);;
  modify (set_g_owns_framebuffers owns_framebuffers).

Definition ve_swapchain_destroy : M unit :=
  dev ← gets (λ w, device (g_vulkan_context w));
  ve_vulkan_wait_idle;;
  (* Destroy framebuffers *)
  fbs ← gets (λ w, framebuffers (g_swapchain w));
  (if bool_decide (fbs ≠ 0) then
     owns ← gets g_owns_framebuffers;
     (if owns then
        n ← gets (λ w, image_count (g_swapchain w));
        iter_u32 0 n (λ i,
          fb ← load_handle fbs i;
          if bool_decide (fb ≠ VK_NULL_HANDLE) then vkDestroyFramebuffer dev fb else ret ())
      else ret ());;
     ve_free fbs;;
     update_swapchain (set_framebuffers 0)
   else ret ());;
  (* Destroy image views *)
  views ← gets (λ w, image_views (g_swapchain w));
  (if bool_decide (views ≠ 0) then
     n ← gets (λ w, image_count (g_swapchain w));
     iter_u32 0 n (λ i,
       v ← load_handle views i;
       if bool_decide (v ≠ VK_NULL_HANDLE) then vkDestroyImageView dev v else ret ());;
     ve_free views;;
     update_swapchain (set_image_views 0)
   else ret ());;
  (* Destroy images (owned by swapchain, not allocated by us) *)
  imgs ← gets (λ w, images (g_swapchain w));
  (if bool_decide (imgs ≠ 0) then
     ve_free imgs;;
     update_swapchain (set_images 0)
   else ret ());;
  (* Destroy swapchain *)
  chain ← gets (λ w, swapchain (g_swapchain w));
  (if bool_decide (chain ≠ VK_NULL_HANDLE) then
     vkDestroySwapchainKHR dev chain;;
     update_swapchain (set_swapchain VK_NULL_HANDLE)
   else ret ());;
  update_swapchain (set_image_count 0);;
  update_swapchain (set_current_image_index 0).

Definition ve_swapchain_create (config : ve_swapchain_config) : M Z :=
  phys ← gets (λ w, physical_device (g_vulkan_context w));
  surf ← gets (λ w, surface (g_vulkan_context w));
  dev ← gets (λ w, device (g_vulkan_context w));
  VE_ASSERT (bool_decide (phys ≠ VK_NULL_HANDLE) && bool_decide (surf ≠ VK_NULL_HANDLE));;
  (* Destroy existing swapchain if any *)
  old ← gets (λ w, swapchain (g_swapchain w));
  (if bool_decide (old ≠ VK_NULL_HANDLE) then ve_swapchain_destroy else ret ());;
  (* Query swapchain support *)
  support ← ve_vulkan_query_swapchain_support phys;
  (* Choose format and present mode *)
  surface_format ←
    (if bool_decide (sf_format (preferred_format config) ≠ VK_FORMAT_UNDEFINED) then
       ve_swapchain_choose_surface_format (formats support) (format_count support)
         (Some (preferred_format config))
     else
       ve_swapchain_choose_surface_format (formats support) (format_count support) None);
  present_mode ←
    ve_swapchain_choose_present_mode (present_modes support) (present_mode_count support)
      (vsync config) (triple_buffering config);
  ext ← ve_swapchain_choose_extent (Some (capabilities support))
          (cfg_width config) (cfg_height config);
  (* Image count *)
  let caps := capabilities support in
  let count := u32 (minImageCount caps + 1) in
  let count :=
    if (0 <? maxImageCount caps) && (maxImageCount caps <? count)
    then maxImageCount caps else count in
  '(result, oh) ← vkCreateSwapchainKHR dev count;
  match oh with
  | Some h => update_swapchain (set_swapchain h)
  | None => ret ()
  end;;
  (* Free support details *)
  ve_free (formats support);;
  ve_free (present_modes support);;
  if bool_decide (result ≠ VK_SUCCESS) then ret result
  else
    (* Store swapchain properties *)
    update_swapchain (set_format (sf_format surface_format));;
    update_swapchain (set_extent ext);;
    (* Get swapchain images *)
    chain ← gets (λ w, swapchain (g_swapchain w));
    count ← vkGetSwapchainImagesKHR dev chain count 0;
    imgs ← ve_allocate count;
    update_swapchain (set_images imgs);;
    count ← vkGetSwapchainImagesKHR dev chain count imgs;
    update_swapchain (set_image_count count);;
    (* Create image views *)
    result ← ve_swapchain_create_image_views;
    if bool_decide (result ≠ VK_SUCCESS) then
      ve_swapchain_destroy;;
      ret result
    else
      update_swapchain (set_out_of_date false);;
      update_swapchain (set_framebuffers 0);;
      ret VK_SUCCESS.

Definition ve_swapchain_recreate (config : ve_swapchain_config) : M Z :=
  ve_vulkan_wait_idle;;
  ve_swapchain_create config.

Definition ve_swapchain_acquire_next_image (signal_semaphore : Z) : M Z :=
  dev ← gets (λ w, device (g_vulkan_context w));
  VE_ASSERT (bool_decide (dev ≠ VK_NULL_HANDLE));;
  chain ← gets (λ w, swapchain (g_swapchain w));
  '(result, oi) ← vkAcquireNextImageKHR dev chain UINT64_MAX signal_semaphore;
  match oi with
  | Some i => update_swapchain (set_current_image_index i)
  | None => ret ()
  end;;
  if bool_decide (result = VK_ERROR_OUT_OF_DATE_KHR) then
    update_swapchain (set_out_of_date true);;
    ret VK_SUBOPTIMAL_KHR
  else if bool_decide (result = VK_SUBOPTIMAL_KHR) then
    update_swapchain (set_out_of_date true);;
    ret VK_SUCCESS (* Can still present *)
  else ret result.

Definition ve_swapchain_present (wait_semaphore : Z) : M Z :=
  dev ← gets (λ w, device (g_vulkan_context w));
  VE_ASSERT (bool_decide (dev ≠ VK_NULL_HANDLE));;
  queue ← gets (λ w, queues_present (g_vulkan_context w));
  chain ← gets (λ w, swapchain (g_swapchain w));
  index ← gets (λ w, current_image_index (g_swapchain w));
  result ← vkQueuePresentKHR queue chain index wait_semaphore;
  if bool_decide (result = VK_ERROR_OUT_OF_DATE_KHR) || bool_decide (result = VK_SUBOPTIMAL_KHR) then
    update_swapchain (set_out_of_date true);;
    ret result
  else
    update_swapchain (set_out_of_date false);;
    ret result.

Definition ve_swapchain_is_out_of_date : M bool :=
  gets (λ w, out_of_date (g_swapchain w)).

(** ** sync.c *)

Definition zero_frame_sync : ve_frame_sync := mkFrameSync 0 0 0 0 0 0 0.

(** [memset(&g_sync_state, 0, sizeof(ve_sync_state))] *)
Definition zero_sync_state : ve_sync_state :=
  mkSyncState (replicate (Z.to_nat VE_MAX_FRAMES_IN_FLIGHT) zero_frame_sync) 0 false.

(** The members of [ve_frame_sync], to address [&frames[i].member]. *)
Inductive sync_member :=
| m_render_fence | m_compute_fence | m_transfer_fence
| m_image_available | m_render_finished | m_compute_finished | m_transfer_finished.

Definition get_member (m : sync_member) (f : ve_frame_sync) : Z :=
  match m with
  | m_render_fence => render_fence f
  | m_compute_fence => compute_fence f
  | m_transfer_fence => transfer_fence f
  | m_image_available => image_available f
  | m_render_finished => render_finished f
  | m_compute_finished => compute_finished f
  | m_transfer_finished => transfer_finished f
  end.

Definition set_member (m : sync_member) (h : Z) (f : ve_frame_sync) : ve_frame_sync :=
  match m with
  | m_render_fence =>
      mkFrameSync h (compute_fence f) (transfer_fence f) (image_available f)
        (render_finished f) (compute_finished f) (transfer_finished f)
  | m_compute_fence =>
      mkFrameSync (render_fence f) h (transfer_fence f) (image_available f)
        (render_finished f) (compute_finished f) (transfer_finished f)
  | m_transfer_fence =>
      mkFrameSync (render_fence f) (compute_fence f) h (image_available f)
        (render_finished f) (compute_finished f) (transfer_finished f)
  | m_image_available =>
      mkFrameSync (render_fence f) (compute_fence f) (transfer_fence f) h
        (render_finished f) (compute_finished f) (transfer_finished f)
  | m_render_finished =>
      mkFrameSync (render_fence f) (compute_fence f) (transfer_fence f)
        (image_available f) h (compute_finished f) (transfer_finished f)
  | m_compute_finished =>
      mkFrameSync (render_fence f) (compute_fence f) (transfer_fence f)
        (image_available f) (render_finished f) h (transfer_finished f)
  | m_transfer_finished =>
      mkFrameSync (render_fence f) (compute_fence f) (transfer_fence f)
        (image_available f) (render_finished f) (compute_finished f) h
  end.

(** [g_sync_state.frames[i].m] as an rvalue; an index outside the array
    is undefined. *)
Definition frame_member (i : Z) (m : sync_member) : M Z := λ w,
  match frames (g_sync_state w) !! Z.to_nat i with
  | Some f => Ret (get_member m f, w)
  | None => Undef
  end.

(** [g_sync_state.frames[i].m = h] *)
Definition set_frame_member (i : Z) (m : sync_member) (h : Z) : M unit := λ w,
  let st := g_sync_state w in
  match frames st !! Z.to_nat i with
  | Some f =>
      Ret ((), set_g_sync_state
                 (mkSyncState (<[Z.to_nat i := set_member m h f]> (frames st))
                              (current_frame st) (timeline_semaphores st)) w)
  | None => Undef
  end.

Definition ve_sync_supports_timeline : M bool :=
  phys ← gets (λ w, physical_device (g_vulkan_context w));
  if bool_decide (phys = VK_NULL_HANDLE) then ret false
  else
    (* Check for VK_KHR_timeline_semaphore extension *)
    exts ← gets (λ w, rep_extensions (report w));
    let extension_count := Z.of_nat (length exts) in
    extensions ← ve_allocate extension_count;
    if bool_decide (extensions = 0) then ret false
    else
      vk_fill extensions (CExt <$> exts);;
      found ← for_u32 0 extension_count (λ i,
        c ← load extensions i;
        match c with
        | CExt name =>
            if String.eqb name VK_KHR_TIMELINE_SEMAPHORE_EXTENSION_NAME
            then ret (Some true) else ret None
        | _ => undef
        end);
      ve_free extensions;;
      ret (default false found).

Definition ve_sync_create_semaphore (name : string) : M Z :=
  dev ← gets (λ w, device (g_vulkan_context w));
  VE_ASSERT (bool_decide (dev ≠ VK_NULL_HANDLE));;
  '(result, oh) ← vkCreateSemaphore dev;
  ret (default VK_NULL_HANDLE oh).

Definition ve_sync_destroy_semaphore (semaphore : Z) : M unit :=
  dev ← gets (λ w, device (g_vulkan_context w));
  if bool_decide (dev = VK_NULL_HANDLE) || bool_decide (semaphore = VK_NULL_HANDLE)
  then ret ()
  else vkDestroySemaphore dev semaphore.

Definition ve_sync_shutdown : M unit :=
  dev ← gets (λ w, device (g_vulkan_context w));
  if bool_decide (dev = VK_NULL_HANDLE) then ret ()
  else
    (* Wait for all frames to finish *)
    vkDeviceWaitIdle dev;;
    iter_u32 0 VE_MAX_FRAMES_IN_FLIGHT (λ i,
      (* Destroy fences *)
      fence ← frame_member i m_render_fence;
      (if bool_decide (fence ≠ VK_NULL_HANDLE) then
         vkDestroyFence dev fence;;
         set_frame_member i m_render_fence VK_NULL_HANDLE
       else ret ());;
      fence ← frame_member i m_compute_fence;
      (if bool_decide (fence ≠ VK_NULL_HANDLE) then
         vkDestroyFence dev fence;;
         set_frame_member i m_compute_fence VK_NULL_HANDLE
       else ret ());;
      fence ← frame_member i m_transfer_fence;
      (if bool_decide (fence ≠ VK_NULL_HANDLE) then
         vkDestroyFence dev fence;;
         set_frame_member i m_transfer_fence VK_NULL_HANDLE
       else ret ());;
      (* Destroy semaphores *)
      s ← frame_member i m_image_available; ve_sync_destroy_semaphore s;;
      s ← frame_member i m_render_finished; ve_sync_destroy_semaphore s;;
      s ← frame_member i m_compute_finished; ve_sync_destroy_semaphore s;;
      s ← frame_member i m_transfer_finished; ve_sync_destroy_semaphore s);;
    modify (set_g_sync_state zero_sync_state).

(** What an output location [&frames[i].m] receives from a vkCreate* call. *)
Definition out_member (i : Z) (m : sync_member) (oh : option Z) : M unit :=
  match oh with
  | Some h => set_frame_member i m h
  | None => ret ()
  end.

Definition ve_sync_init : M Z :=
  dev ← gets (λ w, device (g_vulkan_context w));
  VE_ASSERT (bool_decide (dev ≠ VK_NULL_HANDLE));;
  modify (set_g_sync_state zero_sync_state);;
  (* Check for timeline semaphore support *)
  timeline ← ve_sync_supports_timeline;
  modify (λ w,
    let st := g_sync_state w in
    set_g_sync_state (mkSyncState (frames st) (current_frame st) timeline) w);;
  (* Create sync primitives for each frame *)
  failed ← for_u32 0 VE_MAX_FRAMES_IN_FLIGHT (λ i,
    (* Render fence - signaled state *)
    let flags := VK_FENCE_CREATE_SIGNALED_BIT in
    '(result, oh) ← vkCreateFence dev flags;
    out_member i m_render_fence oh;;
    if bool_decide (result ≠ VK_SUCCESS) then ve_sync_shutdown;; ret (Some result)
    else
      (* Compute fence *)
      '(result, oh) ← vkCreateFence dev flags;
      out_member i m_compute_fence oh;;
      if bool_decide (result ≠ VK_SUCCESS) then ve_sync_shutdown;; ret (Some result)
      else
        (* Transfer fence *)
        '(result, oh) ← vkCreateFence dev flags;
        out_member i m_transfer_fence oh;;
        if bool_decide (result ≠ VK_SUCCESS) then ve_sync_shutdown;; ret (Some result)
        else
          (* Semaphores *)
          s ← ve_sync_create_semaphore "image_available";
          set_frame_member i m_image_available s;;
          s ← ve_sync_create_semaphore "render_finished";
          set_frame_member i m_render_finished s;;
          s ← ve_sync_create_semaphore "compute_finished";
          set_frame_member i m_compute_finished s;;
          s ← ve_sync_create_semaphore "transfer_finished";
          set_frame_member i m_transfer_finished s;;
          a ← frame_member i m_image_available;
          b ← frame_member i m_render_finished;
          c ← frame_member i m_compute_finished;
          d ← frame_member i m_transfer_finished;
          if bool_decide (a = 0) || bool_decide (b = 0)
             || bool_decide (c = 0) || bool_decide (d = 0) then
            ve_sync_shutdown;;
            ret (Some VK_ERROR_OUT_OF_DEVICE_MEMORY)
          else ret None);
  match failed with
  | Some result => ret result
  | None => ret VK_SUCCESS
  end.

(** The returned pointer [&g_sync_state.frames[i]] is given by its
    pointee; [None] is NULL. *)
Definition ve_sync_get_frame (frame_index : Z) : M (option ve_frame_sync) :=
  if bool_decide (VE_MAX_FRAMES_IN_FLIGHT ≤ frame_index) then ret None
  else λ w,
    match frames (g_sync_state w) !! Z.to_nat frame_index with
    | Some f => Ret (Some f, w)
    | None => Undef
    end.

Definition ve_sync_advance_frame : M unit :=
  modify (λ w,
    let st := g_sync_state w in
    set_g_sync_state
      (mkSyncState (frames st)
                   (u32 (current_frame st + 1) mod VE_MAX_FRAMES_IN_FLIGHT)
                   (timeline_semaphores st)) w).

Definition ve_sync_get_current_frame_index : M Z :=
  gets (λ w, current_frame (g_sync_state w)).

(** ** command_buffer.c *)

Definition vkBeginCommandBuffer (buf flags : Z) : M Z := vk_pop_result.
Definition vkEndCommandBuffer (buf : Z) : M Z := vk_pop_result.

(** [*cmd]; a pointer that is not a live command buffer cannot be read. *)
Definition deref_cmd (cmd : Z) : M ve_command_buffer := λ w,
  match cmd_store w !! cmd with
  | Some c => Ret (c, w)
  | None => Undef
  end.

(** [cmd->is_recording = b] *)
Definition set_is_recording (cmd : Z) (b : bool) : M unit :=
  c ← deref_cmd cmd;
  modify (λ w,
    set_cmd_store
      (<[cmd := mkCommandBuffer (buffer c) (cb_type c) b (is_submitting c)]> (cmd_store w)) w).

Definition ve_command_buffer_begin (cmd flags : Z) : M Z :=
  (* cmd && !cmd->is_recording *)
  ok ← (if bool_decide (cmd = 0) then ret false
        else c ← deref_cmd cmd; ret (negb (is_recording c)));
  VE_ASSERT ok;;
  c ← deref_cmd cmd;
  result ← vkBeginCommandBuffer (buffer c) flags;
  (if bool_decide (result = VK_SUCCESS) then set_is_recording cmd true else ret ());;
  ret result.

Definition ve_command_buffer_end (cmd : Z) : M Z :=
  (* cmd && cmd->is_recording *)
  ok ← (if bool_decide (cmd = 0) then ret false
        else c ← deref_cmd cmd; ret (is_recording c));
  VE_ASSERT ok;;
  c ← deref_cmd cmd;
  result ← vkEndCommandBuffer (buffer c);
  (if bool_decide (result = VK_SUCCESS) then set_is_recording cmd false else ret ());;
  ret result.

Definition type_index (t : ve_command_buffer_type) : nat :=
  match t with
  | VE_COMMAND_BUFFER_GRAPHICS => 0
  | VE_COMMAND_BUFFER_COMPUTE => 1
  | VE_COMMAND_BUFFER_TRANSFER => 2
  end.

Definition ve_command_buffer_get_current (t : ve_command_buffer_type) : M Z :=
  init ← gets g_initialized;
  if negb init || bool_decide (3 ≤ type_index t)%nat then ret 0
  else
    frame ← ve_vulkan_get_current_frame;
    table ← gets g_frame_command_buffers;
    match table !! Z.to_nat frame ≫= (.!! type_index t) with
    | Some cmd => ret cmd
    | None => undef
    end.

Definition ve_command_buffer_begin_frame (t : ve_command_buffer_type) : M Z :=
  cmd ← ve_command_buffer_get_current t;
  if bool_decide (cmd = 0) then ret 0
  else
    c ← deref_cmd cmd;
    if is_recording c then ret cmd (* "Command buffer already recording" *)
    else
      result ← ve_command_buffer_begin cmd VK_COMMAND_BUFFER_USAGE_ONE_TIME_SUBMIT_BIT;
      if bool_decide (result ≠ VK_SUCCESS) then ret 0
      else ret cmd.

(** ** Reference definitions and predicates used by the statements *)

(** The answer [ve_assert_handle] gives in a world. *)
Definition assert_continues (w : world) : bool :=
  match g_assert_mode w with
  | VE_ASSERT_MODE_LOG_AND_CONTINUE => true
  | VE_ASSERT_MODE_CALLBACK => default false (g_assert_callback w)
  | _ => false
  end.

(** The result the driver gives to the next fallible call. *)
Definition next_result (w : world) : Z := hd VK_SUCCESS (vk_results (drv w)).

(** Present-mode selection as the specification words it: mailbox if
    triple buffering is requested, v-sync is off and mailbox is offered;
    else immediate if v-sync is off and immediate is offered; else FIFO. *)
Definition select_present_mode (modes : list Z) (vsync triple_buffering : bool) : Z :=
  if triple_buffering && negb vsync && bool_decide (VK_PRESENT_MODE_MAILBOX_KHR ∈ modes)
  then VK_PRESENT_MODE_MAILBOX_KHR
  else if negb vsync && bool_decide (VK_PRESENT_MODE_IMMEDIATE_KHR ∈ modes)
  then VK_PRESENT_MODE_IMMEDIATE_KHR
  else VK_PRESENT_MODE_FIFO_KHR.

(** Format selection as the specification words it, on the non-empty list
    [first :: rest]: the preferred format if offered; else the sRGB 8-bit
    format if offered; else the first reported format. *)
Definition select_surface_format (first : VkSurfaceFormatKHR) (rest : list VkSurfaceFormatKHR)
    (preferred : option VkSurfaceFormatKHR) : VkSurfaceFormatKHR :=
  let fallback :=
    if bool_decide (B8G8R8A8_SRGB_NONLINEAR ∈ first :: rest)
    then B8G8R8A8_SRGB_NONLINEAR else first in
  match preferred with
  | Some pref => if bool_decide (pref ∈ first :: rest) then pref else fallback
  | None => fallback
  end.

(** Running [m] has the result [a] in a world satisfying [Q]: the call
    returns, it neither aborts nor runs into undefined behaviour. *)
Definition wp {A} (m : M A) (Q : A → world → Prop) (w : world) : Prop :=
  ∃ a w', m w = Ret (a, w') ∧ Q a w'.

(** A world to run examples in: an initialised context, nothing alive,
    an empty heap, and [results] as the driver's script. *)
Definition sample_report : surface_report :=
  mkReport (mkCapabilities 2 8 (mkExtent UINT32_MAX UINT32_MAX) (mkExtent 1 1)
                           (mkExtent 4096 4096))
           [mkSurfaceFormat VK_FORMAT_B8G8R8A8_UNORM VK_COLOR_SPACE_SRGB_NONLINEAR_KHR;
            B8G8R8A8_SRGB_NONLINEAR]
           [VK_PRESENT_MODE_FIFO_KHR]
           ["VK_KHR_swapchain"%string].

Definition sample_world (mode : ve_assert_mode) (results : list Z) : world :=
  mkWorld (mkDriver ∅ 10 results [] 0) (mkHost ∅ 1 []) sample_report mode None
          (mkContext 1 2 3 4 0)
          (mkSwapchain 0 0 0 0 0 zero_extent 0 0 false) false
          zero_sync_state [] false ∅.

(** The operations a frame loop applies to the swapchain. *)
Inductive swapchain_op :=
| OpAcquire (signal_semaphore : Z)
| OpPresent (wait_semaphore : Z)
| OpCreate (config : ve_swapchain_config)
| OpRecreate (config : ve_swapchain_config)
| OpDestroy
| OpCreateFramebuffers (render_pass depth_view : Z)
| OpSetFramebuffers (fbs count : Z) (owns : bool).

(** Runs one operation; the value is its [VkResult], [VK_SUCCESS] for
    the [void] functions. *)
Definition run_op (op : swapchain_op) : M Z :=
  match op with
  | OpAcquire s => ve_swapchain_acquire_next_image s
  | OpPresent s => ve_swapchain_present s
  | OpCreate c => ve_swapchain_create c
  | OpRecreate c => ve_swapchain_recreate c
  | OpDestroy => ve_swapchain_destroy;; ret VK_SUCCESS
  | OpCreateFramebuffers rp dv => ve_swapchain_create_framebuffers rp dv
  | OpSetFramebuffers fbs n owns => ve_swapchain_set_framebuffers fbs n owns;; ret VK_SUCCESS
  end.

(** The operation is a chain rebuild. *)
Definition is_rebuild (op : swapchain_op) : Prop :=
  match op with
  | OpCreate _ | OpRecreate _ => True
  | _ => False
  end.

Definition is_present (op : swapchain_op) : Prop :=
  match op with
  | OpPresent _ => True
  | _ => False
  end.

(** The out-of-date flag of a world. *)
Definition flag (w : world) : bool := out_of_date (g_swapchain w).

(** Whenever [m] returns, the result and the new world satisfy [Q]. *)
Definition wlp {A} (m : M A) (Q : A → world → Prop) (w : world) : Prop :=
  ∀ a w', m w = Ret (a, w') → Q a w'.

(** [m] never changes the out-of-date flag. *)
Definition keeps_flag {A} (m : M A) : Prop :=
  ∀ w a w', m w = Ret (a, w') → flag w' = flag w.

(** Runs a sequence of operations and records, for each, the flag before
    it, its result and the flag after it. *)
Fixpoint run_trace (ops : list swapchain_op) : M (list (swapchain_op * bool * Z * bool)) :=
  match ops with
  | [] => ret []
  | op :: rest =>
      before ← gets flag;
      r ← run_op op;
      after ← gets flag;
      t ← run_trace rest;
      ret ((op, before, r, after) :: t)
  end.

(** [n] calls of [m] in a row. *)
Fixpoint repeat_m (n : nat) (m : M unit) : M unit :=
  match n with
  | O => ret ()
  | S n' => m;; repeat_m n' m
  end.

(** [*cmd] with [is_recording] set to [b]. *)
Definition with_is_recording (b : bool) (c : ve_command_buffer) : ve_command_buffer :=
  mkCommandBuffer (buffer c) (cb_type c) b (is_submitting c).

(** A world in which command_buffer.c is as its static initialisers
    leave it (not initialised, every entry of the frame table NULL) and
    the caller holds one [ve_command_buffer] struct of its own, at address
    1, wrapping the driver's command buffer 51; the struct is in the
    recording state iff [recording]. *)
Definition hand_built_cmd_world (mode : ve_assert_mode) (results : list Z) (recording : bool)
    : world :=
  mkWorld (mkDriver ∅ 100 results [] 0) (mkHost ∅ 1 []) sample_report mode None
          (mkContext 1 2 3 4 0)
          (mkSwapchain 0 0 0 0 0 zero_extent 0 0 false) false
          zero_sync_state
          [[0; 0; 0]; [0; 0; 0]; [0; 0; 0]] false
          {[ 1 := mkCommandBuffer 51 VE_COMMAND_BUFFER_GRAPHICS recording false ]}.

(** Handles and block addresses are handed out in increasing order; what
    is alive or allocated lies strictly between 0 and the next one. *)
Definition wf_drv (d : driver) : Prop :=
  0 < next_handle d ∧ map_Forall (λ h _, 0 < h < next_handle d) (live d).

Definition wf_mem (m : host) : Prop :=
  0 < next_block m ∧ map_Forall (λ p _, 0 < p < next_block m) (heap m).

Definition wf (w : world) : Prop := wf_drv (drv w) ∧ wf_mem (mem w).

(** [m] is [base] plus an object [o] under every handle of [[lo, hi)]. *)
Definition range_live (lo hi : Z) (o : vk_object) (base m : gmap Z vk_object) : Prop :=
  ∀ h, m !! h = if bool_decide (lo ≤ h < hi) then Some o else base !! h.

(** The first [n] elements of the array at [p] hold handles. *)
Definition handles_at (m : host) (p : Z) (n : nat) : Prop :=
  ∃ l, heap m !! p = Some l ∧ ∀ i, (i < n)%nat → ∃ h, l !! i = Some (CHandle h).

(** An array in which the handles [n0, n0 + 1, ...] fill the first [k] of
    [n] elements. *)
Definition filled (n0 : Z) (k n : nat) : list cell :=
  (CHandle <$> seqZ n0 (Z.of_nat k)) ++ replicate (n - k) CUninit.

(** In the driver's script, call number [i] (from 0) is the first that
    fails, and it fails with [e]. *)
Definition first_failure (script : list Z) (i : nat) (e : Z) : Prop :=
  Forall (λ r, r = VK_SUCCESS) (take i script) ∧ script !! i = Some e ∧ e ≠ VK_SUCCESS.

(** A world with a four-image swapchain whose image array (block 1) and
    view array (block 2) are filled in, and no framebuffers yet. *)
Definition sample_chain_world (results : list Z) : world :=
  mkWorld (mkDriver ∅ 10 results [] 0)
          (mkHost {[ 1 := CHandle <$> [101; 102; 103; 104];
                     2 := CHandle <$> [201; 202; 203; 204] ]} 3 [])
          sample_report VE_ASSERT_MODE_DEBUG_BREAK None
          (mkContext 1 2 3 4 0)
          (mkSwapchain 5 1 2 0 VK_FORMAT_B8G8R8A8_SRGB (mkExtent 800 600) 4 0 false) false
          zero_sync_state [] false ∅.

#[global] Instance sync_member_eq_dec : EqDecision sync_member.
Proof. solve_decision. Defined.

(** The members of a frame slot in declaration order, the order in which
    [ve_sync_init] creates them and [ve_sync_shutdown] destroys them. *)
Definition member_index (m : sync_member) : Z :=
  match m with
  | m_render_fence => 0
  | m_compute_fence => 1
  | m_transfer_fence => 2
  | m_image_available => 3
  | m_render_finished => 4
  | m_compute_finished => 5
  | m_transfer_finished => 6
  end.

(** What a member is once created: the fences are created signaled. *)
Definition member_kind (m : sync_member) : vk_object :=
  match m with
  | m_render_fence | m_compute_fence | m_transfer_fence => Fence true
  | _ => Semaphore
  end.

(** [frames[j].m], read as 0 outside the array. *)
Definition member_at (st : ve_sync_state) (j : Z) (m : sync_member) : Z :=
  from_option (get_member m) 0 (frames st !! Z.to_nat j).

(** The driver [d] differs from [d0] by the objects the registry [st]
    holds and by nothing else: every handle in the registry was made
    after [d0] and is alive with the kind of its member, every object
    made after [d0] and still alive is in the registry, and the objects
    of [d0] are untouched. *)
Definition tracks (d0 : driver) (st : ve_sync_state) (d : driver) : Prop :=
  wf_drv d
  ∧ 0 < next_handle d0 ≤ next_handle d
  ∧ (∀ h, h < next_handle d0 → live d !! h = live d0 !! h)
  ∧ (∀ j m, 0 ≤ j < VE_MAX_FRAMES_IN_FLIGHT → member_at st j m ≠ 0 →
       next_handle d0 ≤ member_at st j m
       ∧ live d !! member_at st j m = Some (member_kind m))
  ∧ (∀ h, next_handle d0 ≤ h → is_Some (live d !! h) →
       ∃ j m, 0 ≤ j < VE_MAX_FRAMES_IN_FLIGHT ∧ member_at st j m = h).

(** Members at position [p] and later (7 per frame) are still NULL. *)
Definition untouched (p : Z) (st : ve_sync_state) : Prop :=
  ∀ j m, 0 ≤ j < VE_MAX_FRAMES_IN_FLIGHT → p ≤ 7 * j + member_index m →
         member_at st j m = 0.

(** A registry of the right shape. *)
Definition shaped (st : ve_sync_state) : Prop :=
  length (frames st) = Z.to_nat VE_MAX_FRAMES_IN_FLIGHT ∧ current_frame st = 0.

(** Every slot of the registry is complete: three signaled fences and
    four semaphores, all of them alive. *)
Definition all_slots_ready (st : ve_sync_state) (d : driver) : Prop :=
  length (frames st) = Z.to_nat VE_MAX_FRAMES_IN_FLIGHT
  ∧ ∀ f, f ∈ frames st →
      live d !! render_fence f = Some (Fence true)
      ∧ live d !! compute_fence f = Some (Fence true)
      ∧ live d !! transfer_fence f = Some (Fence true)
      ∧ live d !! image_available f = Some Semaphore
      ∧ live d !! render_finished f = Some Semaphore
      ∧ live d !! compute_finished f = Some Semaphore
      ∧ live d !! transfer_finished f = Some Semaphore.

(** The state of [ve_sync_shutdown] when the members before position [q]
    of the registry [st0] have been dealt with, starting from the driver
    [d0]: their handles are dead, no other object has been touched, and
    the members from [q] on are still to be read. *)
Definition shutdown_inv (st0 : ve_sync_state) (d0 : driver) (q : Z)
    (st : ve_sync_state) (d : driver) : Prop :=
  length (frames st) = Z.to_nat VE_MAX_FRAMES_IN_FLIGHT
  ∧ (∀ j m, 0 ≤ j < VE_MAX_FRAMES_IN_FLIGHT → q ≤ 7 * j + member_index m →
       member_at st j m = member_at st0 j m)
  ∧ wf_drv d ∧ next_handle d = next_handle d0
  ∧ (∀ j m, 0 ≤ j < VE_MAX_FRAMES_IN_FLIGHT → 7 * j + member_index m < q →
       live d !! member_at st0 j m = None)
  ∧ (∀ h, live d !! h = None ∨ live d !! h = live d0 !! h)
  ∧ (∀ h, (∀ j m, 0 ≤ j < VE_MAX_FRAMES_IN_FLIGHT → member_at st0 j m ≠ h) →
       live d !! h = live d0 !! h).

(** [w'] is [w] up to the driver's bookkeeping and the sync registry. *)
Definition same_but_sync (w w' : world) : Prop :=
  w' = set_g_sync_state (g_sync_state w') (set_drv (drv w') w).

(** [w] is [w0] up to the driver and the registry, and [ve_sync_shutdown]
    has reached position [q] in it. *)
Definition at_position (w0 : world) (st0 : ve_sync_state) (d0 : driver) (q : Z)
    (w : world) : Prop :=
  same_but_sync w0 w ∧ shutdown_inv st0 d0 q (g_sync_state w) (drv w).

(** The state of [ve_sync_init] in frame [i] when [t] of its seven
    members have been attempted, [d0] being the driver at the start and
    its script the results of the creation calls to come.  Each attempt
    uses up one result.  A fence that fails ends the function at once, so
    every result before the current frame's semaphores was a success; a
    semaphore that fails leaves its member NULL and is only found by the
    check at the end of the frame. *)
Definition init_inv (d0 : driver) (i t : Z) (st : ve_sync_state) (d : driver) : Prop :=
  shaped st ∧ tracks d0 st d ∧ untouched (7 * i + t) st
  ∧ (∀ j m, 0 ≤ j < i → member_at st j m ≠ 0)
  ∧ (∀ m, member_index m < t → member_index m < 3 → member_at st i m ≠ 0)
  ∧ vk_results d = drop (Z.to_nat (7 * i + t)) (vk_results d0)
  ∧ Forall (λ r, r = VK_SUCCESS) (take (Z.to_nat (7 * i + Z.min t 3)) (vk_results d0))
  ∧ (∀ m, 3 ≤ member_index m < t →
       member_at st i m ≠ 0
       ↔ default VK_SUCCESS (vk_results d0 !! Z.to_nat (7 * i + member_index m)) = VK_SUCCESS).

(** No handle is stored in two members of the registry. *)
Definition distinct_members (st : ve_sync_state) : Prop :=
  ∀ j m j' m', 0 ≤ j < VE_MAX_FRAMES_IN_FLIGHT → 0 ≤ j' < VE_MAX_FRAMES_IN_FLIGHT →
    member_at st j m ≠ 0 → member_at st j m = member_at st j' m' → j = j' ∧ m = m'.

(** [w] is [wb] up to the driver and the registry, and [ve_sync_init] has
    reached member [t] of frame [i] in it. *)
Definition init_at (wb : world) (d0 : driver) (i t : Z) (w : world) : Prop :=
  same_but_sync wb w ∧ init_inv d0 i t (g_sync_state w) (drv w)
  ∧ distinct_members (g_sync_state w).

(** A failed initialisation has left nothing behind: the registry is
    zeroed and the device keeps alive exactly the objects of [d0]. *)
Definition rolled_back (wb : world) (d0 : driver) (w : world) : Prop :=
  ∃ d, w = set_g_sync_state zero_sync_state (set_drv d wb)
       ∧ live d = live d0 ∧ wf_drv d ∧ next_handle d0 ≤ next_handle d.

(** [ve_sync_init] gave up with [r]: the first failure of the script was
    met, its code (or, for a semaphore, the out-of-device-memory code) is
    the result, and nothing has been left behind. *)
Definition init_failed (wb : world) (d0 : driver) (r : Z) (w : world) : Prop :=
  (∃ k e, first_failure (vk_results d0) k e
          ∧ (k < Z.to_nat (7 * VE_MAX_FRAMES_IN_FLIGHT))%nat
          ∧ r = if bool_decide (Z.of_nat k mod 7 < 3) then e
                else VK_ERROR_OUT_OF_DEVICE_MEMORY)
  ∧ rolled_back wb d0 w.

(** The operations that write the current-frame index of the registry. *)
Inductive sync_op :=
| OpSyncInit
| OpSyncAdvance.

Definition run_sync_op (o : sync_op) : M unit :=
  match o with
  | OpSyncInit => _ ← ve_sync_init; ret ()
  | OpSyncAdvance => ve_sync_advance_frame
  end.

Fixpoint run_sync_ops (ops : list sync_op) : M unit :=
  match ops with
  | [] => ret ()
  | o :: ops' => run_sync_op o;; run_sync_ops ops'
  end.

(** ** sync.c: the remaining entry points *)








(** The debug name is attached only when validation is enabled and does
    not enter the state kept here. *)
Definition ve_sync_create_fence (flags : Z) (name : string) : M Z :=
  dev ← gets (λ w, device (g_vulkan_context w));
  VE_ASSERT (bool_decide (dev ≠ VK_NULL_HANDLE));;
  '(result, oh) ← vkCreateFence dev flags;
  ret (default VK_NULL_HANDLE oh).

Definition ve_sync_destroy_fence (fence : Z) : M unit :=
  dev ← gets (λ w, device (g_vulkan_context w));
  if bool_decide (dev = VK_NULL_HANDLE) || bool_decide (fence = VK_NULL_HANDLE)
  then ret ()
  else vkDestroyFence dev fence.

(** ** command_buffer.c: pools, allocation and the frame table

    The file keeps a table of three command pools beside the frame table
    and the [g_initialized] flag, and reads the queue families and queues
    of [ve_vulkan_context].  These, and the command pools and command
    buffers the driver keeps alive, are gathered in [cmd_globals] and
    threaded through the functions below on top of [world]. *)

Record ve_command_pool := mkCommandPool {
  pool : Z;
  pool_type : ve_command_buffer_type;
  queue_family_index : Z;
}.

Record cmd_globals := mkCmdGlobals {
  g_command_pools : list ve_command_pool;
  (** [vk->queue_families] *)
  graphics_family : Z;
  compute_family : Z;
  transfer_family : Z;
  (** [vk->queues] *)
  queues_graphics : Z;
  queues_compute : Z;
  queues_transfer : Z;
  (** the driver's command pools, and its command buffers with their pool *)
  live_pools : gset Z;
  live_buffers : gmap Z Z;
}.

Definition set_g_command_pools (l : list ve_command_pool) (g : cmd_globals) : cmd_globals :=
  mkCmdGlobals l (graphics_family g) (compute_family g) (transfer_family g)
    (queues_graphics g) (queues_compute g) (queues_transfer g)
    (live_pools g) (live_buffers g).

Definition set_live_pools (s : gset Z) (g : cmd_globals) : cmd_globals :=
  mkCmdGlobals (g_command_pools g) (graphics_family g) (compute_family g) (transfer_family g)
    (queues_graphics g) (queues_compute g) (queues_transfer g)
    s (live_buffers g).

Definition set_live_buffers (m : gmap Z Z) (g : cmd_globals) : cmd_globals :=
  mkCmdGlobals (g_command_pools g) (graphics_family g) (compute_family g) (transfer_family g)
    (queues_graphics g) (queues_compute g) (queues_transfer g)
    (live_pools g) m.

Definition set_g_frame_command_buffers (t : list (list Z)) (w : world) : world :=
  mkWorld (drv w) (mem w) (report w) (g_assert_mode w) (g_assert_callback w)
    (g_vulkan_context w) (g_swapchain w) (g_owns_framebuffers w)
    (g_sync_state w) t (g_initialized w) (cmd_store w).

Definition set_g_initialized (b : bool) (w : world) : world :=
  mkWorld (drv w) (mem w) (report w) (g_assert_mode w) (g_assert_callback w)
    (g_vulkan_context w) (g_swapchain w) (g_owns_framebuffers w)
    (g_sync_state w) (g_frame_command_buffers w) b (cmd_store w).

(** The monad [M] with the state of command_buffer.c on top. *)
Definition MC (A : Type) : Type := cmd_globals → M (A * cmd_globals).

Definition retC {A} (a : A) : MC A := λ g, ret (a, g).

Definition bindC {A B} (m : MC A) (k : A → MC B) : MC B := λ g,
  bind (m g) (λ '(a, g'), k a g').

Definition liftC {A} (m : M A) : MC A := λ g, bind m (λ a, ret (a, g)).

Definition getsC {A} (f : cmd_globals → A) : MC A := λ g, ret (f g, g).

Definition modifyC (f : cmd_globals → cmd_globals) : MC unit := λ g, ret ((), f g).

Definition undefC {A} : MC A := λ _, undef.

Declare Scope MC_scope.
Delimit Scope MC_scope with MC.
Notation "x ← y ; z" := (bindC y (λ x, z))
  (at level 20, y at level 100, z at level 200, only parsing) : MC_scope.
Notation "' x ← y ; z" := (bindC y (λ x, z))
  (at level 20, x pattern, y at level 100, z at level 200, only parsing) : MC_scope.
Notation "x ;; z" := (bindC x (λ _, z))
  (at level 100, z at level 200, only parsing, right associativity) : MC_scope.

(** [for (uint32_t i = lo; i < hi; i++) body] over [MC]; the body yields
    [Some v] to return [v] from the function. *)
Fixpoint for_rangeC {R} (n : nat) (i : Z) (body : Z → MC (option R)) : MC (option R) :=
  match n with
  | O => retC None
  | S n' =>
      bindC (body i) (λ r,
        match r with
        | Some v => retC (Some v)
        | None => for_rangeC n' (i + 1) body
        end)
  end.

Definition for_u32C {R} (lo hi : Z) (body : Z → MC (option R)) : MC (option R) :=
  for_rangeC (Z.to_nat (hi - lo)) lo body.

Fixpoint iter_rangeC (n : nat) (i : Z) (body : Z → MC unit) : MC unit :=
  match n with
  | O => retC ()
  | S n' => bindC (body i) (λ _, iter_rangeC n' (i + 1) body)
  end.

Definition iter_u32C (lo hi : Z) (body : Z → MC unit) : MC unit :=
  iter_rangeC (Z.to_nat (hi - lo)) lo body.

Local Open Scope MC_scope.

(** *** Driver calls on command pools and command buffers

    A handle that is not alive is not a valid argument. *)

Definition vk_next_handle : M Z := λ w,
  let d := drv w in
  Ret (next_handle d,
       set_drv (mkDriver (live d) (next_handle d + 1) (vk_results d) (vk_indices d)
                         (idle_waits d)) w).

Definition vkCreateCommandPool (dev queue_family : Z) : MC (Z * option Z) :=
  if bool_decide (dev = VK_NULL_HANDLE) then undefC
  else
    r ← liftC vk_pop_result;
    if bool_decide (r = VK_SUCCESS) then
      h ← liftC vk_next_handle;
      modifyC (λ g, set_live_pools ({[h]} ∪ live_pools g) g);;
      retC (r, Some h)
    else retC (r, None).

(** Destroying a pool frees the command buffers allocated from it. *)
Definition vkDestroyCommandPool (dev p : Z) : MC unit :=
  if bool_decide (dev = VK_NULL_HANDLE) then undefC
  else
    pools ← getsC live_pools;
    if bool_decide (p ∈ pools) then
      modifyC (λ g,
        set_live_buffers (filter (λ kv, kv.2 ≠ p) (live_buffers g))
          (set_live_pools (live_pools g ∖ {[p]}) g))
    else undefC.

Definition vkAllocateCommandBuffers (dev p level : Z) : MC (Z * option Z) :=
  if bool_decide (dev = VK_NULL_HANDLE) then undefC
  else
    pools ← getsC live_pools;
    if bool_decide (p ∈ pools) then
      r ← liftC vk_pop_result;
      if bool_decide (r = VK_SUCCESS) then
        h ← liftC vk_next_handle;
        modifyC (λ g, set_live_buffers (<[h := p]> (live_buffers g)) g);;
        retC (r, Some h)
      else retC (r, None)
    else undefC.

Definition vkFreeCommandBuffers (dev p buf : Z) : MC unit :=
  if bool_decide (dev = VK_NULL_HANDLE) then undefC
  else
    pools ← getsC live_pools;
    bufs ← getsC live_buffers;
    if bool_decide (p ∈ pools) then
      if bool_decide (buf = VK_NULL_HANDLE) then retC ()
      else if bool_decide (bufs !! buf = Some p) then
        modifyC (λ g, set_live_buffers (delete buf (live_buffers g)) g)
      else undefC
    else undefC.

Definition vkResetCommandBuffer (buf flags : Z) : M Z := vk_pop_result.

(** *** The globals of the file *)

(** [g_command_pools[i]] *)
Definition pool_at (i : nat) : MC ve_command_pool := λ g,
  match g_command_pools g !! i with
  | Some p => ret (p, g)
  | None => undef
  end.

Definition set_pool_at (i : nat) (f : ve_command_pool → ve_command_pool) : MC unit := λ g,
  match g_command_pools g !! i with
  | Some p => ret ((), set_g_command_pools (<[i := f p]> (g_command_pools g)) g)
  | None => undef
  end.

Definition set_pool_handle (h : Z) (p : ve_command_pool) : ve_command_pool :=
  mkCommandPool h (pool_type p) (queue_family_index p).

(** What [&g_command_pools[i].pool] receives from [vkCreateCommandPool]. *)
Definition out_pool (i : nat) (oh : option Z) : MC unit :=
  match oh with
  | Some h => set_pool_at i (set_pool_handle h)
  | None => retC ()
  end.

(** [g_frame_command_buffers[frame][type]] *)
Definition frame_table_at (frame type : Z) : M Z := λ w,
  match g_frame_command_buffers w !! Z.to_nat frame ≫= (.!! Z.to_nat type) with
  | Some cmd => Ret (cmd, w)
  | None => Undef
  end.

Definition set_frame_table_at (frame type cmd : Z) : M unit := λ w,
  let table := g_frame_command_buffers w in
  match table !! Z.to_nat frame with
  | Some row =>
      if bool_decide (Z.to_nat type < length row)%nat then
        Ret ((), set_g_frame_command_buffers
                   (<[Z.to_nat frame := <[Z.to_nat type := cmd]> row]> table) w)
      else Undef
  | None => Undef
  end.

(** The cast [(ve_command_buffer_type)type] of the loop counter. *)
Definition type_of_index (i : Z) : ve_command_buffer_type :=
  if bool_decide (i = 0) then VE_COMMAND_BUFFER_GRAPHICS
  else if bool_decide (i = 1) then VE_COMMAND_BUFFER_COMPUTE
  else VE_COMMAND_BUFFER_TRANSFER.

(** [VE_ALLOCATE_TAG(sizeof(ve_command_buffer), ...)] followed by the four
    field assignments: a fresh struct in the store of command buffers. *)
Definition allocate_cmd : M Z := λ w,
  let m := mem w in
  if hd true (alloc_results m) then
    Ret (next_block m,
         set_mem (mkHost (heap m) (next_block m + 1) (tl (alloc_results m))) w)
  else Ret (0, set_mem (mkHost (heap m) (next_block m) (tl (alloc_results m))) w).

Definition write_cmd (cmd : Z) (c : ve_command_buffer) : M unit :=
  modify (λ w, set_cmd_store (<[cmd := c]> (cmd_store w)) w).

(** [VE_FREE(cmd)] *)
Definition free_cmd (cmd : Z) : M unit := λ w,
  match cmd_store w !! cmd with
  | Some _ => Ret ((), set_cmd_store (delete cmd (cmd_store w)) w)
  | None => Undef
  end.

(** *** The functions *)

(** The returned pointer [&g_command_pools[type]] is given by its index. *)
Definition ve_command_buffer_get_pool (t : ve_command_buffer_type) : MC (option nat) :=
  init ← liftC (gets g_initialized);
  if negb init || bool_decide (3 ≤ type_index t)%nat then retC None
  else retC (Some (type_index t)).

Definition ve_command_buffer_allocate (t : ve_command_buffer_type) (level : Z) : MC Z :=
  dev ← liftC (gets (λ w, device (g_vulkan_context w)));
  liftC (VE_ASSERT (bool_decide (dev ≠ VK_NULL_HANDLE)));;
  pool_ptr ← ve_command_buffer_get_pool t;
  match pool_ptr with
  | None => retC 0 (* "Invalid command pool type" *)
  | Some i =>
      p ← pool_at i;
      '(result, ob) ← vkAllocateCommandBuffers dev (pool p) level;
      if bool_decide (result ≠ VK_SUCCESS) then retC 0
      else
        let buf := default VK_NULL_HANDLE ob in
        cmd ← liftC allocate_cmd;
        if bool_decide (cmd = 0) then
          vkFreeCommandBuffers dev (pool p) buf;;
          retC 0
        else
          liftC (write_cmd cmd (mkCommandBuffer buf t false false));;
          retC cmd
  end.

Definition ve_command_buffer_free (cmd : Z) : MC unit :=
  dev ← liftC (gets (λ w, device (g_vulkan_context w)));
  if bool_decide (dev = VK_NULL_HANDLE) || bool_decide (cmd = 0) then retC ()
  else
    c ← liftC (deref_cmd cmd);
    pool_ptr ← ve_command_buffer_get_pool (cb_type c);
    match pool_ptr with
    | Some i =>
        p ← pool_at i;
        vkFreeCommandBuffers dev (pool p) (buffer c)
    | None => retC ()
    end;;
    liftC (free_cmd cmd).

Definition ve_command_buffer_shutdown : MC unit :=
  dev ← liftC (gets (λ w, device (g_vulkan_context w)));
  if bool_decide (dev = VK_NULL_HANDLE) then retC ()
  else
    (* Free per-frame command buffers *)
    iter_u32C 0 VE_MAX_FRAMES_IN_FLIGHT (λ frame,
      iter_u32C 0 3 (λ type,
        cmd ← liftC (frame_table_at frame type);
        if bool_decide (cmd ≠ 0) then
          ve_command_buffer_free cmd;;
          liftC (set_frame_table_at frame type 0)
        else retC ()));;
    (* Destroy command pools *)
    iter_u32C 0 3 (λ i,
      p ← pool_at (Z.to_nat i);
      if bool_decide (pool p ≠ VK_NULL_HANDLE) then
        vkDestroyCommandPool dev (pool p);;
        set_pool_at (Z.to_nat i) (set_pool_handle VK_NULL_HANDLE)
      else retC ());;
    liftC (modify (set_g_initialized false)).

Definition VK_COMMAND_BUFFER_LEVEL_PRIMARY : Z := 0.

Definition ve_command_buffer_init : MC Z :=
  dev ← liftC (gets (λ w, device (g_vulkan_context w)));
  liftC (VE_ASSERT (bool_decide (dev ≠ VK_NULL_HANDLE)));;
  (* Graphics pool *)
  family ← getsC graphics_family;
  '(result, oh) ← vkCreateCommandPool dev family;
  out_pool (type_index VE_COMMAND_BUFFER_GRAPHICS) oh;;
  if bool_decide (result ≠ VK_SUCCESS) then retC result
  else
    set_pool_at (type_index VE_COMMAND_BUFFER_GRAPHICS)
      (λ p, mkCommandPool (pool p) VE_COMMAND_BUFFER_GRAPHICS family);;
    (* Compute pool *)
    family ← getsC compute_family;
    '(result, oh) ← vkCreateCommandPool dev family;
    out_pool (type_index VE_COMMAND_BUFFER_COMPUTE) oh;;
    if bool_decide (result ≠ VK_SUCCESS) then
      ve_command_buffer_shutdown;;
      retC result
    else
      set_pool_at (type_index VE_COMMAND_BUFFER_COMPUTE)
        (λ p, mkCommandPool (pool p) VE_COMMAND_BUFFER_COMPUTE family);;
      (* Transfer pool *)
      family ← getsC transfer_family;
      '(result, oh) ← vkCreateCommandPool dev family;
      out_pool (type_index VE_COMMAND_BUFFER_TRANSFER) oh;;
      if bool_decide (result ≠ VK_SUCCESS) then
        ve_command_buffer_shutdown;;
        retC result
      else
        set_pool_at (type_index VE_COMMAND_BUFFER_TRANSFER)
          (λ p, mkCommandPool (pool p) VE_COMMAND_BUFFER_TRANSFER family);;
        (* Pre-allocate per-frame command buffers *)
        failed ← for_u32C 0 VE_MAX_FRAMES_IN_FLIGHT (λ frame,
          for_u32C 0 3 (λ type,
            cmd ← ve_command_buffer_allocate (type_of_index type)
                    VK_COMMAND_BUFFER_LEVEL_PRIMARY;
            liftC (set_frame_table_at frame type cmd);;
            stored ← liftC (frame_table_at frame type);
            if bool_decide (stored = 0) then
              ve_command_buffer_shutdown;;
              retC (Some VK_ERROR_OUT_OF_DEVICE_MEMORY)
            else retC None));
        match failed with
        | Some result => retC result
        | None =>
            liftC (modify (set_g_initialized true));;
            retC VK_SUCCESS
        end.

Local Close Scope MC_scope.

Definition ve_command_buffer_reset (cmd flags : Z) : M Z :=
  (* cmd && !cmd->is_recording *)
  ok ← (if bool_decide (cmd = 0) then ret false
        else c ← deref_cmd cmd; ret (negb (is_recording c)));
  VE_ASSERT ok;;
  c ← deref_cmd cmd;
  vkResetCommandBuffer (buffer c) flags.

Definition ve_command_buffer_end_frame (cmd : Z) : M Z :=
  (* !cmd || !cmd->is_recording *)
  recording ← (if bool_decide (cmd = 0) then ret false
               else c ← deref_cmd cmd; ret (is_recording c));
  if negb recording then ret VK_ERROR_OUT_OF_HOST_MEMORY
  else ve_command_buffer_end cmd.

(** Total correctness over [MC]. *)
Definition wpC {A} (m : MC A) (Q : A → cmd_globals → world → Prop)
    (g : cmd_globals) (w : world) : Prop :=
  ∃ a g' w', m g w = Ret ((a, g'), w') ∧ Q a g' w'.

(** The state of command_buffer.c before any successful initialisation,
    as the static initialisers leave it: no pool handle, an empty frame
    table, [g_initialized] false. *)
Definition cmd_clean (g : cmd_globals) (w : world) : Prop :=
  g_initialized w = false
  ∧ g_frame_command_buffers w
    = replicate (Z.to_nat VE_MAX_FRAMES_IN_FLIGHT) (replicate 3 0)
  ∧ length (g_command_pools g) = 3%nat
  ∧ ∀ p, p ∈ g_command_pools g → pool p = VK_NULL_HANDLE.

(** Pool handles come from the driver's handle counter, and every command
    buffer belongs to a live pool. *)
Definition cmd_wf (g : cmd_globals) (w : world) : Prop :=
  0 < next_handle (drv w)
  ∧ (∀ h, h ∈ live_pools g → 0 < h < next_handle (drv w))
  ∧ (∀ b p, live_buffers g !! b = Some p → p ∈ live_pools g).

(** The first failure among the three pool creations, if any. *)
Definition first_pool_failure (script : list Z) : option Z :=
  let r i := default VK_SUCCESS (script !! i) in
  if bool_decide (r 0%nat ≠ VK_SUCCESS) then Some (r 0%nat)
  else if bool_decide (r 1%nat ≠ VK_SUCCESS) then Some (r 1%nat)
  else if bool_decide (r 2%nat ≠ VK_SUCCESS) then Some (r 2%nat)
  else None.

(** The static initial state of command_buffer.c on top of a world. *)
Definition zero_pool : ve_command_pool := mkCommandPool 0 VE_COMMAND_BUFFER_GRAPHICS 0.

Definition sample_cmd_globals : cmd_globals :=
  mkCmdGlobals [zero_pool; zero_pool; zero_pool] 0 1 2 11 12 13 ∅ ∅.

Definition fresh_cmd_world (results : list Z) : world :=
  set_g_frame_command_buffers
    (replicate (Z.to_nat VE_MAX_FRAMES_IN_FLIGHT) (replicate 3 0))
    (sample_world VE_ASSERT_MODE_DEBUG_BREAK results).

(** [g'] is [g] once the command pools with a handle in [D] have been
    destroyed, their command buffers with them. *)
Definition pools_destroyed (D : gset Z) (g g' : cmd_globals) : Prop :=
  live_pools g' = live_pools g ∖ D
  ∧ (∀ b p, live_buffers g' !! b = Some p ↔ live_buffers g !! b = Some p ∧ p ∉ D)
  ∧ graphics_family g' = graphics_family g ∧ compute_family g' = compute_family g
  ∧ transfer_family g' = transfer_family g
  ∧ queues_graphics g' = queues_graphics g ∧ queues_compute g' = queues_compute g
  ∧ queues_transfer g' = queues_transfer g.

(** Calls into command_buffer.c, and what a sequence of them returns:
    the result code of an initialisation, the pointer of an allocation or
    of [ve_command_buffer_begin_frame]. *)
Inductive cmd_op :=
| CmdInit
| CmdShutdown
| CmdAllocate (t : ve_command_buffer_type) (level : Z)
| CmdBeginFrame (t : ve_command_buffer_type).

Definition run_cmd_op (o : cmd_op) : MC (option Z) :=
  match o with
  | CmdInit => bindC ve_command_buffer_init (λ r, retC (Some r))
  | CmdShutdown => bindC ve_command_buffer_shutdown (λ _, retC None)
  | CmdAllocate t level => bindC (ve_command_buffer_allocate t level) (λ p, retC (Some p))
  | CmdBeginFrame t => bindC (liftC (ve_command_buffer_begin_frame t)) (λ p, retC (Some p))
  end.

Fixpoint run_cmd_ops (ops : list cmd_op) : MC (list (option Z)) :=
  match ops with
  | [] => retC []
  | o :: ops' =>
      bindC (run_cmd_op o) (λ r, bindC (run_cmd_ops ops') (λ rs, retC (r :: rs)))
  end.

(** What a call may return while the file is not initialised. *)
Definition uninitialised_answer (o : cmd_op) (r : option Z) : Prop :=
  match o with
  | CmdInit => ∃ e, r = Some e ∧ e ≠ VK_SUCCESS
  | CmdShutdown => r = None
  | CmdAllocate _ _ | CmdBeginFrame _ => r = Some 0
  end.

(** *** Submission *)






(** ** swapchain.c: the remaining entry points *)

Definition ve_swapchain_get_format : M Z := gets (λ w, format (g_swapchain w)).
Definition ve_swapchain_get_extent : M VkExtent2D := gets (λ w, extent (g_swapchain w)).
Definition ve_swapchain_get_image_count : M Z := gets (λ w, image_count (g_swapchain w)).

Definition ve_swapchain_get_current_image_view : M Z :=
  index ← gets (λ w, current_image_index (g_swapchain w));
  count ← gets (λ w, image_count (g_swapchain w));
  views ← gets (λ w, image_views (g_swapchain w));
  if (index <? count) && bool_decide (views ≠ 0) then load_handle views index
  else ret VK_NULL_HANDLE.

Definition ve_swapchain_get_current_framebuffer : M Z :=
  index ← gets (λ w, current_image_index (g_swapchain w));
  count ← gets (λ w, image_count (g_swapchain w));
  fbs ← gets (λ w, framebuffers (g_swapchain w));
  if (index <? count) && bool_decide (fbs ≠ 0) then load_handle fbs index
  else ret VK_NULL_HANDLE.

(** What the swapchain holds as framebuffers: nothing, an array of its
    own filled by [ve_swapchain_create_framebuffers] with the handles from
    [nf] on, or an array [l] handed in through
    [ve_swapchain_set_framebuffers] without ownership. *)
Inductive fb_desc :=
| NoFbs
| OwnedFbs (nf : Z)
| BorrowedFbs (l : list cell).

(** A swapchain that has been built on top of the live objects [live0]
    and the heap [heap0]: the chain, its image array, and one image view
    per image in the view array. *)
Definition chain_state (live0 : gmap Z vk_object) (heap0 : gmap Z (list cell))
    (fb : fb_desc) (w : world) : Prop :=
  let s := g_swapchain w in
  let N := Z.to_nat (image_count s) in
  ∃ imgs nv live1,
    0 ≤ image_count s
    ∧ swapchain s ≠ VK_NULL_HANDLE ∧ images s ≠ 0 ∧ image_views s ≠ 0
    ∧ images s ≠ image_views s
    ∧ 0 < nv ∧ swapchain s < nv
    ∧ live0 !! swapchain s = None ∧ (∀ h, nv ≤ h → live0 !! h = None)
    ∧ range_live nv (nv + Z.of_nat N) ImageView (<[swapchain s := Swapchain imgs]> live0) live1
    ∧ heap0 !! images s = None ∧ heap0 !! image_views s = None
    ∧ let heap1 := <[image_views s := filled nv N N]>
                     (<[images s := CHandle <$> imgs]> heap0) in
      match fb with
      | NoFbs =>
          framebuffers s = 0 ∧ live (drv w) = live1 ∧ heap (mem w) = heap1
      | OwnedFbs nf =>
          framebuffers s ≠ 0 ∧ g_owns_framebuffers w = true
          ∧ framebuffers s ≠ images s ∧ framebuffers s ≠ image_views s
          ∧ heap0 !! framebuffers s = None
          ∧ nv + Z.of_nat N ≤ nf
          ∧ range_live nf (nf + Z.of_nat N) Framebuffer live1 (live (drv w))
          ∧ heap (mem w) = <[framebuffers s := filled nf N N]> heap1
      | BorrowedFbs l =>
          framebuffers s ≠ 0 ∧ g_owns_framebuffers w = false
          ∧ framebuffers s ≠ images s ∧ framebuffers s ≠ image_views s
          ∧ heap0 !! framebuffers s = None
          ∧ live (drv w) = live1
          ∧ heap (mem w) = <[framebuffers s := l]> heap1
      end.

(** The swapchain record after [ve_swapchain_destroy]: handles, arrays
    and counts are reset; format, extent and the out-of-date flag are
    not. *)
Definition torn_down (s : ve_swapchain) : ve_swapchain :=
  mkSwapchain VK_NULL_HANDLE 0 0 0 (format s) (extent s) 0 0 (out_of_date s).

(** The two-call idiom "ask for the count, allocate, ask again for the
    elements", as a function of what the driver reports: the address of
    the array (NULL when there is nothing to report or the allocation
    fails) and the host memory afterwards. *)
Definition array_query (cells : list cell) (m : host) : Z * host :=
  if bool_decide (cells = []) then (0, m)
  else if hd true (alloc_results m) then
    (next_block m,
     mkHost (<[next_block m := cells]> (heap m)) (next_block m + 1) (tl (alloc_results m)))
  else (0, mkHost (heap m) (next_block m) (tl (alloc_results m))).


(** ** Building a swapchain *)








(** A world in which a two-image swapchain (handle 10, images 11 and 12)
    has been built and given views (13, 14) and framebuffers of its own
    (15, 16); the three arrays are the blocks 1, 2 and 3. *)
Definition built_chain_world : world :=
  mkWorld (mkDriver (<[16 := Framebuffer]> (<[15 := Framebuffer]>
                      (<[14 := ImageView]> (<[13 := ImageView]>
                        (<[10 := Swapchain [11; 12]]> ∅)))))
                    17 [] [] 0)
          (mkHost (<[3 := CHandle <$> [15; 16]]>
                    (<[2 := CHandle <$> [13; 14]]>
                      (<[1 := CHandle <$> [11; 12]]> ∅))) 4 [])
          sample_report VE_ASSERT_MODE_DEBUG_BREAK None
          (mkContext 1 2 3 4 0)
          (mkSwapchain 10 1 2 3 VK_FORMAT_B8G8R8A8_SRGB (mkExtent 800 600) 2 0 false) true
          zero_sync_state [] false ∅.

(** A world in which the caller has made two framebuffers (5, 6) and an
    array holding them (block 3), beside a two-image swapchain (handle 10,
    images 11 and 12, views 13 and 14) that has no framebuffers yet. *)
Definition outside_framebuffers_world : world :=
  mkWorld (mkDriver (<[14 := ImageView]> (<[13 := ImageView]>
                      (<[10 := Swapchain [11; 12]]>
                        (<[6 := Framebuffer]> (<[5 := Framebuffer]> ∅)))))
                    15 [] [] 0)
          (mkHost (<[2 := CHandle <$> [13; 14]]>
                    (<[1 := CHandle <$> [11; 12]]>
                      (<[3 := CHandle <$> [5; 6]]> ∅))) 4 [])
          sample_report VE_ASSERT_MODE_DEBUG_BREAK None
          (mkContext 1 2 3 4 0)
          (mkSwapchain 10 1 2 0 VK_FORMAT_B8G8R8A8_SRGB (mkExtent 800 600) 2 0 false) false
          zero_sync_state [] false ∅.

(** ** vulkan_core.c: memory types *)

(** [1 << i] on [int]: defined while the result fits, that is for [i]
    below 31. *)
Definition shl_int_1 (i : Z) : M Z :=
  if (0 <=? i) && (i <? 31) then ret (Z.shiftl 1 i) else undef.

(** [types] holds the [propertyFlags] of the device's
    [memoryTypes[0 .. memoryTypeCount - 1]]. *)
Definition ve_vulkan_find_memory_type (types : list Z) (type_bits properties : Z) : M Z :=
  found ← for_u32 0 (Z.of_nat (length types)) (λ i,
    bit ← shl_int_1 i;
    match types !! Z.to_nat i with
    | Some flags =>
        if negb (Z.land type_bits bit =? 0) && (Z.land flags properties =? properties)
        then ret (Some i) else ret None
    | None => undef
    end);
  match found with
  | Some i => ret i
  | None => ret UINT32_MAX
  end.

(** Memory type [i], with property flags [flags], fits a request: its bit
    is set in [type_bits] and it has every requested property. *)
Definition memory_type_fits (type_bits properties i flags : Z) : Prop :=
  Z.testbit type_bits i = true ∧ Z.land flags properties = properties.

(** ** vulkan_core.c: queue families *)

Definition VK_QUEUE_GRAPHICS_BIT : Z := 1.
Definition VK_QUEUE_COMPUTE_BIT : Z := 2.
Definition VK_QUEUE_TRANSFER_BIT : Z := 4.

(** [ve_queue_family_indices] of vulkan_core.h. *)
Module QF.

Record indices := mkIndices {
  graphics_family : Z;
  compute_family : Z;
  transfer_family : Z;
  present_family : Z;
  graphics_valid : bool;
  compute_valid : bool;
  transfer_valid : bool;
  present_valid : bool;
}.

Definition zero : indices := mkIndices 0 0 0 0 false false false false.

Definition set_graphics (i : Z) (ix : indices) : indices :=
  mkIndices i (compute_family ix) (transfer_family ix) (present_family ix)
            true (compute_valid ix) (transfer_valid ix) (present_valid ix).

Definition set_compute (i : Z) (ix : indices) : indices :=
  mkIndices (graphics_family ix) i (transfer_family ix) (present_family ix)
            (graphics_valid ix) true (transfer_valid ix) (present_valid ix).

Definition set_transfer (i : Z) (ix : indices) : indices :=
  mkIndices (graphics_family ix) (compute_family ix) i (present_family ix)
            (graphics_valid ix) (compute_valid ix) true (present_valid ix).

Definition set_present (i : Z) (ix : indices) : indices :=
  mkIndices (graphics_family ix) (compute_family ix) (transfer_family ix) i
            (graphics_valid ix) (compute_valid ix) (transfer_valid ix) true.

End QF.

(** [flags & bit] as a condition. *)
Definition has_flag (flags bit : Z) : bool := negb (Z.land flags bit =? 0).

(** [for (uint32_t i = lo; ...; i++)] over a local variable [acc] that the
    body updates; the body answers whether it leaves the loop through
    [break]. *)
Fixpoint for_range_acc {T} (n : nat) (i : Z) (body : Z → T → M (T * bool)) (acc : T) : M T :=
  match n with
  | O => ret acc
  | S n' =>
      '(acc', stop) ← body i acc;
      if (stop : bool) then ret acc' else for_range_acc n' (i + 1) body acc'
  end.

(** What the driver reports about a physical device's queue families:
    for each family its [queueFlags], and whether the surface can be
    presented from it.  The array the function allocates stands for the
    storage of the first; its elements are read from the report. *)
Definition ve_vulkan_find_queue_families (families : list (Z * bool)) (device : Z)
    : M QF.indices :=
  let queue_family_count := Z.of_nat (length families) in
  queue_families ← ve_allocate queue_family_count;
  if bool_decide (queue_families = 0) then ret QF.zero
  else
    indices ← for_range_acc (Z.to_nat queue_family_count) 0 (λ i indices,
      match families !! Z.to_nat i with
      | None => undef
      | Some (queueFlags, surface_support) =>
          (* Graphics queue *)
          let indices :=
            if has_flag queueFlags VK_QUEUE_GRAPHICS_BIT
            then QF.set_graphics i indices else indices in
          (* Compute queue (preferably separate from graphics) *)
          let indices :=
            if has_flag queueFlags VK_QUEUE_COMPUTE_BIT
               && negb (has_flag queueFlags VK_QUEUE_GRAPHICS_BIT)
            then QF.set_compute i indices
            else if negb (QF.compute_valid indices)
                    && has_flag queueFlags VK_QUEUE_COMPUTE_BIT
            then QF.set_compute i indices else indices in
          (* Transfer queue (preferably separate) *)
          let indices :=
            if has_flag queueFlags VK_QUEUE_TRANSFER_BIT
               && negb (has_flag queueFlags VK_QUEUE_GRAPHICS_BIT)
               && negb (has_flag queueFlags VK_QUEUE_COMPUTE_BIT)
            then QF.set_transfer i indices
            else if negb (QF.transfer_valid indices)
                    && has_flag queueFlags VK_QUEUE_TRANSFER_BIT
            then QF.set_transfer i indices else indices in
          (* Present support *)
          surf ← gets (λ w, surface (g_vulkan_context w));
          let indices :=
            if bool_decide (surf ≠ VK_NULL_HANDLE) && surface_support
            then QF.set_present i indices else indices in
          ret (indices,
               QF.graphics_valid indices && QF.present_valid indices
               && QF.compute_valid indices && QF.transfer_valid indices)
      end) QF.zero;
    ve_free queue_families;;
    ret indices.

(** Some queue family offers what [cap] asks for. *)
Definition family_offers (families : list (Z * bool)) (cap : Z * bool → bool) : Prop :=
  ∃ j f, families !! j = Some f ∧ cap f = true.

(** [idx] is a family that offers what [cap] asks for. *)
Definition family_at (families : list (Z * bool)) (cap : Z * bool → bool) (idx : Z) : Prop :=
  0 ≤ idx ∧ ∃ f, families !! Z.to_nat idx = Some f ∧ cap f = true.

(** The capabilities [ve_vulkan_find_queue_families] looks for. *)
Definition cap_graphics (f : Z * bool) : bool := has_flag f.1 VK_QUEUE_GRAPHICS_BIT.
Definition cap_compute (f : Z * bool) : bool := has_flag f.1 VK_QUEUE_COMPUTE_BIT.
Definition cap_transfer (f : Z * bool) : bool := has_flag f.1 VK_QUEUE_TRANSFER_BIT.
Definition cap_present (surf : Z) (f : Z * bool) : bool :=
  bool_decide (surf ≠ VK_NULL_HANDLE) && f.2.

(** A pair of a valid flag and an index reports a capability correctly:
    the flag is set exactly when some family offers it, and the index then
    names such a family. *)
Definition selected (families : list (Z * bool)) (cap : Z * bool → bool)
    (valid : bool) (idx : Z) : Prop :=
  (valid = true ↔ family_offers families cap)
  ∧ (valid = true → family_at families cap idx).

(** The same for the families below [k], the part of the array the loop
    has seen. *)
Definition tracked (families : list (Z * bool)) (cap : Z * bool → bool) (k : Z)
    (valid : bool) (idx : Z) : Prop :=
  (valid = true → idx < k ∧ family_at families cap idx)
  ∧ (∀ j f, 0 ≤ j < k → families !! Z.to_nat j = Some f → cap f = true → valid = true).
(** * Properties *)

(** ** The monad *)

Lemma bind_Ret {A B} (m : M A) (k : A → M B) w a w' :
  m w = Ret (a, w') → bind m k w = k a w'.
Proof. intros E. unfold bind. by rewrite E. Qed.

Lemma bind_ret_l {A B} (a : A) (k : A → M B) w : bind (ret a) k w = k a w.
Proof. reflexivity. Qed.

Lemma bind_gets {A B} (f : world → A) (k : A → M B) w : bind (gets f) k w = k (f w) w.
Proof. reflexivity. Qed.

Lemma bind_modify {B} (f : world → world) (k : unit → M B) w :
  bind (modify f) k w = k () (f w).
Proof. reflexivity. Qed.

Lemma bind_assoc {A B C} (m : M A) (k : A → M B) (k' : B → M C) w :
  bind (bind m k) k' w = bind m (λ a, bind (k a) k') w.
Proof. unfold bind. destruct (m w) as [[a w']| |]; reflexivity. Qed.

Lemma ve_assert_handle_eq w : ve_assert_handle w = Ret (assert_continues w, w).
Proof.
  unfold ve_assert_handle, assert_continues, bind, gets, ret.
  destruct (g_assert_mode w); try reflexivity.
  destruct (g_assert_callback w); reflexivity.
Qed.

Lemma VE_ASSERT_true w : VE_ASSERT true w = Ret ((), w).
Proof. reflexivity. Qed.

Lemma VE_ASSERT_false w :
  VE_ASSERT false w = if assert_continues w then Ret ((), w) else Fatal.
Proof.
  unfold VE_ASSERT. rewrite (bind_Ret _ _ _ _ _ (ve_assert_handle_eq w)).
  destruct (assert_continues w); reflexivity.
Qed.

(** ** Linear searches through a host array *)

Section search.
Context {T : Type} (enc : T → cell) (ld : Z → Z → M T).
Hypothesis ld_enc : ∀ w p l i x,
  heap (mem w) !! p = Some (enc <$> l) → l !! Z.to_nat i = Some x →
  ld p i w = Ret (x, w).

Lemma search_loop (test : T → bool) w p (pre l : list T) :
  heap (mem w) !! p = Some (enc <$> (pre ++ l)) →
  for_range (length l) (Z.of_nat (length pre))
    (λ i, x ← ld p i; if test x then ret (Some x) else ret None) w
  = Ret (find test l, w).
Proof.
  revert pre. induction l as [|x l IH]; intros pre Hp; [reflexivity|].
  cbn [for_range length find].
  assert (Hx : (pre ++ x :: l) !! Z.to_nat (Z.of_nat (length pre)) = Some x).
  { rewrite Nat2Z.id. by rewrite list_lookup_middle. }
  rewrite bind_assoc.
  rewrite (bind_Ret _ _ _ _ _ (ld_enc _ _ _ _ _ Hp Hx)).
  destruct (test x); [reflexivity|].
  rewrite bind_ret_l.
  replace (Z.of_nat (length pre) + 1) with (Z.of_nat (length (pre ++ [x])))
    by (rewrite length_app; simpl; lia).
  apply IH. by rewrite <- app_assoc.
Qed.

Lemma search_array (test : T → bool) w p (l : list T) :
  heap (mem w) !! p = Some (enc <$> l) →
  for_u32 0 (Z.of_nat (length l))
    (λ i, x ← ld p i; if test x then ret (Some x) else ret None) w
  = Ret (find test l, w).
Proof.
  intros Hp. unfold for_u32. rewrite Z.sub_0_r, Nat2Z.id.
  exact (search_loop test w p [] l Hp).
Qed.
End search.

Lemma load_mode_enc w p (l : list Z) i x :
  heap (mem w) !! p = Some (CMode <$> l) → l !! Z.to_nat i = Some x →
  load_mode p i w = Ret (x, w).
Proof.
  intros Hp Hx. unfold load_mode, load, bind. rewrite Hp.
  rewrite list_lookup_fmap, Hx. reflexivity.
Qed.

Lemma load_format_enc w p (l : list VkSurfaceFormatKHR) i x :
  heap (mem w) !! p = Some (CFormat <$> l) → l !! Z.to_nat i = Some x →
  load_format p i w = Ret (x, w).
Proof.
  intros Hp Hx. unfold load_format, load, bind. rewrite Hp.
  rewrite list_lookup_fmap, Hx. reflexivity.
Qed.

Lemma find_eqb_Z (v : Z) (l : list Z) :
  find (λ m, m =? v) l = if bool_decide (v ∈ l) then Some v else None.
Proof.
  induction l as [|x l IH]; [reflexivity|]. cbn [find].
  destruct (Z.eqb_spec x v) as [->|Hne].
  - rewrite bool_decide_eq_true_2; [reflexivity | left].
  - rewrite IH. destruct (bool_decide_reflect (v ∈ l)) as [Hin|Hnin].
    + rewrite bool_decide_eq_true_2; [reflexivity | by right].
    + rewrite bool_decide_eq_false_2; [reflexivity|].
      intros [E|Hin]%elem_of_cons; congruence.
Qed.

Lemma find_format (v : VkSurfaceFormatKHR) (l : list VkSurfaceFormatKHR) :
  find (λ f, (sf_format f =? sf_format v) && (sf_colorSpace f =? sf_colorSpace v)) l
  = if bool_decide (v ∈ l) then Some v else None.
Proof.
  induction l as [|x l IH]; [reflexivity|]. cbn [find].
  destruct (Z.eqb_spec (sf_format x) (sf_format v)) as [E1|Hne];
    [destruct (Z.eqb_spec (sf_colorSpace x) (sf_colorSpace v)) as [E2|Hne]|]; cbn [andb].
  - assert (x = v) as -> by (destruct x, v; simpl in *; congruence).
    rewrite bool_decide_eq_true_2; [reflexivity | left].
  - rewrite IH. destruct (bool_decide_reflect (v ∈ l)) as [Hin|Hnin].
    + rewrite bool_decide_eq_true_2; [reflexivity | by right].
    + rewrite bool_decide_eq_false_2; [reflexivity|].
      intros [E|Hin]%elem_of_cons; congruence.
  - rewrite IH. destruct (bool_decide_reflect (v ∈ l)) as [Hin|Hnin].
    + rewrite bool_decide_eq_true_2; [reflexivity | by right].
    + rewrite bool_decide_eq_false_2; [reflexivity|].
      intros [E|Hin]%elem_of_cons; congruence.
Qed.

(** ** Present-mode and surface-format selection *)

(** C4.  For every array of available present modes and every flag pair,
    [ve_swapchain_choose_present_mode] returns mailbox if triple buffering
    is set, v-sync is off and mailbox is in the array; otherwise immediate
    if v-sync is off and immediate is in the array; otherwise FIFO.  The
    world is left as it was, and the answer is a function of the
    arguments alone.  On the empty array the entry assertion fires: the
    function then returns (FIFO) only if the assert handler continues. *)
Theorem choose_present_mode_selects w p (modes : list Z) (vsync tb : bool) :
  heap (mem w) !! p = Some (CMode <$> modes) →
  p ≠ 0 →
  ve_swapchain_choose_present_mode p (Z.of_nat (length modes)) vsync tb w
  = if bool_decide (modes ≠ []) || assert_continues w
    then Ret (select_present_mode modes vsync tb, w)
    else Fatal.
Proof.
  intros Hp Hnz. unfold ve_swapchain_choose_present_mode.
  rewrite (bool_decide_eq_true_2 (p ≠ 0)) by done. cbn [andb].
  assert (Hsel : ∀ w0 : world, heap (mem w0) !! p = Some (CMode <$> modes) →
    bind (if tb && negb vsync
          then for_u32 0 (Z.of_nat (length modes))
                 (λ i, m ← load_mode p i;
                       if m =? VK_PRESENT_MODE_MAILBOX_KHR then ret (Some m) else ret None)
          else ret None)
      (λ found, match found with
        | Some m => ret m
        | None =>
          found ← (if negb vsync
                   then for_u32 0 (Z.of_nat (length modes))
                          (λ i, m ← load_mode p i;
                                if m =? VK_PRESENT_MODE_IMMEDIATE_KHR
                                then ret (Some m) else ret None)
                   else ret None);
          match found with
          | Some m => ret m
          | None => ret VK_PRESENT_MODE_FIFO_KHR
          end
        end) w0
    = Ret (select_present_mode modes vsync tb, w0)).
  { intros w0 Hp0. unfold select_present_mode.
    destruct tb, vsync; cbn [andb negb].
    - reflexivity.
    - rewrite (bind_Ret _ _ _ _ _ (search_array CMode load_mode load_mode_enc _ w0 p modes Hp0)).
      rewrite find_eqb_Z.
      destruct (bool_decide (VK_PRESENT_MODE_MAILBOX_KHR ∈ modes)); [reflexivity|].
      rewrite (bind_Ret _ _ _ _ _ (search_array CMode load_mode load_mode_enc _ w0 p modes Hp0)).
      rewrite find_eqb_Z.
      destruct (bool_decide (VK_PRESENT_MODE_IMMEDIATE_KHR ∈ modes)); reflexivity.
    - reflexivity.
    - rewrite bind_ret_l.
      rewrite (bind_Ret _ _ _ _ _ (search_array CMode load_mode load_mode_enc _ w0 p modes Hp0)).
      rewrite find_eqb_Z.
      destruct (bool_decide (VK_PRESENT_MODE_IMMEDIATE_KHR ∈ modes)); reflexivity. }
  destruct modes as [|m0 modes'].
  - rewrite (bool_decide_eq_false_2 ([] ≠ [])) by (intros H; by apply H).
    cbn [orb length Z.of_nat]. rewrite (bool_decide_eq_false_2 (0 < 0)) by lia.
    unfold bind at 1. rewrite VE_ASSERT_false.
    destruct (assert_continues w); [|reflexivity].
    exact (Hsel w Hp).
  - rewrite (bool_decide_eq_true_2 (m0 :: modes' ≠ [])) by done.
    rewrite (bool_decide_eq_true_2 (0 < _)) by (cbn [length]; lia).
    cbn [orb]. rewrite (bind_Ret _ _ _ _ _ (VE_ASSERT_true w)).
    exact (Hsel w Hp).
Qed.

Lemma choose_present_mode_selects_witness :
  let w := set_mem (mkHost {[ 1 := [CMode VK_PRESENT_MODE_FIFO_KHR;
                                    CMode VK_PRESENT_MODE_MAILBOX_KHR] ]} 2 [])
                   (sample_world VE_ASSERT_MODE_DEBUG_BREAK []) in
  ve_swapchain_choose_present_mode 1 2 false true w
  = Ret (VK_PRESENT_MODE_MAILBOX_KHR, w).
Proof.
  intros w.
  exact (choose_present_mode_selects w 1
           [VK_PRESENT_MODE_FIFO_KHR; VK_PRESENT_MODE_MAILBOX_KHR] false true
           eq_refl ltac:(lia)).
Defined.

(** C5.  For every non-empty array [first :: rest] of reported surface
    formats and every optional preferred format,
    [ve_swapchain_choose_surface_format] returns the preferred format if
    the array holds it (format and colour space both equal); otherwise
    B8G8R8A8_SRGB with the sRGB non-linear colour space if the array holds
    that pair; otherwise the first reported format. *)
Theorem choose_surface_format_selects w p first rest preferred :
  heap (mem w) !! p = Some (CFormat <$> (first :: rest)) →
  p ≠ 0 →
  ve_swapchain_choose_surface_format p (Z.of_nat (length (first :: rest))) preferred w
  = Ret (select_surface_format first rest preferred, w).
Proof.
  intros Hp Hnz. unfold ve_swapchain_choose_surface_format.
  rewrite (bool_decide_eq_true_2 (p ≠ 0)) by done.
  rewrite (bool_decide_eq_true_2 (0 < _)) by (cbn [length]; lia).
  cbn [andb]. rewrite (bind_Ret _ _ _ _ _ (VE_ASSERT_true w)).
  assert (Hfb :
    bind (for_u32 0 (Z.of_nat (length (first :: rest)))
            (λ i, f ← load_format p i;
                  if (sf_format f =? VK_FORMAT_B8G8R8A8_SRGB)
                     && (sf_colorSpace f =? VK_COLOR_SPACE_SRGB_NONLINEAR_KHR)
                  then ret (Some f) else ret None))
         (λ found, match found with
                   | Some f => ret f
                   | None => load_format p 0
                   end) w
    = Ret (if bool_decide (B8G8R8A8_SRGB_NONLINEAR ∈ first :: rest)
           then B8G8R8A8_SRGB_NONLINEAR else first, w)).
  { rewrite (bind_Ret _ _ _ _ _
      (search_array CFormat load_format load_format_enc _ w p _ Hp)).
    rewrite (find_format B8G8R8A8_SRGB_NONLINEAR).
    destruct (bool_decide (B8G8R8A8_SRGB_NONLINEAR ∈ first :: rest)); [reflexivity|].
    exact (load_format_enc w p (first :: rest) 0 first Hp eq_refl). }
  unfold select_surface_format. destruct preferred as [pref|].
  - rewrite (bind_Ret _ _ _ _ _
      (search_array CFormat load_format load_format_enc _ w p _ Hp)).
    rewrite (find_format pref).
    destruct (bool_decide (pref ∈ first :: rest)); [reflexivity|]. exact Hfb.
  - rewrite bind_ret_l. exact Hfb.
Qed.

Lemma choose_surface_format_selects_witness :
  let unorm := mkSurfaceFormat VK_FORMAT_B8G8R8A8_UNORM VK_COLOR_SPACE_SRGB_NONLINEAR_KHR in
  let w := set_mem (mkHost {[ 1 := [CFormat unorm; CFormat B8G8R8A8_SRGB_NONLINEAR] ]} 2 [])
                   (sample_world VE_ASSERT_MODE_DEBUG_BREAK []) in
  ve_swapchain_choose_surface_format 1 2 (Some (mkSurfaceFormat 97 0)) w
  = Ret (B8G8R8A8_SRGB_NONLINEAR, w).
Proof.
  intros unorm w.
  exact (choose_surface_format_selects w 1 unorm [B8G8R8A8_SRGB_NONLINEAR]
           (Some (mkSurfaceFormat 97 0)) eq_refl ltac:(lia)).
Defined.

(** ** Extent selection *)






(** C8, where it breaks.  A surface that defers to the requested size and
    reports 16777217 as both its least and its greatest width is given
    the width 16777216: the [float] round trip moves the request out of
    the reported range. *)
Theorem choose_extent_leaves_range :
  let caps := mkCapabilities 2 8 (mkExtent UINT32_MAX UINT32_MAX)
                (mkExtent 16777217 1) (mkExtent 16777217 4096) in
  let w := sample_world VE_ASSERT_MODE_DEBUG_BREAK [] in
  ve_swapchain_choose_extent (Some caps) 16777217 720 w = Ret (mkExtent 16777216 720, w)
  ∧ ¬ (width (minImageExtent caps) ≤ 16777216 ≤ width (maxImageExtent caps)).
Proof.
  split; [vm_compute; reflexivity | cbn; lia].
Qed.

(** ** Acquire *)

(** C2, as the code has it.  On an initialised device every acquire call
    returns; its code is VK_SUCCESS when the driver's acquire succeeds or
    reports suboptimal, VK_SUBOPTIMAL_KHR when the driver reports
    out-of-date, and the driver's own code otherwise.  When the driver
    reports suboptimal or out-of-date the out-of-date flag is set, and
    otherwise it is left as it was. *)
Theorem acquire_outcomes w sem :
  device (g_vulkan_context w) ≠ VK_NULL_HANDLE →
  let r := next_result w in
  ∃ w',
    ve_swapchain_acquire_next_image sem w
    = Ret (if bool_decide (r = VK_ERROR_OUT_OF_DATE_KHR) then VK_SUBOPTIMAL_KHR
           else if bool_decide (r = VK_SUBOPTIMAL_KHR) then VK_SUCCESS
           else r, w')
    ∧ flag w'
      = bool_decide (r = VK_ERROR_OUT_OF_DATE_KHR) || bool_decide (r = VK_SUBOPTIMAL_KHR)
        || flag w.
Proof.
  intros Hdev r. unfold ve_swapchain_acquire_next_image, flag.
  rewrite bind_gets. rewrite (bool_decide_eq_true_2 _ Hdev).
  rewrite (bind_Ret _ _ _ _ _ (VE_ASSERT_true w)).
  rewrite bind_gets.
  unfold vkAcquireNextImageKHR.
  rewrite (bool_decide_eq_false_2 (device (g_vulkan_context w) = VK_NULL_HANDLE)) by done.
  unfold bind, vk_pop_result, vk_pop_index, ret, update_swapchain, modify. cbn.
  fold (next_result w). fold r. clearbody r.
  repeat (case_bool_decide; cbn);
    try (exfalso; unfold VK_SUCCESS, VK_SUBOPTIMAL_KHR, VK_ERROR_OUT_OF_DATE_KHR in *; lia);
    eexists; split; reflexivity.
Qed.

Lemma acquire_outcomes_witness :
  ∃ w',
    ve_swapchain_acquire_next_image 0
      (sample_world VE_ASSERT_MODE_DEBUG_BREAK [VK_ERROR_OUT_OF_DATE_KHR])
    = Ret (VK_SUBOPTIMAL_KHR, w')
    ∧ flag w' = true.
Proof.
  exact (acquire_outcomes
           (sample_world VE_ASSERT_MODE_DEBUG_BREAK [VK_ERROR_OUT_OF_DATE_KHR]) 0
           ltac:(vm_compute; discriminate)).
Defined.

(** C2 as stated fails: when the driver's acquire reports suboptimal, the
    function returns plain success, not Suboptimal. *)
Lemma acquire_hides_suboptimal :
  let w := sample_world VE_ASSERT_MODE_DEBUG_BREAK [VK_SUBOPTIMAL_KHR] in
  next_result w = VK_SUBOPTIMAL_KHR
  ∧ ∃ r w', ve_swapchain_acquire_next_image 0 w = Ret (r, w')
            ∧ r = VK_SUCCESS ∧ r ≠ VK_SUBOPTIMAL_KHR.
Proof.
  split; [reflexivity|]. eexists _, _. split; [vm_compute; reflexivity|].
  split; [reflexivity | discriminate].
Qed.

(** ** Which operations touch the out-of-date flag *)

Lemma bind_inv {A B} (m : M A) (k : A → M B) w b w'' :
  bind m k w = Ret (b, w'') → ∃ a w', m w = Ret (a, w') ∧ k a w' = Ret (b, w'').
Proof.
  unfold bind. destruct (m w) as [[a w']| |]; [eauto | discriminate..].
Qed.

Lemma wlp_ret {A} (a : A) Q w : Q a w → wlp (ret a) Q w.
Proof. intros H a' w' [= <- <-]. exact H. Qed.

Lemma wlp_bind {A B} (m : M A) (k : A → M B) Q w :
  wlp m (λ a w', wlp (k a) Q w') w → wlp (bind m k) Q w.
Proof.
  intros H b w'' (a & w' & Hm & Hk)%bind_inv. exact (H a w' Hm b w'' Hk).
Qed.

Lemma wlp_modify f (Q : unit → world → Prop) w : Q () (f w) → wlp (modify f) Q w.
Proof. intros H a' w' [= <- <-]. exact H. Qed.

Lemma wlp_keeps {A} (m : M A) (Q : A → world → Prop) w :
  keeps_flag m → (∀ a w', flag w' = flag w → Q a w') → wlp m Q w.
Proof. intros Hk H a w' E. apply H. exact (Hk w a w' E). Qed.

Lemma keeps_ret {A} (a : A) : keeps_flag (ret a).
Proof. by intros w a' w' [= <- <-]. Qed.

Lemma keeps_gets {A} (f : world → A) : keeps_flag (gets f).
Proof. by intros w a' w' [= <- <-]. Qed.

Lemma keeps_undef {A} : keeps_flag (@undef A).
Proof. intros w a' w' [=]. Qed.

Lemma keeps_fatal {A} : keeps_flag (@ve_assert_fatal A).
Proof. intros w a' w' [=]. Qed.

Lemma keeps_modify f : (∀ w, flag (f w) = flag w) → keeps_flag (modify f).
Proof. intros H w a' w' [= <- <-]. apply H. Qed.

Lemma keeps_bind {A B} (m : M A) (k : A → M B) :
  keeps_flag m → (∀ a, keeps_flag (k a)) → keeps_flag (bind m k).
Proof.
  intros Hm Hk w b w'' (a & w' & E1 & E2)%bind_inv.
  rewrite (Hk a w' b w'' E2). exact (Hm w a w' E1).
Qed.

Lemma keeps_for_range {R} n i (body : Z → M (option R)) :
  (∀ j, keeps_flag (body j)) → keeps_flag (for_range n i body).
Proof.
  intros Hb. revert i. induction n as [|n IH]; intros i; cbn [for_range].
  - apply keeps_ret.
  - apply keeps_bind; [apply Hb|]. intros [v|]; [apply keeps_ret | apply IH].
Qed.

Lemma keeps_for_u32 {R} lo hi (body : Z → M (option R)) :
  (∀ j, keeps_flag (body j)) → keeps_flag (for_u32 lo hi body).
Proof. apply keeps_for_range. Qed.

Lemma keeps_iter_range n i (body : Z → M unit) :
  (∀ j, keeps_flag (body j)) → keeps_flag (iter_range n i body).
Proof.
  intros Hb. revert i. induction n as [|n IH]; intros i; cbn [iter_range].
  - apply keeps_ret.
  - apply keeps_bind; [apply Hb|]. intros _. apply IH.
Qed.

Lemma keeps_iter_u32 lo hi (body : Z → M unit) :
  (∀ j, keeps_flag (body j)) → keeps_flag (iter_u32 lo hi body).
Proof. apply keeps_iter_range. Qed.

Create HintDb keeps discriminated.

(** Primitive calls are settled by running them. *)
Ltac keeps_prim :=
  let w := fresh "w" in let a := fresh "a" in let w' := fresh "w'" in
  let E := fresh "E" in
  intros w a w' E; cbv beta delta [bind ret gets modify undef] in E;
  repeat (case_match; simplify_eq); simplify_eq; reflexivity.

Ltac keeps_step :=
  match goal with
  | |- keeps_flag (bind _ _) => apply keeps_bind; [| intros ?]
  | |- keeps_flag (ret _) => apply keeps_ret
  | |- keeps_flag (gets _) => apply keeps_gets
  | |- keeps_flag undef => apply keeps_undef
  | |- keeps_flag ve_assert_fatal => apply keeps_fatal
  | |- keeps_flag (modify _) => apply keeps_modify; intros ?; reflexivity
  | |- keeps_flag (update_swapchain _) => apply keeps_modify; intros ?; reflexivity
  | |- keeps_flag (for_u32 _ _ _) => apply keeps_for_u32; intros ?
  | |- keeps_flag (iter_u32 _ _ _) => apply keeps_iter_u32; intros ?
  | |- keeps_flag (if ?c then _ else _) => destruct c
  | |- keeps_flag (let '(_, _) := ?x in _) => destruct x
  | |- keeps_flag (match ?x with _ => _ end) => destruct x
  | |- keeps_flag _ => solve [auto with keeps]
  end.

Ltac keeps := repeat keeps_step.

Lemma keeps_ve_assert_handle : keeps_flag ve_assert_handle.
Proof. unfold ve_assert_handle. keeps. Qed.
#[local] Hint Resolve keeps_ve_assert_handle : keeps.

Lemma keeps_VE_ASSERT b : keeps_flag (VE_ASSERT b).
Proof. unfold VE_ASSERT. keeps. Qed.
#[local] Hint Resolve keeps_VE_ASSERT : keeps.

Lemma keeps_vk_pop_result : keeps_flag vk_pop_result.
Proof. unfold vk_pop_result. keeps_prim. Qed.
#[local] Hint Resolve keeps_vk_pop_result : keeps.

Lemma keeps_vk_pop_index : keeps_flag vk_pop_index.
Proof. unfold vk_pop_index. keeps_prim. Qed.
#[local] Hint Resolve keeps_vk_pop_index : keeps.

Lemma keeps_vk_fresh o : keeps_flag (vk_fresh o).
Proof. unfold vk_fresh. keeps_prim. Qed.
#[local] Hint Resolve keeps_vk_fresh : keeps.

Lemma keeps_vk_create dev o : keeps_flag (vk_create dev o).
Proof. unfold vk_create. keeps. Qed.
#[local] Hint Resolve keeps_vk_create : keeps.

Lemma keeps_vk_destroy dev h : keeps_flag (vk_destroy dev h).
Proof. unfold vk_destroy. keeps. Qed.
#[local] Hint Resolve keeps_vk_destroy : keeps.

Lemma keeps_vkDeviceWaitIdle dev : keeps_flag (vkDeviceWaitIdle dev).
Proof. unfold vkDeviceWaitIdle. keeps. Qed.
#[local] Hint Resolve keeps_vkDeviceWaitIdle : keeps.

Lemma keeps_vkCreateSwapchainKHR dev n : keeps_flag (vkCreateSwapchainKHR dev n).
Proof.
  unfold vkCreateSwapchainKHR. case_bool_decide; [apply keeps_undef|].
  apply keeps_bind; [auto with keeps|]. intros r.
  case_bool_decide; [keeps_prim | apply keeps_ret].
Qed.
#[local] Hint Resolve keeps_vkCreateSwapchainKHR : keeps.

Lemma keeps_ve_allocate n : keeps_flag (ve_allocate n).
Proof. unfold ve_allocate. case_bool_decide; [apply keeps_ret | keeps_prim]. Qed.
#[local] Hint Resolve keeps_ve_allocate : keeps.

Lemma keeps_ve_free p : keeps_flag (ve_free p).
Proof. unfold ve_free. keeps. Qed.
#[local] Hint Resolve keeps_ve_free : keeps.

Lemma keeps_load p i : keeps_flag (load p i).
Proof. unfold load. keeps_prim. Qed.
#[local] Hint Resolve keeps_load : keeps.

Lemma keeps_store p i c : keeps_flag (store p i c).
Proof. unfold store. keeps_prim. Qed.
#[local] Hint Resolve keeps_store : keeps.

Lemma keeps_vk_fill p cells : keeps_flag (vk_fill p cells).
Proof. unfold vk_fill. keeps_prim. Qed.
#[local] Hint Resolve keeps_vk_fill : keeps.

Lemma keeps_to_u32 x : keeps_flag (Float32.to_u32 x).
Proof. unfold Float32.to_u32. keeps. Qed.
#[local] Hint Resolve keeps_to_u32 : keeps.

Lemma keeps_load_handle p i : keeps_flag (load_handle p i).
Proof. unfold load_handle. keeps. Qed.
#[local] Hint Resolve keeps_load_handle : keeps.

Lemma keeps_load_format p i : keeps_flag (load_format p i).
Proof. unfold load_format. keeps. Qed.
#[local] Hint Resolve keeps_load_format : keeps.

Lemma keeps_load_mode p i : keeps_flag (load_mode p i).
Proof. unfold load_mode. keeps. Qed.
#[local] Hint Resolve keeps_load_mode : keeps.

Lemma keeps_out_array p i oh : keeps_flag (out_array p i oh).
Proof. unfold out_array. keeps. Qed.
#[local] Hint Resolve keeps_out_array : keeps.

Lemma keeps_ve_vulkan_wait_idle : keeps_flag ve_vulkan_wait_idle.
Proof. unfold ve_vulkan_wait_idle. keeps. Qed.
#[local] Hint Resolve keeps_ve_vulkan_wait_idle : keeps.

Lemma keeps_query_swapchain_support phys :
  keeps_flag (ve_vulkan_query_swapchain_support phys).
Proof. unfold ve_vulkan_query_swapchain_support. keeps. Qed.
#[local] Hint Resolve keeps_query_swapchain_support : keeps.

Lemma keeps_choose_surface_format p n pref :
  keeps_flag (ve_swapchain_choose_surface_format p n pref).
Proof. unfold ve_swapchain_choose_surface_format. keeps. Qed.
#[local] Hint Resolve keeps_choose_surface_format : keeps.

Lemma keeps_choose_present_mode p n v t :
  keeps_flag (ve_swapchain_choose_present_mode p n v t).
Proof. unfold ve_swapchain_choose_present_mode. keeps. Qed.
#[local] Hint Resolve keeps_choose_present_mode : keeps.

Lemma keeps_choose_extent c rw rh : keeps_flag (ve_swapchain_choose_extent c rw rh).
Proof. unfold ve_swapchain_choose_extent. keeps. Qed.
#[local] Hint Resolve keeps_choose_extent : keeps.

Lemma keeps_vkGetSwapchainImagesKHR dev chain n p :
  keeps_flag (vkGetSwapchainImagesKHR dev chain n p).
Proof. unfold vkGetSwapchainImagesKHR. keeps. Qed.
#[local] Hint Resolve keeps_vkGetSwapchainImagesKHR : keeps.

Lemma keeps_create_image_views : keeps_flag ve_swapchain_create_image_views.
Proof. unfold ve_swapchain_create_image_views, vkCreateImageView, vkDestroyImageView. keeps. Qed.
#[local] Hint Resolve keeps_create_image_views : keeps.

Lemma keeps_free_owned_framebuffers dev : keeps_flag (free_owned_framebuffers dev).
Proof. unfold free_owned_framebuffers, vkDestroyFramebuffer. keeps. Qed.
#[local] Hint Resolve keeps_free_owned_framebuffers : keeps.

Lemma keeps_create_framebuffers rp dv : keeps_flag (ve_swapchain_create_framebuffers rp dv).
Proof.
  unfold ve_swapchain_create_framebuffers, vkCreateFramebuffer, vkDestroyFramebuffer. keeps.
Qed.
#[local] Hint Resolve keeps_create_framebuffers : keeps.

Lemma keeps_set_framebuffers fbs n owns :
  keeps_flag (ve_swapchain_set_framebuffers fbs n owns).
Proof. unfold ve_swapchain_set_framebuffers. keeps. Qed.
#[local] Hint Resolve keeps_set_framebuffers : keeps.

Lemma keeps_destroy : keeps_flag ve_swapchain_destroy.
Proof.
  unfold ve_swapchain_destroy, vkDestroyFramebuffer, vkDestroyImageView,
    vkDestroySwapchainKHR. keeps.
Qed.
#[local] Hint Resolve keeps_destroy : keeps.

Ltac wlp_step :=
  match goal with
  | |- wlp (bind _ _) _ _ => apply wlp_bind
  | |- wlp (ret _) _ _ => apply wlp_ret
  | |- wlp (if ?c then _ else _) _ _ => destruct c eqn:?
  | |- wlp (let '(_, _) := ?x in _) _ _ => destruct x
  | |- wlp (match ?x with _ => _ end) _ _ => destruct x eqn:?
  | |- wlp _ _ _ => eapply wlp_keeps; [solve [keeps] | intros ? ? ?]
  | |- wlp (update_swapchain _) _ _ => apply wlp_modify
  end.

(** A rebuild clears the flag exactly when it succeeds. *)
Lemma create_flag config w :
  wlp (ve_swapchain_create config)
      (λ r w', (r = VK_SUCCESS ∧ flag w' = false) ∨ (r ≠ VK_SUCCESS ∧ flag w' = flag w)) w.
Proof.
  unfold ve_swapchain_create. repeat wlp_step;
    first
      [ left; split; [reflexivity | etransitivity; [eassumption | reflexivity]]
      | right; split;
        [ match goal with
          | H : bool_decide (?r ≠ VK_SUCCESS) = true |- ?r ≠ _ =>
              exact (bool_decide_eq_true_1 _ H)
          end
        | congruence ] ].
Qed.

Lemma recreate_flag config w :
  wlp (ve_swapchain_recreate config)
      (λ r w', (r = VK_SUCCESS ∧ flag w' = false) ∨ (r ≠ VK_SUCCESS ∧ flag w' = flag w)) w.
Proof.
  unfold ve_swapchain_recreate. apply wlp_bind.
  eapply wlp_keeps; [solve [keeps]|]. intros _ w1 E1 r w' E.
  destruct (create_flag config w1 r w' E) as [?|[? ?]]; [by left | right].
  split; [done | congruence].
Qed.

(** A present sets the flag on OutOfDate and Suboptimal and clears it on
    every other result. *)
Lemma present_flag sem w :
  wlp (ve_swapchain_present sem)
      (λ r w', flag w' = bool_decide (r = VK_ERROR_OUT_OF_DATE_KHR)
                         || bool_decide (r = VK_SUBOPTIMAL_KHR)) w.
Proof.
  unfold ve_swapchain_present, vkQueuePresentKHR. repeat wlp_step;
    match goal with H : _ || _ = _ |- _ => rewrite H end; reflexivity.
Qed.

Lemma acquire_flag sem w :
  wlp (ve_swapchain_acquire_next_image sem) (λ _ w', flag w = true → flag w' = true) w.
Proof.
  unfold ve_swapchain_acquire_next_image, vkAcquireNextImageKHR.
  repeat wlp_step; try reflexivity; congruence.
Qed.

(** C1, as the code has it.  Along every sequence of swapchain
    operations, a step that takes the out-of-date flag from true to false
    is either a rebuild that succeeded or a present whose result is
    neither OutOfDate nor Suboptimal.  Acquire, destroy and the
    framebuffer functions never clear the flag; neither does a failed
    rebuild. *)
Theorem flag_cleared_only_by ops w t w' :
  run_trace ops w = Ret (t, w') →
  ∀ op r, (op, true, r, false) ∈ t →
    (is_rebuild op ∧ r = VK_SUCCESS)
    ∨ (is_present op ∧ r ≠ VK_ERROR_OUT_OF_DATE_KHR ∧ r ≠ VK_SUBOPTIMAL_KHR).
Proof.
  revert w t w'. induction ops as [|op0 ops IH]; intros w t w' Hrun op r Hin.
  - injection Hrun as <- _. by apply elem_of_nil in Hin.
  - cbn [run_trace] in Hrun. rewrite bind_gets in Hrun.
    apply bind_inv in Hrun as (r0 & w1 & Hop & Hrun).
    rewrite bind_gets in Hrun.
    apply bind_inv in Hrun as (t' & w2 & Hrest & Hret).
    injection Hret as <- _.
    apply elem_of_cons in Hin as [Hhd|Htl]; [|exact (IH _ _ _ Hrest _ _ Htl)].
    injection Hhd as -> Hw -> Hw1. symmetry in Hw, Hw1.
    destruct op0 as [s|s|c|c| |rp dv|fbs n owns]; cbn [run_op] in Hop.
    + pose proof (acquire_flag s w r0 w1 Hop Hw) as Hf. cbv beta in Hf. congruence.
    + right. split; [exact I|].
      pose proof (present_flag s w r0 w1 Hop) as Hf. cbv beta in Hf. rewrite Hw1 in Hf.
      symmetry in Hf. apply orb_false_elim in Hf as [H1 H2].
      split; [exact (bool_decide_eq_false_1 _ H1) | exact (bool_decide_eq_false_1 _ H2)].
    + left. split; [exact I|].
      destruct (create_flag c w r0 w1 Hop) as [[? ?]|[? ?]]; [done | congruence].
    + left. split; [exact I|].
      destruct (recreate_flag c w r0 w1 Hop) as [[? ?]|[? ?]]; [done | congruence].
    + apply bind_inv in Hop as (? & w0 & Hd & [= <- <-]).
      pose proof (keeps_destroy w _ w0 Hd). congruence.
    + pose proof (keeps_create_framebuffers rp dv w _ _ Hop). congruence.
    + apply bind_inv in Hop as (? & w0 & Hd & [= <- <-]).
      pose proof (keeps_set_framebuffers fbs n owns w _ w0 Hd). congruence.
Qed.

Lemma flag_cleared_only_by_witness :
  (is_rebuild (OpPresent 0) ∧ VK_SUCCESS = VK_SUCCESS)
  ∨ (is_present (OpPresent 0)
     ∧ VK_SUCCESS ≠ VK_ERROR_OUT_OF_DATE_KHR ∧ VK_SUCCESS ≠ VK_SUBOPTIMAL_KHR).
Proof.
  eapply (flag_cleared_only_by [OpAcquire 0; OpPresent 0]
            (sample_world VE_ASSERT_MODE_DEBUG_BREAK [VK_SUBOPTIMAL_KHR; VK_SUCCESS])).
  - vm_compute. reflexivity.
  - right. left.
Defined.

(** C1 as stated fails: with the flag set, a present that the driver
    answers with plain success clears the flag, and a present is no
    rebuild. *)
Lemma present_clears_flag :
  let w0 := sample_world VE_ASSERT_MODE_DEBUG_BREAK [VK_SUCCESS] in
  let w := set_g_swapchain (set_out_of_date true (g_swapchain w0)) w0 in
  flag w = true
  ∧ ∃ r w', ve_swapchain_present 0 w = Ret (r, w')
            ∧ flag w' = false ∧ ¬ is_rebuild (OpPresent 0).
Proof.
  split; [reflexivity|]. eexists _, _.
  split; [vm_compute; reflexivity|]. split; [reflexivity | intros []].
Qed.

(** ** The frame counters *)

Lemma advance_mod c (n : nat) :
  0 ≤ c < VE_MAX_FRAMES_IN_FLIGHT →
  (u32 (c + 1) mod VE_MAX_FRAMES_IN_FLIGHT + Z.of_nat n) mod VE_MAX_FRAMES_IN_FLIGHT
  = (c + Z.of_nat (S n)) mod VE_MAX_FRAMES_IN_FLIGHT.
Proof.
  unfold VE_MAX_FRAMES_IN_FLIGHT, u32. intros Hc.
  rewrite (Z.mod_small (c + 1) (2 ^ 32)) by lia.
  rewrite Zplus_mod_idemp_l. f_equal. lia.
Qed.

(** C3, as the code has it.  Both frame counters are ring counters over
    the frame slots: from an in-range value [c], [n] calls of the advance
    function always return and leave the counter at
    [(c + n) mod VE_MAX_FRAMES_IN_FLIGHT]: one slot further per call,
    wrapping to 0 after the last slot. *)
Theorem advance_is_ring_counter (n : nat) w :
  0 ≤ current_frame (g_sync_state w) < VE_MAX_FRAMES_IN_FLIGHT →
  0 ≤ vk_current_frame (g_vulkan_context w) < VE_MAX_FRAMES_IN_FLIGHT →
  (∃ w', repeat_m n ve_sync_advance_frame w = Ret ((), w')
         ∧ current_frame (g_sync_state w')
           = (current_frame (g_sync_state w) + Z.of_nat n) mod VE_MAX_FRAMES_IN_FLIGHT)
  ∧ (∃ w', repeat_m n ve_vulkan_advance_frame w = Ret ((), w')
           ∧ vk_current_frame (g_vulkan_context w')
             = (vk_current_frame (g_vulkan_context w) + Z.of_nat n) mod VE_MAX_FRAMES_IN_FLIGHT).
Proof.
  intros Hs Hv. split.
  - clear Hv. revert w Hs. induction n as [|n IH]; intros w Hs.
    + exists w. split; [reflexivity|]. rewrite Z.add_0_r, Z.mod_small; [done | lia].
    + cbn [repeat_m]. unfold ve_sync_advance_frame at 1. rewrite bind_modify.
      match goal with |- ∃ _, repeat_m _ _ ?w1 = _ ∧ _ => destruct (IH w1) as (w' & E & Hc) end.
      { cbn. apply Z.mod_pos_bound. reflexivity. }
      exists w'. split; [exact E|]. rewrite Hc. cbn [g_sync_state set_g_sync_state current_frame].
      by apply advance_mod.
  - clear Hs. revert w Hv. induction n as [|n IH]; intros w Hv.
    + exists w. split; [reflexivity|]. rewrite Z.add_0_r, Z.mod_small; [done | lia].
    + cbn [repeat_m]. unfold ve_vulkan_advance_frame at 1. rewrite bind_modify.
      match goal with |- ∃ _, repeat_m _ _ ?w1 = _ ∧ _ => destruct (IH w1) as (w' & E & Hc) end.
      { cbn. apply Z.mod_pos_bound. reflexivity. }
      exists w'. split; [exact E|]. rewrite Hc.
      cbn [g_vulkan_context set_g_vulkan_context vk_current_frame].
      by apply advance_mod.
Qed.

Lemma advance_is_ring_counter_witness :
  let w := sample_world VE_ASSERT_MODE_DEBUG_BREAK [] in
  (∃ w', repeat_m 5 ve_sync_advance_frame w = Ret ((), w')
         ∧ current_frame (g_sync_state w') = (0 + Z.of_nat 5) mod VE_MAX_FRAMES_IN_FLIGHT)
  ∧ (∃ w', repeat_m 5 ve_vulkan_advance_frame w = Ret ((), w')
           ∧ vk_current_frame (g_vulkan_context w')
             = (0 + Z.of_nat 5) mod VE_MAX_FRAMES_IN_FLIGHT).
Proof.
  intros w.
  exact (advance_is_ring_counter 5 w ltac:(vm_compute; split; [discriminate | reflexivity])
           ltac:(vm_compute; split; [discriminate | reflexivity])).
Defined.

(** C3 as stated fails: three advances from the initial value 0 bring
    the counter back to 0, not to 0 + 3. *)
Lemma frame_counter_wraps :
  let w := sample_world VE_ASSERT_MODE_DEBUG_BREAK [] in
  ∃ w', repeat_m 3 ve_sync_advance_frame w = Ret ((), w')
        ∧ current_frame (g_sync_state w') = 0
        ∧ current_frame (g_sync_state w') ≠ current_frame (g_sync_state w) + 3.
Proof.
  eexists. split; [vm_compute; reflexivity|]. split; [reflexivity | discriminate].
Qed.

(** ** Beginning a command buffer *)

Lemma deref_cmd_eq w cmd c : cmd_store w !! cmd = Some c → deref_cmd cmd w = Ret (c, w).
Proof. intros E. unfold deref_cmd. by rewrite E. Qed.

(** [ve_command_buffer_begin] once its assertion has let it through. *)
Lemma begin_forwarded w cmd c flags :
  cmd_store w !! cmd = Some c →
  ∃ w',
    (c0 ← deref_cmd cmd;
     result ← vkBeginCommandBuffer (buffer c0) flags;
     (if bool_decide (result = VK_SUCCESS) then set_is_recording cmd true else ret ());;
     ret result) w
    = Ret (next_result w, w')
    ∧ cmd_store w' !! cmd
      = Some (with_is_recording (is_recording c || bool_decide (next_result w = VK_SUCCESS)) c).
Proof.
  intros Hc. rewrite (bind_Ret _ _ _ _ _ (deref_cmd_eq w cmd c Hc)).
  unfold vkBeginCommandBuffer, vk_pop_result, bind at 1. fold (next_result w).
  destruct (bool_decide (next_result w = VK_SUCCESS)).
  - unfold set_is_recording. rewrite bind_assoc.
    erewrite bind_Ret by (apply deref_cmd_eq; exact Hc).
    rewrite bind_modify. eexists. split; [reflexivity|].
    cbn [cmd_store set_cmd_store]. rewrite lookup_insert_eq, orb_true_r. reflexivity.
  - rewrite bind_ret_l. eexists. split; [reflexivity|].
    cbn [cmd_store set_drv]. rewrite Hc, orb_false_r. by destruct c.
Qed.

(** C9, as the code has it.  [ve_command_buffer_begin] asserts that the
    buffer is not recording.  For a command buffer in the recording state
    the assertion trips: the process is terminated, unless the assert
    handler is set to continue, in which case the call is forwarded to
    the driver, returns the driver's result and leaves the buffer in the
    recording state.  A begin on a buffer that is not recording returns
    the driver's result, and the buffer is in the recording state
    afterwards exactly when that result is VK_SUCCESS.
    [ve_command_buffer_begin_frame] begins nothing while command_buffer.c
    is not initialised: it returns NULL and leaves the world as it is. *)
Theorem begin_on_recording w cmd c flags t :
  cmd ≠ 0 →
  cmd_store w !! cmd = Some c →
  (is_recording c = true →
     (assert_continues w = false → ve_command_buffer_begin cmd flags w = Fatal)
     ∧ (assert_continues w = true →
          ∃ w', ve_command_buffer_begin cmd flags w = Ret (next_result w, w')
                ∧ cmd_store w' !! cmd = Some c))
  ∧ (is_recording c = false →
       ∃ w', ve_command_buffer_begin cmd flags w = Ret (next_result w, w')
             ∧ cmd_store w' !! cmd
               = Some (with_is_recording (bool_decide (next_result w = VK_SUCCESS)) c))
  ∧ (g_initialized w = false →
       ve_command_buffer_begin_frame t w = Ret (0, w)).
Proof.
  intros Hnz Hc.
  assert (Hok : ∀ k : bool → M Z,
    bind (if bool_decide (cmd = 0) then ret false
          else c0 ← deref_cmd cmd; ret (negb (is_recording c0))) k w
    = k (negb (is_recording c)) w).
  { intros k. rewrite (bool_decide_eq_false_2 _ Hnz), bind_assoc.
    by rewrite (bind_Ret _ _ _ _ _ (deref_cmd_eq w cmd c Hc)). }
  split; [|split].
  - intros Hrec. split.
    + intros Hstop. unfold ve_command_buffer_begin. rewrite Hok, Hrec. cbn [negb].
      unfold bind at 1. by rewrite VE_ASSERT_false, Hstop.
    + intros Hgo. unfold ve_command_buffer_begin. rewrite Hok, Hrec. cbn [negb].
      unfold bind at 1. rewrite VE_ASSERT_false, Hgo.
      destruct (begin_forwarded w cmd c flags Hc) as (w' & E & Hst).
      exists w'. split; [exact E|]. rewrite Hst, Hrec. cbn [orb].
      destruct c; cbn in Hrec; by subst.
  - intros Hrec. unfold ve_command_buffer_begin. rewrite Hok, Hrec. cbn [negb].
    rewrite (bind_Ret _ _ _ _ _ (VE_ASSERT_true w)).
    destruct (begin_forwarded w cmd c flags Hc) as (w' & E & Hst).
    rewrite Hrec in Hst. eauto.
  - intros Hinit. unfold ve_command_buffer_begin_frame, ve_command_buffer_get_current.
    rewrite bind_assoc, bind_gets, Hinit. cbn [negb orb].
    by rewrite bind_ret_l, bool_decide_eq_true_2.
Qed.

Lemma begin_on_recording_witness :
  let w := hand_built_cmd_world VE_ASSERT_MODE_DEBUG_BREAK [] true in
  ve_command_buffer_begin 1 0 w = Fatal
  ∧ ve_command_buffer_begin_frame VE_COMMAND_BUFFER_GRAPHICS w = Ret (0, w).
Proof.
  intros w.
  destruct (begin_on_recording w 1
              (mkCommandBuffer 51 VE_COMMAND_BUFFER_GRAPHICS true false) 0
              VE_COMMAND_BUFFER_GRAPHICS ltac:(lia) eq_refl) as (Hrec & _ & Hframe).
  destruct (Hrec eq_refl) as (Hstop & _).
  exact (conj (Hstop eq_refl) (Hframe eq_refl)).
Defined.

(** C9 as stated fails: with the assert handler set to continue,
    [ve_command_buffer_begin] on a buffer that is already recording
    reports no failure; it returns the driver's VK_SUCCESS and the buffer
    is still recording. *)
Lemma begin_tolerates_recording :
  let w := hand_built_cmd_world VE_ASSERT_MODE_LOG_AND_CONTINUE [] true in
  (is_recording <$> cmd_store w !! 1) = Some true
  ∧ 1 ≠ 0
  ∧ ∃ w', ve_command_buffer_begin 1 0 w = Ret (VK_SUCCESS, w')
          ∧ (is_recording <$> cmd_store w' !! 1) = Some true.
Proof.
  split; [reflexivity|]. split; [discriminate|].
  eexists. split; vm_compute; reflexivity.
Qed.

(** ** A logic of calls that return *)

Lemma wp_ret {A} (a : A) Q w : Q a w → wp (ret a) Q w.
Proof. intros H. by exists a, w. Qed.

Lemma wp_bind {A B} (m : M A) (k : A → M B) Q w :
  wp m (λ a w', wp (k a) Q w') w → wp (bind m k) Q w.
Proof.
  intros (a & w' & Hm & b & w'' & Hk & HQ). exists b, w''.
  split; [|exact HQ]. by rewrite (bind_Ret _ _ _ _ _ Hm).
Qed.

Lemma wp_gets {A} (f : world → A) Q w : Q (f w) w → wp (gets f) Q w.
Proof. intros H. by exists (f w), w. Qed.

Lemma wp_modify f (Q : unit → world → Prop) w : Q () (f w) → wp (modify f) Q w.
Proof. intros H. by exists (), (f w). Qed.

Lemma wp_mono {A} (m : M A) (Q Q' : A → world → Prop) w :
  wp m Q w → (∀ a w', Q a w' → Q' a w') → wp m Q' w.
Proof. intros (a & w' & E & HQ) H. exists a, w'. eauto. Qed.

Lemma wp_VE_ASSERT_true (Q : unit → world → Prop) w : Q () w → wp (VE_ASSERT true) Q w.
Proof. intros H. by exists (), w. Qed.

(** Loop rules: [I j] holds before iteration [j]. *)
Lemma wp_iter_range (I : Z → world → Prop) n i body (Q : unit → world → Prop) w :
  I i w →
  (∀ j w1, i ≤ j < i + Z.of_nat n → I j w1 → wp (body j) (λ _ w2, I (j + 1) w2) w1) →
  (∀ w1, I (i + Z.of_nat n) w1 → Q () w1) →
  wp (iter_range n i body) Q w.
Proof.
  revert i w. induction n as [|n IH]; intros i w Hi Hbody Hend; cbn [iter_range].
  - apply wp_ret, Hend. by rewrite Z.add_0_r.
  - apply wp_bind. eapply wp_mono; [apply Hbody; [lia | exact Hi]|].
    intros [] w1 Hi1. cbv beta in Hi1. apply (IH (i + 1) w1 Hi1).
    + intros j w2 Hj. apply Hbody. lia.
    + intros w2 Hw2. apply Hend. by replace (i + Z.of_nat (S n)) with (i + 1 + Z.of_nat n) by lia.
Qed.

Lemma wp_iter_u32 (I : Z → world → Prop) lo hi body (Q : unit → world → Prop) w :
  lo ≤ hi →
  I lo w →
  (∀ j w1, lo ≤ j < hi → I j w1 → wp (body j) (λ _ w2, I (j + 1) w2) w1) →
  (∀ w1, I hi w1 → Q () w1) →
  wp (iter_u32 lo hi body) Q w.
Proof.
  intros Hle Hi Hbody Hend. unfold iter_u32.
  apply (wp_iter_range I); [exact Hi | |].
  - intros j w1 Hj. apply Hbody. lia.
  - intros w1. rewrite Z2Nat.id by lia. replace (lo + (hi - lo)) with hi by lia. apply Hend.
Qed.

Lemma wp_for_range {R} (I : Z → world → Prop) n i (body : Z → M (option R))
    (Q : option R → world → Prop) w :
  I i w →
  (∀ j w1, i ≤ j < i + Z.of_nat n → I j w1 →
     wp (body j) (λ r w2, match r with
                          | Some v => Q (Some v) w2
                          | None => I (j + 1) w2
                          end) w1) →
  (∀ w1, I (i + Z.of_nat n) w1 → Q None w1) →
  wp (for_range n i body) Q w.
Proof.
  revert i w. induction n as [|n IH]; intros i w Hi Hbody Hend; cbn [for_range].
  - apply wp_ret, Hend. by rewrite Z.add_0_r.
  - apply wp_bind. eapply wp_mono; [apply Hbody; [lia | exact Hi]|].
    intros [v|] w1 H1; cbv beta in H1; [by apply wp_ret|].
    apply (IH (i + 1) w1 H1).
    + intros j w2 Hj. apply Hbody. lia.
    + intros w2 Hw2. apply Hend. by replace (i + Z.of_nat (S n)) with (i + 1 + Z.of_nat n) by lia.
Qed.

Lemma wp_for_u32 {R} (I : Z → world → Prop) lo hi (body : Z → M (option R))
    (Q : option R → world → Prop) w :
  lo ≤ hi →
  I lo w →
  (∀ j w1, lo ≤ j < hi → I j w1 →
     wp (body j) (λ r w2, match r with
                          | Some v => Q (Some v) w2
                          | None => I (j + 1) w2
                          end) w1) →
  (∀ w1, I hi w1 → Q None w1) →
  wp (for_u32 lo hi body) Q w.
Proof.
  intros Hle Hi Hbody Hend. unfold for_u32.
  apply (wp_for_range I); [exact Hi | |].
  - intros j w1 Hj. apply Hbody. lia.
  - intros w1. rewrite Z2Nat.id by lia. replace (lo + (hi - lo)) with hi by lia. apply Hend.
Qed.

(** *** Driver and heap calls *)

Lemma wp_vk_create dev o (Q : Z * option Z → world → Prop) w :
  dev ≠ VK_NULL_HANDLE →
  (next_result w ≠ VK_SUCCESS →
   Q (next_result w, None) (set_drv (drv_pop_result (drv w)) w)) →
  (next_result w = VK_SUCCESS →
   Q (VK_SUCCESS, Some (next_handle (drv w)))
     (set_drv (drv_insert o (drv_pop_result (drv w))) w)) →
  wp (vk_create dev o) Q w.
Proof.
  intros Hdev Hfail Hok. unfold vk_create. rewrite (bool_decide_eq_false_2 _ Hdev).
  unfold wp. rewrite (bind_Ret vk_pop_result _ w _ _ eq_refl). fold (next_result w).
  destruct (bool_decide_reflect (next_result w = VK_SUCCESS)) as [E|N].
  - rewrite E. eexists _, _. split; [reflexivity | by apply Hok].
  - eexists _, _. split; [reflexivity | by apply Hfail].
Qed.

Lemma wp_vk_destroy dev h (Q : unit → world → Prop) w :
  dev ≠ VK_NULL_HANDLE →
  Q () (set_drv (drv_delete h (drv w)) w) →
  wp (vk_destroy dev h) Q w.
Proof.
  intros Hdev H. unfold vk_destroy. rewrite (bool_decide_eq_false_2 _ Hdev).
  by apply wp_modify.
Qed.

Lemma wp_ve_allocate n (Q : Z → world → Prop) w :
  (n = 0 → Q 0 w) →
  (n ≠ 0 → hd true (alloc_results (mem w)) = false →
   Q 0 (set_mem (mkHost (heap (mem w)) (next_block (mem w))
                        (tl (alloc_results (mem w)))) w)) →
  (n ≠ 0 → hd true (alloc_results (mem w)) = true →
   Q (next_block (mem w))
     (set_mem (mkHost (<[next_block (mem w) := replicate (Z.to_nat n) CUninit]> (heap (mem w)))
                      (next_block (mem w) + 1) (tl (alloc_results (mem w)))) w)) →
  wp (ve_allocate n) Q w.
Proof.
  intros H0 Hfail Hok. unfold ve_allocate. case_bool_decide as Hn.
  - by apply wp_ret, H0.
  - unfold wp. cbv beta zeta.
    destruct (hd true (alloc_results (mem w))) eqn:E; eexists _, _;
      (split; [reflexivity|]); auto.
Qed.

Lemma wp_ve_free p (Q : unit → world → Prop) w :
  p ≠ 0 → Q () (set_mem (mem_free p (mem w)) w) → wp (ve_free p) Q w.
Proof.
  intros Hp H. unfold ve_free. rewrite (bool_decide_eq_false_2 _ Hp). by apply wp_modify.
Qed.

Lemma wp_load_handle p i l h (Q : Z → world → Prop) w :
  heap (mem w) !! p = Some l → l !! Z.to_nat i = Some (CHandle h) →
  Q h w → wp (load_handle p i) Q w.
Proof.
  intros Hp Hi H. exists h, w. split; [|exact H].
  unfold load_handle, load, bind. by rewrite Hp, Hi.
Qed.

Lemma wp_store p i c l (Q : unit → world → Prop) w :
  heap (mem w) !! p = Some l → (Z.to_nat i < length l)%nat →
  Q () (set_mem (mem_write p (<[Z.to_nat i := c]> l) (mem w)) w) →
  wp (store p i c) Q w.
Proof.
  intros Hp Hi H. eexists _, _. split; [|exact H].
  unfold store. rewrite Hp. by rewrite bool_decide_eq_true_2.
Qed.

(** *** Handle ranges and array contents *)

Lemma range_live_nil lo hi o base m : hi ≤ lo → range_live lo hi o base m → m = base.
Proof.
  intros Hle H. apply map_eq. intros h. rewrite (H h).
  by rewrite bool_decide_eq_false_2 by lia.
Qed.

Lemma range_live_refl lo o base : range_live lo lo o base base.
Proof. intros h. by rewrite bool_decide_eq_false_2 by lia. Qed.

Lemma range_live_insert lo hi o base m :
  lo ≤ hi → range_live lo hi o base m → range_live lo (hi + 1) o base (<[hi := o]> m).
Proof.
  intros Hle H h. destruct (decide (h = hi)) as [->|Hne].
  - rewrite lookup_insert_eq. by rewrite bool_decide_eq_true_2 by lia.
  - rewrite lookup_insert_ne by done. rewrite (H h).
    destruct (bool_decide_reflect (lo ≤ h < hi)).
    + by rewrite bool_decide_eq_true_2 by lia.
    + by rewrite bool_decide_eq_false_2 by lia.
Qed.

Lemma range_live_delete lo hi o base m :
  base !! lo = None → range_live lo hi o base m → range_live (lo + 1) hi o base (delete lo m).
Proof.
  intros Hb H h. destruct (decide (h = lo)) as [->|Hne].
  - rewrite lookup_delete_eq. by rewrite bool_decide_eq_false_2 by lia.
  - rewrite lookup_delete_ne by done. rewrite (H h).
    destruct (bool_decide_reflect (lo ≤ h < hi)).
    + by rewrite bool_decide_eq_true_2 by lia.
    + by rewrite bool_decide_eq_false_2 by lia.
Qed.

Lemma filled_length n0 k n : (k ≤ n)%nat → length (filled n0 k n) = n.
Proof.
  intros H. unfold filled. rewrite length_app, length_fmap, length_seqZ, length_replicate. lia.
Qed.

Lemma filled_lookup n0 k n (j : nat) :
  (j < k)%nat → filled n0 k n !! j = Some (CHandle (n0 + Z.of_nat j)).
Proof.
  intros H. unfold filled. rewrite lookup_app_l by (rewrite length_fmap, length_seqZ; lia).
  rewrite list_lookup_fmap, lookup_seqZ_lt by lia. reflexivity.
Qed.

Lemma filled_store n0 k n :
  (k < n)%nat →
  <[k := CHandle (n0 + Z.of_nat k)]> (filled n0 k n) = filled n0 (S k) n.
Proof.
  intros H. unfold filled.
  assert (Hl : length (CHandle <$> seqZ n0 (Z.of_nat k)) = k)
    by (rewrite length_fmap, length_seqZ; lia).
  rewrite insert_app_r_alt by lia. rewrite Hl, Nat.sub_diag.
  replace (n - k)%nat with (S (n - S k)) by lia. cbn [replicate].
  rewrite seqZ_S, fmap_app, <- app_assoc. reflexivity.
Qed.
(** Projections of updated worlds. *)
Ltac wsimpl :=
  cbn [drv mem report g_assert_mode g_assert_callback g_vulkan_context g_swapchain
       g_owns_framebuffers g_sync_state g_frame_command_buffers g_initialized cmd_store
       set_drv set_mem set_g_vulkan_context set_g_swapchain set_g_owns_framebuffers
       set_g_sync_state set_cmd_store
       live next_handle vk_results vk_indices idle_waits
       drv_pop_result drv_pop_index drv_insert drv_delete drv_idle
       heap next_block alloc_results mem_write mem_free
       swapchain images image_views framebuffers format extent image_count
       current_image_index out_of_date
       set_swapchain set_images set_image_views set_framebuffers set_format set_extent
       set_image_count set_current_image_index set_out_of_date
       frames current_frame timeline_semaphores
       physical_device surface device queues_present vk_current_frame] in *.

(** ** All-or-nothing creation of image views and framebuffers *)

(** Destroying the handles an array holds, in order: the clean-up loop of
    a failed creation. *)
Lemma wp_destroy_filled dev p n0 (k N : nat) o base (Q : unit → world → Prop) w :
  dev ≠ VK_NULL_HANDLE →
  heap (mem w) !! p = Some (filled n0 k N) →
  range_live n0 (n0 + Z.of_nat k) o base (live (drv w)) →
  (∀ h, n0 ≤ h → base !! h = None) →
  (∀ d, live d = base → next_handle d = next_handle (drv w) → Q () (set_drv d w)) →
  wp (iter_u32 0 (Z.of_nat k) (λ j, v ← load_handle p j; vk_destroy dev v)) Q w.
Proof.
  intros Hdev Hp Hlive Hbase HQ.
  apply (wp_iter_u32 (λ j w1,
           0 ≤ j ≤ Z.of_nat k ∧ mem w1 = mem w
           ∧ (∃ d, w1 = set_drv d w ∧ next_handle d = next_handle (drv w)
                   ∧ range_live (n0 + j) (n0 + Z.of_nat k) o base (live d)))).
  - lia.
  - split; [lia|]. split; [done|]. exists (drv w). split; [by destruct w|].
    split; [done|]. by rewrite Z.add_0_r.
  - intros j w1 Hj (Hjk & Hmem & d & -> & Hnext & Hr).
    apply wp_bind.
    eapply (wp_load_handle p j (filled n0 k N) (n0 + j)).
    { wsimpl. exact Hp. }
    { rewrite filled_lookup by lia. f_equal. f_equal. lia. }
    apply wp_vk_destroy; [done|]. wsimpl.
    split; [lia|]. split; [done|]. eexists. split; [reflexivity|]. wsimpl.
    split; [done|]. rewrite Z.add_assoc. apply range_live_delete; [apply Hbase; lia | done].
  - intros w1 (_ & _ & d & -> & Hnext & Hr). apply HQ; [|done].
    eapply range_live_nil; [|exact Hr]. lia.
Qed.

Lemma wf_drv_fresh d h : wf_drv d → next_handle d ≤ h → live d !! h = None.
Proof.
  intros [_ Hall] Hle. destruct (live d !! h) as [o|] eqn:E; [|done].
  specialize (Hall h o E). cbv beta in Hall. lia.
Qed.

Lemma wf_mem_fresh m p : wf_mem m → next_block m ≤ p → heap m !! p = None.
Proof.
  intros [_ Hall] Hle. destruct (heap m !! p) as [l|] eqn:E; [|done].
  specialize (Hall p l E). cbv beta in Hall. lia.
Qed.

(** *** Reading the driver's script *)

Lemma hd_drop (l : list Z) k : hd VK_SUCCESS (drop k l) = default VK_SUCCESS (l !! k).
Proof. revert l. induction k as [|k IH]; intros [|x l]; cbn; auto. Qed.

Lemma tl_drop (l : list Z) k : tl (drop k l) = drop (S k) l.
Proof. revert l. induction k as [|k IH]; intros [|x l]; cbn; auto. Qed.

Lemma script_success (l : list Z) k :
  hd VK_SUCCESS (drop k l) = VK_SUCCESS →
  Forall (λ r, r = VK_SUCCESS) (take k l) → Forall (λ r, r = VK_SUCCESS) (take (S k) l).
Proof.
  rewrite hd_drop. intros Hk Hall. destruct (l !! k) as [x|] eqn:E.
  - rewrite (take_S_r _ _ _ E). apply Forall_app. split; [done|]. by repeat constructor.
  - apply lookup_ge_None in E. rewrite firstn_all2 by lia. by rewrite firstn_all2 in Hall by lia.
Qed.

Lemma script_failure (l : list Z) k r :
  hd VK_SUCCESS (drop k l) = r → r ≠ VK_SUCCESS → l !! k = Some r.
Proof. rewrite hd_drop. destruct (l !! k); cbn; congruence. Qed.

Lemma first_failure_unique script i e k r :
  first_failure script i e → first_failure script k r → k = i ∧ r = e.
Proof.
  intros (Hi & Hie & He) (Hk & Hkr & Hr).
  destruct (Nat.lt_trichotomy k i) as [Hlt|[->|Hgt]].
  - exfalso. apply Hr. rewrite Forall_lookup in Hi. apply (Hi k).
    by rewrite lookup_take_lt.
  - split; [done | congruence].
  - exfalso. apply He. rewrite Forall_lookup in Hk. apply (Hk i).
    by rewrite lookup_take_lt.
Qed.

Lemma first_failure_not_all script i e n :
  first_failure script i e → (i < n)%nat →
  ¬ Forall (λ r, r = VK_SUCCESS) (take n script).
Proof.
  intros (_ & Hie & He) Hlt Hall. apply He. rewrite Forall_lookup in Hall.
  apply (Hall i). by rewrite lookup_take_lt.
Qed.

Lemma filled_0 n0 N : filled n0 0 N = replicate N CUninit.
Proof. unfold filled. by rewrite Nat.sub_0_r. Qed.

(** The creation loop shared by image views and framebuffers: element [i]
    of the array at [p] receives a new object made from element [i] of
    the array the swapchain field [srcf] points to; the first failure
    destroys what the loop made, frees the array and clears its field. *)
Lemma wp_create_loop (srcf : ve_swapchain → Z) (clear : ve_swapchain → ve_swapchain)
    o dev p (N : nat) (srcl : list cell) (Q : option Z → world → Prop) w :
  let n0 := next_handle (drv w) in
  let script := vk_results (drv w) in
  dev ≠ VK_NULL_HANDLE → wf_drv (drv w) → p ≠ 0 →
  heap (mem w) !! p = Some (filled n0 0 N) →
  srcf (g_swapchain w) ≠ p →
  heap (mem w) !! srcf (g_swapchain w) = Some srcl →
  (∀ i, (i < N)%nat → ∃ h, srcl !! i = Some (CHandle h)) →
  (∀ r k d m, (k < N)%nat → first_failure script k r →
     live d = live (drv w) → wf_drv d →
     heap m = delete p (heap (mem w)) → next_block m = next_block (mem w) →
     Q (Some r) (set_g_swapchain (clear (g_swapchain w)) (set_mem m (set_drv d w)))) →
  (∀ d m, Forall (λ r, r = VK_SUCCESS) (take N script) →
     range_live n0 (n0 + Z.of_nat N) o (live (drv w)) (live d) →
     next_handle d = n0 + Z.of_nat N →
     heap m = <[p := filled n0 N N]> (heap (mem w)) → next_block m = next_block (mem w) →
     Q None (set_mem m (set_drv d w))) →
  wp (for_u32 0 (Z.of_nat N) (λ i,
        src ← gets (λ w, srcf (g_swapchain w));
        x ← load_handle src i;
        '(result, oh) ← vk_create dev o;
        out_array p i oh;;
        if bool_decide (result ≠ VK_SUCCESS) then
          iter_u32 0 i (λ j, v ← load_handle p j; vk_destroy dev v);;
          ve_free p;;
          update_swapchain clear;;
          ret (Some result)
        else ret None)) Q w.
Proof.
  intros n0 script Hdev Hwf Hp0 Hp Hsrcp Hsrc Hcells Hfail Hok.
  apply (wp_for_u32 (λ k w1,
           0 ≤ k ≤ Z.of_nat N
           ∧ ∃ d m, w1 = set_mem m (set_drv d w)
                    ∧ next_handle d = n0 + k
                    ∧ vk_results d = drop (Z.to_nat k) script
                    ∧ Forall (λ r, r = VK_SUCCESS) (take (Z.to_nat k) script)
                    ∧ range_live n0 (n0 + k) o (live (drv w)) (live d)
                    ∧ heap m = <[p := filled n0 (Z.to_nat k) N]> (heap (mem w))
                    ∧ next_block m = next_block (mem w))).
  - lia.
  - split; [lia|]. exists (drv w), (mem w). split; [by destruct w|].
    split; [unfold n0; lia|]. split; [done|]. split; [by constructor|].
    split; [rewrite Z.add_0_r; apply range_live_refl|].
    split; [|done]. cbn [Z.to_nat]. by rewrite insert_id.
  - intros k w1 Hk (_ & d & m & -> & Hnext & Hscr & Hall & Hr & Hheap & Hnb).
    apply wp_bind, wp_gets. wsimpl.
    destruct (Hcells (Z.to_nat k) ltac:(lia)) as [x Hx].
    apply wp_bind. apply (wp_load_handle _ _ srcl x).
    { wsimpl. rewrite Hheap. by rewrite lookup_insert_ne. }
    { exact Hx. }
    apply wp_bind. apply wp_vk_create; [done| |]; unfold next_result; wsimpl; rewrite Hscr.
    + (* the creation fails *)
      intros Hr0. cbn [out_array]. apply wp_bind, wp_ret.
      rewrite (bool_decide_eq_true_2 _ Hr0).
      apply wp_bind. rewrite <- (Z2Nat.id k) at 1 by lia.
      apply (wp_destroy_filled dev p n0 (Z.to_nat k) N o (live (drv w))); [done | | | |].
      { wsimpl. rewrite Hheap. apply lookup_insert_eq. }
      { wsimpl. by rewrite Z2Nat.id by lia. }
      { intros h Hh. by apply wf_drv_fresh. }
      intros d' Hd' Hnext'. wsimpl.
      apply wp_bind, wp_ve_free; [done|]. wsimpl.
      apply wp_bind, wp_modify. unfold set_g_swapchain at 1. wsimpl.
      apply wp_ret.
      apply (Hfail _ (Z.to_nat k) d' (mem_free p m)); [lia | | done | | | done].
      * split; [done|]. split; [|done]. by eapply script_failure.
      * destruct Hwf as [Hpos Hall']. split; [lia|].
        rewrite Hd'. intros h ob Hh. specialize (Hall' h ob Hh). cbv beta in *. lia.
      * wsimpl. rewrite Hheap. by rewrite delete_insert_eq.
    + (* the creation succeeds *)
      intros Hr1. cbn [out_array]. apply wp_bind.
      apply (wp_store _ _ _ (filled n0 (Z.to_nat k) N)).
      { wsimpl. rewrite Hheap. apply lookup_insert_eq. }
      { rewrite filled_length by lia. lia. }
      wsimpl. rewrite (bool_decide_eq_false_2 (VK_SUCCESS ≠ VK_SUCCESS)) by (intros H; by apply H).
      apply wp_ret. split; [lia|].
      eexists _, _. split; [reflexivity|]. wsimpl.
      replace (Z.to_nat (k + 1)) with (S (Z.to_nat k)) by lia.
      split; [lia|]. split; [by rewrite Hscr, tl_drop|].
      split; [by apply script_success|]. split.
      { rewrite Hnext, Z.add_assoc. apply range_live_insert; [lia | done]. }
      split; [|done].
      rewrite Hheap, insert_insert_eq. f_equal. rewrite Hnext.
      replace (n0 + k) with (n0 + Z.of_nat (Z.to_nat k)) by lia.
      by rewrite filled_store by lia.
  - intros w1 (_ & d & m & -> & Hnext & Hscr & Hall & Hr & Hheap & Hnb).
    rewrite Nat2Z.id in *. by apply Hok.
Qed.

(** What [ve_swapchain_create_image_views] does, by cases: the array
    cannot be allocated; the driver's call number [k] is the first to
    fail; every call succeeds. *)
Lemma create_image_views_cases w :
  let N := Z.to_nat (image_count (g_swapchain w)) in
  let n0 := next_handle (drv w) in
  let script := vk_results (drv w) in
  let allocated := N ≠ 0%nat ∧ hd true (alloc_results (mem w)) = true in
  wf w → device (g_vulkan_context w) ≠ VK_NULL_HANDLE →
  0 ≤ image_count (g_swapchain w) →
  handles_at (mem w) (images (g_swapchain w)) N →
  wp ve_swapchain_create_image_views (λ r w',
    (¬ allocated ∧ r = VK_ERROR_OUT_OF_HOST_MEMORY
     ∧ image_views (g_swapchain w') = 0
     ∧ live (drv w') = live (drv w) ∧ heap (mem w') = heap (mem w))
    ∨ (allocated ∧ (∃ k, (k < N)%nat ∧ first_failure script k r)
       ∧ image_views (g_swapchain w') = 0
       ∧ live (drv w') = live (drv w) ∧ heap (mem w') = heap (mem w))
    ∨ (allocated ∧ Forall (λ r, r = VK_SUCCESS) (take N script) ∧ r = VK_SUCCESS
       ∧ image_views (g_swapchain w') = next_block (mem w)
       ∧ range_live n0 (n0 + Z.of_nat N) ImageView (live (drv w)) (live (drv w'))
       ∧ heap (mem w') = <[next_block (mem w) := filled n0 N N]> (heap (mem w)))) w.
Proof.
  intros N n0 script allocated [Hwd Hwm] Hdev Hcount (imgs & Himgs & Hcells).
  unfold ve_swapchain_create_image_views.
  apply wp_bind, wp_gets. rewrite (bool_decide_eq_true_2 _ Hdev).
  apply wp_bind, wp_VE_ASSERT_true. apply wp_bind, wp_gets.
  apply wp_bind, wp_ve_allocate.
  - intros Hn. apply wp_bind, wp_modify. rewrite bool_decide_eq_true_2 by done.
    apply wp_ret. left. wsimpl. split_and!; try done.
    intros [HN _]. apply HN. unfold N. by rewrite Hn.
  - intros Hn Halloc. apply wp_bind, wp_modify. rewrite bool_decide_eq_true_2 by done.
    apply wp_ret. left. wsimpl. split_and!; try done.
    intros [_ Ha]. congruence.
  - intros Hn Halloc. set (p := next_block (mem w)).
    assert (Hp0 : p ≠ 0) by (destruct Hwm as [? _]; unfold p; lia).
    assert (Hfresh : heap (mem w) !! p = None) by (apply wf_mem_fresh; [done | unfold p; lia]).
    assert (HN : N ≠ 0%nat) by (unfold N; lia).
    apply wp_bind, wp_modify. rewrite (bool_decide_eq_false_2 _ Hp0).
    apply wp_bind. rewrite <- (Z2Nat.id (image_count (g_swapchain w))) by done. fold N.
    unfold vkCreateImageView, vkDestroyImageView.
    apply (wp_create_loop images (set_image_views 0) ImageView _ p N imgs); wsimpl;
      try done.
    + rewrite lookup_insert_eq, filled_0. f_equal. f_equal. unfold N. lia.
    + intros E. rewrite E in Himgs. congruence.
    + rewrite lookup_insert_ne; [done|]. intros E. rewrite <- E in Himgs. congruence.
    + intros r k d m Hk Hff Hlive Hwfd Hheap Hnb. apply wp_ret. right. left. wsimpl.
      split_and!; try done; [by exists k|].
      rewrite Hheap. by apply delete_insert_id.
    + intros d m Hall Hr Hnext Hheap Hnb. apply wp_ret. right. right. wsimpl.
      split_and!; try done. rewrite Hheap. by rewrite insert_insert_eq.
Qed.

Lemma wf_drv_delete h d : wf_drv d → wf_drv (drv_delete h d).
Proof. intros [Hpos Hall]. split; [done|]. by apply map_Forall_delete. Qed.

Lemma wf_mem_free p m : wf_mem m → wf_mem (mem_free p m).
Proof. intros [Hpos Hall]. split; [done|]. by apply map_Forall_delete. Qed.

(** Releasing the old framebuffers touches nothing but the objects the
    device keeps alive and the block of the old array. *)
Lemma wp_free_owned_framebuffers dev w :
  let N := Z.to_nat (image_count (g_swapchain w)) in
  let fbs := framebuffers (g_swapchain w) in
  dev ≠ VK_NULL_HANDLE → wf w → 0 ≤ image_count (g_swapchain w) →
  (g_owns_framebuffers w = true → fbs ≠ 0 → handles_at (mem w) fbs N) →
  wp (free_owned_framebuffers dev) (λ _ w1,
    ∃ d m, w1 = set_mem m (set_drv d w)
           ∧ wf_drv d ∧ next_handle d = next_handle (drv w)
           ∧ vk_results d = vk_results (drv w)
           ∧ wf_mem m ∧ next_block m = next_block (mem w)
           ∧ alloc_results m = alloc_results (mem w)
           ∧ heap m = if g_owns_framebuffers w && bool_decide (fbs ≠ 0)
                      then delete fbs (heap (mem w)) else heap (mem w)) w.
Proof.
  intros N fbs Hdev [Hwd Hwm] Hcount Hold. unfold free_owned_framebuffers.
  apply wp_bind, wp_gets. apply wp_bind, wp_gets. fold fbs.
  destruct (g_owns_framebuffers w) eqn:Eowns; cbn [andb];
    [case_bool_decide as Hfbs|].
  - destruct (Hold eq_refl Hfbs) as (l & Hl & Hcells).
    apply wp_bind, wp_gets. apply wp_bind.
    apply (wp_iter_u32 (λ j w1, ∃ d, w1 = set_drv d w ∧ wf_drv d
                                     ∧ next_handle d = next_handle (drv w)
                                     ∧ vk_results d = vk_results (drv w))).
    + done.
    + exists (drv w). by destruct w.
    + intros j w1 Hj (d & -> & Hwfd & Hnext & Hscr).
      destruct (Hcells (Z.to_nat j) ltac:(unfold N; lia)) as [h Hh].
      apply wp_bind. apply (wp_load_handle _ _ l h); [done | done |].
      case_bool_decide.
      * apply wp_vk_destroy; [done|]. eexists. split; [reflexivity|].
        split; [by apply wf_drv_delete | done].
      * apply wp_ret. eauto.
    + intros w1 (d & -> & Hwfd & Hnext & Hscr).
      apply wp_ve_free; [done|]. wsimpl.
      exists d, (mem_free fbs (mem w)). split; [reflexivity|].
      split_and!; try done. by apply wf_mem_free.
  - apply wp_ret. exists (drv w), (mem w). split; [by destruct w|]. done.
  - apply wp_ret. exists (drv w), (mem w). split; [by destruct w|]. done.
Qed.

(** What [ve_swapchain_create_framebuffers] does, by cases, relative to
    the world [w1] in which the old framebuffers have been released. *)
Lemma create_framebuffers_cases rp dv w :
  let N := Z.to_nat (image_count (g_swapchain w)) in
  let n0 := next_handle (drv w) in
  let script := vk_results (drv w) in
  let allocated := N ≠ 0%nat ∧ hd true (alloc_results (mem w)) = true in
  let fbs := framebuffers (g_swapchain w) in
  let views := image_views (g_swapchain w) in
  wf w → device (g_vulkan_context w) ≠ VK_NULL_HANDLE → rp ≠ VK_NULL_HANDLE →
  0 ≤ image_count (g_swapchain w) →
  handles_at (mem w) views N →
  (g_owns_framebuffers w = true → fbs ≠ 0 → handles_at (mem w) fbs N ∧ views ≠ fbs) →
  wp (ve_swapchain_create_framebuffers rp dv) (λ r w',
    ∃ w1, free_owned_framebuffers (device (g_vulkan_context w)) w = Ret ((), w1)
    ∧ ((¬ allocated ∧ r = VK_ERROR_OUT_OF_HOST_MEMORY
        ∧ framebuffers (g_swapchain w') = 0
        ∧ live (drv w') = live (drv w1) ∧ heap (mem w') = heap (mem w1))
       ∨ (allocated ∧ (∃ k, (k < N)%nat ∧ first_failure script k r)
          ∧ framebuffers (g_swapchain w') = 0
          ∧ live (drv w') = live (drv w1) ∧ heap (mem w') = heap (mem w1))
       ∨ (allocated ∧ Forall (λ r, r = VK_SUCCESS) (take N script) ∧ r = VK_SUCCESS
          ∧ framebuffers (g_swapchain w') = next_block (mem w)
          ∧ g_owns_framebuffers w' = true
          ∧ range_live n0 (n0 + Z.of_nat N) Framebuffer (live (drv w1)) (live (drv w'))
          ∧ heap (mem w')
            = <[next_block (mem w) := filled n0 N N]> (heap (mem w1))))) w.
Proof.
  intros N n0 script allocated fbs views Hwf Hdev Hrp Hcount (vl & Hvl & Hcells) Hold.
  unfold ve_swapchain_create_framebuffers.
  apply wp_bind, wp_gets. rewrite (bool_decide_eq_true_2 _ Hdev).
  apply wp_bind, wp_VE_ASSERT_true. rewrite (bool_decide_eq_true_2 _ Hrp).
  apply wp_bind, wp_VE_ASSERT_true.
  destruct (wp_free_owned_framebuffers (device (g_vulkan_context w)) w Hdev Hwf Hcount)
    as ([] & w1 & E1 & d1 & m1 & -> & Hwd1 & Hnext1 & Hscr1 & Hwm1 & Hnb1 & Hal1 & Hheap1).
  { intros Ho Hf. by apply Hold. }
  apply wp_bind. exists (), (set_mem m1 (set_drv d1 w)). split; [exact E1|].
  assert (Hviews : heap m1 !! views = Some vl).
  { rewrite Hheap1. destruct (g_owns_framebuffers w) eqn:Eo; cbn [andb]; [|done].
    case_bool_decide as Hf; [|done]. rewrite lookup_delete_ne; [done|].
    destruct (Hold eq_refl Hf) as [_ Hne]. by intros E. }
  apply wp_bind, wp_gets. wsimpl. apply wp_bind, wp_ve_allocate; wsimpl.
  - intros Hn. apply wp_bind, wp_modify. rewrite bool_decide_eq_true_2 by done.
    apply wp_ret. eexists. split; [exact E1|]. left. wsimpl. split_and!; try done.
    intros [HN _]. apply HN. unfold N. by rewrite Hn.
  - intros Hn Halloc. apply wp_bind, wp_modify. rewrite bool_decide_eq_true_2 by done.
    apply wp_ret. eexists. split; [exact E1|]. left. wsimpl. split_and!; try done.
    intros [_ Ha]. congruence.
  - intros Hn Halloc. rewrite Hnb1. set (p := next_block (mem w)).
    assert (Hp0 : p ≠ 0) by (destruct Hwf as [_ [? _]]; unfold p; lia).
    assert (Hfresh : heap m1 !! p = None) by (apply wf_mem_fresh; [done | unfold p; lia]).
    assert (HN : N ≠ 0%nat) by (unfold N; lia).
    apply wp_bind, wp_modify. rewrite (bool_decide_eq_false_2 _ Hp0).
    apply wp_bind, wp_modify.
    apply wp_bind. rewrite <- (Z2Nat.id (image_count (g_swapchain w))) by done. fold N.
    unfold vkCreateFramebuffer, vkDestroyFramebuffer.
    apply (wp_create_loop image_views (set_framebuffers 0) Framebuffer _ p N vl); wsimpl;
      try done.
    + rewrite lookup_insert_eq, filled_0. f_equal. f_equal. unfold N. lia.
    + fold views. intros E. rewrite E in Hviews. congruence.
    + fold views. rewrite lookup_insert_ne; [done|]. intros E. rewrite <- E in Hviews.
      congruence.
    + intros r k d m Hk Hff Hlive Hwfd Hheap Hnb. apply wp_ret.
      eexists. split; [exact E1|]. right. left. wsimpl.
      rewrite Hscr1 in Hff. rewrite Hal1 in Halloc.
      split_and!; try done; [by exists k|].
      rewrite Hheap. by apply delete_insert_id.
    + intros d m Hall Hr Hnext Hheap Hnb. apply wp_ret.
      eexists. split; [exact E1|]. right. right. wsimpl.
      rewrite Hscr1 in Hall. rewrite Hal1 in Halloc. rewrite Hnext1 in Hr.
      split_and!; try done. rewrite Hheap, Hnext1. by rewrite insert_insert_eq.
Qed.

(** C7.  Let the driver's call number [i] be the first to fail, with the
    error [e], while the function creates the view (or the framebuffer)
    of image [i].  Then the function returns [e], the array field is NULL
    again, and the objects the device keeps alive and the blocks of the
    host heap are exactly what they were before the call: every view made
    by the call has been destroyed and the array freed.  For
    [ve_swapchain_create_framebuffers], which first releases the old
    framebuffers it owns, "before the call" is the world [w1] in which
    that release has happened. *)
Theorem create_views_framebuffers_all_or_nothing w (i : nat) e rp dv :
  let N := Z.to_nat (image_count (g_swapchain w)) in
  let dev := device (g_vulkan_context w) in
  let fbs := framebuffers (g_swapchain w) in
  let views := image_views (g_swapchain w) in
  wf w → dev ≠ VK_NULL_HANDLE → 0 ≤ image_count (g_swapchain w) →
  (i < N)%nat →
  first_failure (vk_results (drv w)) i e →
  hd true (alloc_results (mem w)) = true →
  (handles_at (mem w) (images (g_swapchain w)) N →
   ∃ w', ve_swapchain_create_image_views w = Ret (e, w')
         ∧ image_views (g_swapchain w') = 0
         ∧ live (drv w') = live (drv w) ∧ heap (mem w') = heap (mem w))
  ∧ (rp ≠ VK_NULL_HANDLE → handles_at (mem w) views N →
     (g_owns_framebuffers w = true → fbs ≠ 0 → handles_at (mem w) fbs N ∧ views ≠ fbs) →
     ∃ w1 w', free_owned_framebuffers dev w = Ret ((), w1)
              ∧ ve_swapchain_create_framebuffers rp dv w = Ret (e, w')
              ∧ framebuffers (g_swapchain w') = 0
              ∧ live (drv w') = live (drv w1) ∧ heap (mem w') = heap (mem w1)).
Proof.
  intros N dev fbs views Hwf Hdev Hcount Hi Hff Halloc. split.
  - intros Himgs.
    destruct (create_image_views_cases w Hwf Hdev Hcount Himgs)
      as (r & w' & E & [(Hna & _)|[(_ & (k & Hk & Hkr) & Hv & Hl & Hh)|(_ & Hall & _)]]).
    + exfalso. apply Hna. split; [fold N; lia | done].
    + destruct (first_failure_unique _ _ _ _ _ Hff Hkr) as [_ ->]. eauto.
    + exfalso. by apply (first_failure_not_all _ _ _ N Hff).
  - intros Hrp Hviews Hold.
    destruct (create_framebuffers_cases rp dv w Hwf Hdev Hrp Hcount Hviews Hold)
      as (r & w' & E & w1 & E1
          & [(Hna & _)|[(_ & (k & Hk & Hkr) & Hv & Hl & Hh)|(_ & Hall & _)]]).
    + exfalso. apply Hna. split; [fold N; lia | done].
    + destruct (first_failure_unique _ _ _ _ _ Hff Hkr) as [_ ->]. eauto 10.
    + exfalso. by apply (first_failure_not_all _ _ _ N Hff).
Qed.

Lemma create_views_framebuffers_all_or_nothing_witness :
  let w := sample_chain_world [VK_SUCCESS; VK_SUCCESS; VK_ERROR_OUT_OF_DEVICE_MEMORY] in
  (∃ w', ve_swapchain_create_image_views w = Ret (VK_ERROR_OUT_OF_DEVICE_MEMORY, w')
         ∧ image_views (g_swapchain w') = 0
         ∧ live (drv w') = live (drv w) ∧ heap (mem w') = heap (mem w))
  ∧ (∃ w1 w', free_owned_framebuffers 3 w = Ret ((), w1)
              ∧ ve_swapchain_create_framebuffers 7 0 w
                = Ret (VK_ERROR_OUT_OF_DEVICE_MEMORY, w')
              ∧ framebuffers (g_swapchain w') = 0
              ∧ live (drv w') = live (drv w1) ∧ heap (mem w') = heap (mem w1)).
Proof.
  intros w.
  assert (Hwf : wf w).
  { split; (split; [reflexivity|]); apply (bool_decide_unpack _); vm_compute; exact I. }
  assert (Hff : first_failure (vk_results (drv w)) 2 VK_ERROR_OUT_OF_DEVICE_MEMORY).
  { split; [by repeat constructor|]. split; [reflexivity | discriminate]. }
  assert (Hat : ∀ p l, heap (mem w) !! p = Some (CHandle <$> l) → length l = 4%nat →
                handles_at (mem w) p 4).
  { intros p l Hp Hl. exists (CHandle <$> l). split; [done|]. intros j Hj.
    destruct (lookup_lt_is_Some_2 l j ltac:(lia)) as [h Hh].
    exists h. by rewrite list_lookup_fmap, Hh. }
  destruct (create_views_framebuffers_all_or_nothing w 2 VK_ERROR_OUT_OF_DEVICE_MEMORY 7 0
              Hwf ltac:(discriminate) ltac:(discriminate) ltac:(cbn; lia) Hff eq_refl)
    as [Hviews Hfbs].
  split.
  - apply Hviews. by apply (Hat 1 [101; 102; 103; 104]).
  - apply Hfbs; [discriminate | by apply (Hat 2 [201; 202; 203; 204]) | discriminate].
Defined.

(** ** The sync registry *)

Lemma wp_frame_member i m (Q : Z → world → Prop) w :
  0 ≤ i → (Z.to_nat i < length (frames (g_sync_state w)))%nat →
  Q (member_at (g_sync_state w) i m) w →
  wp (frame_member i m) Q w.
Proof.
  intros Hi Hlen HQ. destruct (lookup_lt_is_Some_2 _ _ Hlen) as [f Hf].
  exists (get_member m f), w. unfold frame_member, member_at in *. rewrite Hf in *.
  by split.
Qed.

Lemma get_set_member m m' h f :
  get_member m' (set_member m h f) = if decide (m' = m) then h else get_member m' f.
Proof. destruct m, m'; reflexivity. Qed.

Lemma wp_set_frame_member i m h (Q : unit → world → Prop) w :
  let st := g_sync_state w in
  0 ≤ i → (Z.to_nat i < length (frames st))%nat →
  (∀ st', length (frames st') = length (frames st) →
          current_frame st' = current_frame st →
          (∀ j m', 0 ≤ j →
             member_at st' j m' = if decide (j = i ∧ m' = m) then h else member_at st j m') →
          Q () (set_g_sync_state st' w)) →
  wp (set_frame_member i m h) Q w.
Proof.
  intros st Hi Hlen HQ. destruct (lookup_lt_is_Some_2 _ _ Hlen) as [f Hf].
  eexists (), _. split.
  { unfold set_frame_member. fold st. by rewrite Hf. }
  apply HQ; wsimpl.
  - by rewrite length_insert.
  - done.
  - intros j m' Hj. unfold member_at. wsimpl.
    destruct (decide (Z.to_nat j = Z.to_nat i)) as [E|N].
    + assert (j = i) as -> by lia.
      rewrite list_lookup_insert_eq by done. cbn. rewrite get_set_member.
      destruct (decide (m' = m)) as [->|Hm].
      * by rewrite decide_True.
      * rewrite decide_False by (intros [_ ?]; done). by rewrite Hf.
    + rewrite list_lookup_insert_ne by done.
      rewrite decide_False; [done|]. intros [-> _]. done.
Qed.

Lemma member_index_range m : 0 ≤ member_index m < 7.
Proof. destruct m; cbn; lia. Qed.

Lemma member_position_inj j m j' m' :
  7 * j + member_index m = 7 * j' + member_index m' → j = j' ∧ m = m'.
Proof.
  intros H. pose proof (member_index_range m). pose proof (member_index_range m').
  assert (j = j') as -> by lia. split; [done|].
  destruct m, m'; cbn in H; first [reflexivity | lia].
Qed.

Lemma same_but_sync_refl w : same_but_sync w w.
Proof. unfold same_but_sync. by destruct w. Qed.

Lemma same_but_sync_update w w' st d :
  same_but_sync w w' → same_but_sync w (set_g_sync_state st (set_drv d w')).
Proof. unfold same_but_sync. intros ->. reflexivity. Qed.

Lemma same_but_sync_drv w w' d : same_but_sync w w' → same_but_sync w (set_drv d w').
Proof. unfold same_but_sync. intros ->. reflexivity. Qed.

Lemma same_but_sync_state w w' st :
  same_but_sync w w' → same_but_sync w (set_g_sync_state st w').
Proof. unfold same_but_sync. intros ->. reflexivity. Qed.

Lemma same_but_sync_context w w' :
  same_but_sync w w' → g_vulkan_context w' = g_vulkan_context w.
Proof. unfold same_but_sync. intros ->. reflexivity. Qed.

Lemma same_but_sync_mem w w' : same_but_sync w w' → mem w' = mem w.
Proof. unfold same_but_sync. intros ->. reflexivity. Qed.

(** One member dealt with: its handle [x] destroyed if it is not NULL,
    the member possibly set to another value. *)
Lemma shutdown_inv_step st0 d0 q st d i m st' d' :
  shutdown_inv st0 d0 q st d →
  0 ≤ i < VE_MAX_FRAMES_IN_FLIGHT → q = 7 * i + member_index m →
  length (frames st') = length (frames st) →
  (∀ j m', 0 ≤ j → (j = i ∧ m' = m) ∨ member_at st' j m' = member_at st j m') →
  (d' = d ∧ member_at st i m = 0) ∨ d' = drv_delete (member_at st i m) d →
  shutdown_inv st0 d0 (q + 1) st' d'.
Proof.
  intros (Hlen & Hlater & Hwf & Hnext & Hdead & Hdel & Hother) Hi -> Hlen' Hst' Hd'.
  assert (Hx : member_at st i m = member_at st0 i m) by (apply Hlater; [done | lia]).
  assert (Hlook : ∀ h, live d' !! h = if decide (h = member_at st0 i m) then None
                                      else live d !! h).
  { intros h. destruct Hd' as [[-> Hz]| ->].
    - destruct (decide _) as [->|]; [|done].
      rewrite <- Hx, Hz. destruct Hwf as [Hpos Hall].
      destruct (live d !! 0) as [o|] eqn:E; [|done].
      specialize (Hall 0 o E). cbv beta in Hall. lia.
    - cbn [live drv_delete]. rewrite Hx. destruct (decide _) as [->|].
      + apply lookup_delete_eq.
      + by apply lookup_delete_ne. }
  split_and!.
  - congruence.
  - intros j m' Hj Hpos. destruct (Hst' j m' ltac:(lia)) as [[-> ->]|E]; [lia|].
    rewrite E. apply Hlater; [done | lia].
  - destruct Hd' as [[-> _]| ->]; [done | by apply wf_drv_delete].
  - destruct Hd' as [[-> _]| ->]; done.
  - intros j m' Hj Hpos. rewrite Hlook. destruct (decide _); [done|].
    apply Hdead; [done|].
    assert (7 * j + member_index m' ≠ 7 * i + member_index m); [|lia].
    intros [-> ->]%member_position_inj. done.
  - intros h. rewrite Hlook. destruct (decide _); [by left | apply Hdel].
  - intros h Hh. rewrite Hlook. rewrite decide_False; [by apply Hother|].
    intros ->. by apply (Hh i m).
Qed.

Section shutdown.
Variables (dev : Z) (w0 : world) (st0 : ve_sync_state) (d0 : driver).
Hypothesis Hdev : dev ≠ VK_NULL_HANDLE.
Hypothesis Hctx : device (g_vulkan_context w0) = dev.

Lemma shutdown_fence i m q w :
  0 ≤ i < VE_MAX_FRAMES_IN_FLIGHT → q = 7 * i + member_index m →
  at_position w0 st0 d0 q w →
  wp (if bool_decide (member_at (g_sync_state w) i m ≠ VK_NULL_HANDLE) then
        vkDestroyFence dev (member_at (g_sync_state w) i m);;
        set_frame_member i m VK_NULL_HANDLE
      else ret ())
     (λ _ w', at_position w0 st0 d0 (q + 1) w') w.
Proof.
  intros Hi Hq [Hsame Hinv]. pose proof Hinv as (Hlen & _).
  case_bool_decide as Hx.
  - apply wp_bind, wp_vk_destroy; [done|].
    apply wp_set_frame_member; wsimpl;
      [lia | rewrite Hlen; unfold VE_MAX_FRAMES_IN_FLIGHT in *; lia |].
    intros st' Hlen' _ Hst'. split; [by apply same_but_sync_update|]. wsimpl.
    apply (shutdown_inv_step st0 d0 q (g_sync_state w) (drv w) i m); try done.
    + intros j m' Hj. rewrite (Hst' j m' Hj).
      destruct (decide _); [by left | by right].
    + by right.
  - apply wp_ret. split; [done|].
    apply (shutdown_inv_step st0 d0 q (g_sync_state w) (drv w) i m); try done.
    + intros; by right.
    + left. split; [done|]. by destruct (decide (member_at (g_sync_state w) i m = 0)).
Qed.

Lemma shutdown_semaphore i m q w :
  0 ≤ i < VE_MAX_FRAMES_IN_FLIGHT → q = 7 * i + member_index m →
  at_position w0 st0 d0 q w →
  wp (ve_sync_destroy_semaphore (member_at (g_sync_state w) i m))
     (λ _ w', at_position w0 st0 d0 (q + 1) w') w.
Proof.
  intros Hi Hq [Hsame Hinv]. unfold ve_sync_destroy_semaphore.
  apply wp_bind, wp_gets. rewrite (same_but_sync_context _ _ Hsame), Hctx.
  rewrite (bool_decide_eq_false_2 _ Hdev). cbn [orb].
  case_bool_decide as Hx.
  - apply wp_ret. split; [done|].
    apply (shutdown_inv_step st0 d0 q (g_sync_state w) (drv w) i m); try done.
    + intros; by right.
    + by left.
  - apply wp_vk_destroy; [done|]. split; [by apply same_but_sync_drv|]. wsimpl.
    apply (shutdown_inv_step st0 d0 q (g_sync_state w) (drv w) i m); try done.
    + intros; by right.
    + by right.
Qed.

(** One turn of the loop of [ve_sync_shutdown]: the seven members of
    frame [i]. *)
Lemma shutdown_frame i w :
  0 ≤ i < VE_MAX_FRAMES_IN_FLIGHT →
  at_position w0 st0 d0 (7 * i) w →
  wp (fence ← frame_member i m_render_fence;
      (if bool_decide (fence ≠ VK_NULL_HANDLE) then
         vkDestroyFence dev fence;;
         set_frame_member i m_render_fence VK_NULL_HANDLE
       else ret ());;
      fence ← frame_member i m_compute_fence;
      (if bool_decide (fence ≠ VK_NULL_HANDLE) then
         vkDestroyFence dev fence;;
         set_frame_member i m_compute_fence VK_NULL_HANDLE
       else ret ());;
      fence ← frame_member i m_transfer_fence;
      (if bool_decide (fence ≠ VK_NULL_HANDLE) then
         vkDestroyFence dev fence;;
         set_frame_member i m_transfer_fence VK_NULL_HANDLE
       else ret ());;
      s ← frame_member i m_image_available; ve_sync_destroy_semaphore s;;
      s ← frame_member i m_render_finished; ve_sync_destroy_semaphore s;;
      s ← frame_member i m_compute_finished; ve_sync_destroy_semaphore s;;
      s ← frame_member i m_transfer_finished; ve_sync_destroy_semaphore s)
     (λ _ w', at_position w0 st0 d0 (7 * (i + 1)) w') w.
Proof.
  intros Hi H0.
  assert (Hidx : ∀ q w1, at_position w0 st0 d0 q w1 →
            (Z.to_nat i < length (frames (g_sync_state w1)))%nat).
  { intros q w1 [_ (Hlen & _)]. rewrite Hlen. unfold VE_MAX_FRAMES_IN_FLIGHT in *. lia. }
  apply wp_bind, wp_frame_member; [lia | by eapply Hidx|].
  apply wp_bind. eapply wp_mono;
    [apply (shutdown_fence i m_render_fence (7 * i)); [done | cbn; lia | done]|].
  intros [] w1 H1. cbv beta in H1.
  apply wp_bind, wp_frame_member; [lia | by eapply Hidx|].
  apply wp_bind. eapply wp_mono;
    [apply (shutdown_fence i m_compute_fence (7 * i + 1)); [done | cbn; lia | done]|].
  intros [] w2 H2. cbv beta in H2.
  apply wp_bind, wp_frame_member; [lia | by eapply Hidx|].
  apply wp_bind. eapply wp_mono;
    [apply (shutdown_fence i m_transfer_fence (7 * i + 1 + 1)); [done | cbn; lia | done]|].
  intros [] w3 H3. cbv beta in H3.
  apply wp_bind, wp_frame_member; [lia | by eapply Hidx|].
  apply wp_bind. eapply wp_mono;
    [apply (shutdown_semaphore i m_image_available (7 * i + 1 + 1 + 1));
       [done | cbn; lia | done]|].
  intros [] w4 H4. cbv beta in H4.
  apply wp_bind, wp_frame_member; [lia | by eapply Hidx|].
  apply wp_bind. eapply wp_mono;
    [apply (shutdown_semaphore i m_render_finished (7 * i + 1 + 1 + 1 + 1));
       [done | cbn; lia | done]|].
  intros [] w5 H5. cbv beta in H5.
  apply wp_bind, wp_frame_member; [lia | by eapply Hidx|].
  apply wp_bind. eapply wp_mono;
    [apply (shutdown_semaphore i m_compute_finished (7 * i + 1 + 1 + 1 + 1 + 1));
       [done | cbn; lia | done]|].
  intros [] w6 H6. cbv beta in H6.
  apply wp_bind, wp_frame_member; [lia | by eapply Hidx|].
  eapply wp_mono;
    [apply (shutdown_semaphore i m_transfer_finished (7 * i + 1 + 1 + 1 + 1 + 1 + 1));
       [done | cbn; lia | done]|].
  intros [] w7 H7. cbv beta in H7.
  by replace (7 * (i + 1)) with (7 * i + 1 + 1 + 1 + 1 + 1 + 1 + 1) by lia.
Qed.
End shutdown.

(** [ve_sync_shutdown] on an initialised device: every member handle of
    the registry is dead afterwards, no other object has been touched, and
    the registry is zeroed. *)
Lemma wp_ve_sync_shutdown w :
  device (g_vulkan_context w) ≠ VK_NULL_HANDLE →
  length (frames (g_sync_state w)) = Z.to_nat VE_MAX_FRAMES_IN_FLIGHT →
  wf_drv (drv w) →
  wp ve_sync_shutdown (λ _ w',
    ∃ st d, w' = set_g_sync_state zero_sync_state (set_drv d w)
            ∧ shutdown_inv (g_sync_state w) (drv w) (7 * VE_MAX_FRAMES_IN_FLIGHT) st d) w.
Proof.
  intros Hdev Hlen Hwf. unfold ve_sync_shutdown.
  apply wp_bind, wp_gets. rewrite (bool_decide_eq_false_2 _ Hdev).
  unfold vkDeviceWaitIdle. rewrite (bool_decide_eq_false_2 _ Hdev).
  apply wp_bind, wp_modify.
  set (w1 := set_drv (drv_idle (drv w)) w).
  apply wp_bind.
  apply (wp_iter_u32 (λ j w', at_position w1 (g_sync_state w) (drv w) (7 * j) w')).
  - done.
  - split; [apply same_but_sync_refl|]. unfold w1. wsimpl.
    split_and!; try done.
    + intros j m Hj Hpos. pose proof (member_index_range m). lia.
    + by right.
  - intros j w2 Hj Hpos.
    by apply (shutdown_frame _ w1 (g_sync_state w) (drv w) Hdev eq_refl).
  - intros w2 [Hsame Hinv]. apply wp_modify.
    exists (g_sync_state w2), (drv w2). split; [|done].
    rewrite Hsame. reflexivity.
Qed.

(** When the registry accounts for everything made since [d0], shutting
    it down gives back the objects of [d0] and nothing else. *)
Lemma shutdown_restores d0 st d st' d' :
  wf_drv d0 → tracks d0 st d →
  shutdown_inv st d (7 * VE_MAX_FRAMES_IN_FLIGHT) st' d' →
  live d' = live d0 ∧ wf_drv d' ∧ next_handle d0 ≤ next_handle d'.
Proof.
  intros Hwf0 (Hwf & Hnext & Hold & Hreg & Hnew)
    (_ & _ & Hwf' & Hnext' & Hdead & Hdel & Hother).
  split; [|split; [done | lia]].
  apply map_eq. intros h.
  destruct (Z.lt_ge_cases h (next_handle d0)) as [Hlt|Hge].
  - rewrite <- (Hold h Hlt). destruct (decide (h = 0)) as [->|Hnz].
    + destruct Hwf' as [? Hall']. destruct Hwf as [? Hall].
      destruct (live d' !! 0) as [o|] eqn:E; [specialize (Hall' 0 o E); cbv beta in *; lia|].
      destruct (live d !! 0) as [o|] eqn:E'; [specialize (Hall 0 o E'); cbv beta in *; lia|].
      done.
    + apply Hother. intros j m Hj E.
      destruct (Hreg j m Hj) as [Hlo _]; [by rewrite E | lia].
  - rewrite (wf_drv_fresh d0 h Hwf0 Hge).
    destruct (live d !! h) as [o|] eqn:E.
    + destruct (Hnew h Hge) as (j & m & Hj & <-); [by rewrite E|].
      apply Hdead; [done|]. pose proof (member_index_range m).
      unfold VE_MAX_FRAMES_IN_FLIGHT in *. lia.
    + destruct (Hdel h) as [?|E']; [done | by rewrite E', E].
Qed.

(** *** Initialisation, one member at a time *)

Lemma tracks_create d0 st d st' d' i m :
  tracks d0 st d → 0 ≤ i < VE_MAX_FRAMES_IN_FLIGHT → member_at st i m = 0 →
  (∀ j m', 0 ≤ j →
     member_at st' j m' = if decide (j = i ∧ m' = m) then next_handle d
                          else member_at st j m') →
  live d' = <[next_handle d := member_kind m]> (live d) →
  next_handle d' = next_handle d + 1 →
  tracks d0 st' d'.
Proof.
  intros (Hwf & Hnext & Hold & Hreg & Hnew) Hi Hzero Hst' Hlive' Hnext'.
  pose proof Hwf as [Hpos Hall].
  split_and!.
  - split; [lia|]. rewrite Hlive', Hnext'. apply map_Forall_insert_2; [lia|].
    intros h o Hh. specialize (Hall h o Hh). cbv beta in *. lia.
  - lia.
  - lia.
  - intros h Hh. rewrite Hlive', lookup_insert_ne by lia. by apply Hold.
  - intros j m' Hj. rewrite (Hst' j m') by lia. destruct (decide _) as [[-> ->]|Hne].
    + intros _. split; [lia|]. by rewrite Hlive', lookup_insert_eq.
    + intros Hnz. destruct (Hreg j m' Hj Hnz) as [Hlo Hlk]. split; [done|].
      rewrite Hlive', lookup_insert_ne; [done|].
      intros E. rewrite <- E in Hlk.
      rewrite (wf_drv_fresh d (next_handle d) Hwf) in Hlk by lia. done.
  - intros h Hh. rewrite Hlive'. destruct (decide (h = next_handle d)) as [->|Hne].
    + intros _. exists i, m. split; [done|]. rewrite Hst' by lia. by rewrite decide_True.
    + rewrite lookup_insert_ne by done. intros Hs.
      destruct (Hnew h Hh Hs) as (j & m' & Hj & E). exists j, m'. split; [done|].
      rewrite Hst' by lia. rewrite decide_False; [done|].
      intros [-> ->]. rewrite Hzero in E. subst h. lia.
Qed.

Lemma tracks_same d0 st d st' d' :
  tracks d0 st d →
  (∀ j m, 0 ≤ j → member_at st' j m = member_at st j m) →
  live d' = live d → next_handle d' = next_handle d →
  tracks d0 st' d'.
Proof.
  intros (Hwf & Hnext & Hold & Hreg & Hnew) Hst' Hlive' Hnext'.
  split_and!.
  - destruct Hwf. split; rewrite ?Hlive', ?Hnext'; done.
  - lia.
  - lia.
  - intros h Hh. rewrite Hlive'. by apply Hold.
  - intros j m Hj. rewrite Hst', Hlive' by lia. by apply Hreg.
  - intros h Hh. rewrite Hlive'. intros Hs.
    destruct (Hnew h Hh Hs) as (j & m & Hj & E). exists j, m. split; [done|].
    by rewrite Hst' by lia.
Qed.

Lemma untouched_set p st st' i m x :
  untouched p st → p = 7 * i + member_index m →
  (∀ j m', 0 ≤ j →
     member_at st' j m' = if decide (j = i ∧ m' = m) then x else member_at st j m') →
  untouched (p + 1) st'.
Proof.
  intros Hun -> Hst' j m' Hj Hpos. rewrite Hst' by lia.
  rewrite decide_False; [apply Hun; [done | lia]|]. intros [-> ->]. lia.
Qed.

Lemma script_success_at (l : list Z) k :
  default VK_SUCCESS (l !! k) = VK_SUCCESS →
  Forall (λ r, r = VK_SUCCESS) (take k l) → Forall (λ r, r = VK_SUCCESS) (take (S k) l).
Proof. rewrite <- hd_drop. apply script_success. Qed.

Lemma member_index_inj m m' : member_index m = member_index m' → m = m'.
Proof. destruct m, m'; cbn; first [reflexivity | lia]. Qed.

Lemma untouched_zero d0 i t st d m :
  init_inv d0 i t st d → 0 ≤ i < VE_MAX_FRAMES_IN_FLIGHT → t ≤ member_index m →
  member_at st i m = 0.
Proof. intros (_ & _ & Hun & _) Hi Ht. apply Hun; [done | lia]. Qed.

(** A member created: its handle is the driver's next one. *)
Lemma init_inv_created d0 i t st d st' d' m :
  init_inv d0 i t st d →
  0 ≤ i < VE_MAX_FRAMES_IN_FLIGHT → t = member_index m →
  hd VK_SUCCESS (vk_results d) = VK_SUCCESS →
  shaped st' →
  (∀ j m', 0 ≤ j →
     member_at st' j m' = if decide (j = i ∧ m' = m) then next_handle d
                          else member_at st j m') →
  live d' = <[next_handle d := member_kind m]> (live d) →
  next_handle d' = next_handle d + 1 →
  vk_results d' = tl (vk_results d) →
  init_inv d0 i (t + 1) st' d'.
Proof.
  intros Hinv Hi Ht Hok Hshape Hst' Hlive' Hnext' Hscr'.
  pose proof (untouched_zero _ _ _ _ _ m Hinv Hi ltac:(lia)) as Hzero.
  destruct Hinv as (_ & Htr & Hun & Hdone & Hfen & Hscr & Hall & Hsem).
  pose proof (member_index_range m) as Hm.
  assert (Hpos : 0 < next_handle d) by (by destruct Htr as ([? _] & _)).
  split_and!.
  - done.
  - by apply (tracks_create d0 st d st' d' i m).
  - replace (7 * i + (t + 1)) with (7 * i + t + 1) by lia.
    apply (untouched_set _ st st' i m (next_handle d)); [done | lia | done].
  - intros j m' Hj. rewrite Hst' by lia.
    rewrite decide_False by (intros [-> _]; lia). by apply Hdone.
  - intros m' Hlt H3. rewrite Hst' by lia. destruct (decide _) as [_|Hne]; [lia|].
    apply Hfen; [|done]. destruct (decide (member_index m' = member_index m)) as [E|N].
    + apply member_index_inj in E. exfalso. by apply Hne.
    + lia.
  - rewrite Hscr', Hscr, tl_drop. f_equal. lia.
  - destruct (Z.lt_ge_cases t 3) as [Hlt|Hge].
    + replace (Z.to_nat (7 * i + Z.min (t + 1) 3)) with (S (Z.to_nat (7 * i + t))) by lia.
      apply script_success; [by rewrite <- Hscr|].
      by replace (7 * i + t) with (7 * i + Z.min t 3) by lia.
    + by replace (Z.min (t + 1) 3) with (Z.min t 3) by lia.
  - intros m' Hm'. rewrite Hst' by lia. destruct (decide _) as [[_ ->]|Hne].
    + rewrite <- hd_drop, <- Ht, <- Hscr. split; [done | lia].
    + apply Hsem. destruct (decide (member_index m' = member_index m)) as [E|N].
      * apply member_index_inj in E. exfalso. by apply Hne.
      * lia.
Qed.

(** A semaphore whose creation failed: its member stays NULL. *)
Lemma init_inv_missed d0 i t st d st' d' m :
  init_inv d0 i t st d →
  0 ≤ i < VE_MAX_FRAMES_IN_FLIGHT → t = member_index m → 3 ≤ t →
  hd VK_SUCCESS (vk_results d) ≠ VK_SUCCESS →
  shaped st' →
  (∀ j m', 0 ≤ j →
     member_at st' j m' = if decide (j = i ∧ m' = m) then 0 else member_at st j m') →
  live d' = live d → next_handle d' = next_handle d →
  vk_results d' = tl (vk_results d) →
  init_inv d0 i (t + 1) st' d'.
Proof.
  intros Hinv Hi Ht H3 Hko Hshape Hst' Hlive' Hnext' Hscr'.
  pose proof (untouched_zero _ _ _ _ _ m Hinv Hi ltac:(lia)) as Hzero.
  destruct Hinv as (_ & Htr & Hun & Hdone & Hfen & Hscr & Hall & Hsem).
  assert (Hsame : ∀ j m', 0 ≤ j → member_at st' j m' = member_at st j m').
  { intros j m' Hj. rewrite Hst' by done. destruct (decide _) as [[-> ->]|]; done. }
  split_and!.
  - done.
  - by apply (tracks_same d0 st d).
  - replace (7 * i + (t + 1)) with (7 * i + t + 1) by lia.
    apply (untouched_set _ st st' i m 0); [done | lia | done].
  - intros j m' Hj. rewrite Hsame by lia. by apply Hdone.
  - intros m' Hlt Hm3. rewrite Hsame by lia. apply Hfen; [lia | done].
  - rewrite Hscr', Hscr, tl_drop. f_equal. lia.
  - by replace (Z.min (t + 1) 3) with (Z.min t 3) by lia.
  - intros m' Hm'. rewrite Hsame by lia.
    destruct (decide (member_index m' = member_index m)) as [E|N].
    + apply member_index_inj in E. subst m'. rewrite Hzero.
      rewrite <- hd_drop, <- Ht, <- Hscr. split; [done | intros E; by apply Hko in E].
    + apply Hsem. lia.
Qed.

(** A fence whose creation failed is the first failure of the script. *)
Lemma init_inv_fence_failure d0 i t st d :
  init_inv d0 i t st d → 0 ≤ i → 0 ≤ t < 3 →
  hd VK_SUCCESS (vk_results d) ≠ VK_SUCCESS →
  first_failure (vk_results d0) (Z.to_nat (7 * i + t)) (hd VK_SUCCESS (vk_results d)).
Proof.
  intros (_ & _ & _ & _ & _ & Hscr & Hall & _) Hi Ht Hko.
  split; [by replace (7 * i + t) with (7 * i + Z.min t 3) by lia|].
  split; [|done]. apply script_failure; [by rewrite Hscr | done].
Qed.

(** The check at the end of a frame passed. *)
Lemma init_inv_next_frame d0 i st d :
  init_inv d0 i 7 st d → 0 ≤ i →
  (∀ m, 3 ≤ member_index m → member_at st i m ≠ 0) →
  init_inv d0 (i + 1) 0 st d.
Proof.
  intros (Hshape & Htr & Hun & Hdone & Hfen & Hscr & Hall & Hsem) Hi Hsems.
  assert (Hsucc : ∀ k : nat, (k ≤ 4)%nat →
            Forall (λ r, r = VK_SUCCESS) (take (Z.to_nat (7 * i + 3) + k) (vk_results d0))).
  { intros k. induction k as [|k IH]; intros Hk.
    - rewrite Nat.add_0_r. by replace (7 * i + 3) with (7 * i + Z.min 7 3) by lia.
    - rewrite Nat.add_succ_r. apply script_success_at; [|apply IH; lia].
      destruct k as [|[|[|[|k]]]]; [| | | |lia].
      + replace (Z.to_nat (7 * i + 3) + 0)%nat
          with (Z.to_nat (7 * i + member_index m_image_available)) by (cbn; lia).
        apply (Hsem m_image_available); [cbn; lia|]. apply Hsems. cbn. lia.
      + replace (Z.to_nat (7 * i + 3) + 1)%nat
          with (Z.to_nat (7 * i + member_index m_render_finished)) by (cbn; lia).
        apply (Hsem m_render_finished); [cbn; lia|]. apply Hsems. cbn. lia.
      + replace (Z.to_nat (7 * i + 3) + 2)%nat
          with (Z.to_nat (7 * i + member_index m_compute_finished)) by (cbn; lia).
        apply (Hsem m_compute_finished); [cbn; lia|]. apply Hsems. cbn. lia.
      + replace (Z.to_nat (7 * i + 3) + 3)%nat
          with (Z.to_nat (7 * i + member_index m_transfer_finished)) by (cbn; lia).
        apply (Hsem m_transfer_finished); [cbn; lia|]. apply Hsems. cbn. lia. }
  split_and!.
  - done.
  - done.
  - by replace (7 * (i + 1) + 0) with (7 * i + 7) by lia.
  - intros j m Hj. destruct (decide (j = i)) as [->|Hne]; [|apply Hdone; lia].
    destruct (Z.lt_ge_cases (member_index m) 3).
    + apply Hfen; lia.
    + by apply Hsems.
  - intros m Hm. pose proof (member_index_range m). lia.
  - rewrite Hscr. f_equal. lia.
  - replace (Z.to_nat (7 * (i + 1) + Z.min 0 3)) with (Z.to_nat (7 * i + 3) + 4)%nat by lia.
    by apply Hsucc.
  - intros m Hm. lia.
Qed.

Lemma distinct_created d0 st d st' i m :
  distinct_members st → tracks d0 st d →
  0 ≤ i < VE_MAX_FRAMES_IN_FLIGHT →
  (∀ j m', 0 ≤ j →
     member_at st' j m' = if decide (j = i ∧ m' = m) then next_handle d
                          else member_at st j m') →
  distinct_members st'.
Proof.
  intros Hdis (Hwf & _ & _ & Hmem & _) Hi Hst'.
  assert (Hold : ∀ j m', 0 ≤ j < VE_MAX_FRAMES_IN_FLIGHT → member_at st j m' ≠ 0 →
                   member_at st j m' < next_handle d).
  { intros j m' Hj Hne. destruct (Hmem j m' Hj Hne) as [_ Hl].
    destruct Hwf as [_ Hall]. apply (map_Forall_lookup_1 _ _ _ _ Hall) in Hl. lia. }
  intros j1 m1 j2 m2 H1 H2. rewrite !Hst' by lia.
  destruct (decide (j1 = i ∧ m1 = m)) as [[-> ->]|N1];
    destruct (decide (j2 = i ∧ m2 = m)) as [[-> ->]|N2]; intros Hne E.
  - done.
  - assert (member_at st j2 m2 ≠ 0) as Hne2.
    { rewrite <- E. destruct Hwf. lia. }
    pose proof (Hold j2 m2 H2 Hne2). lia.
  - pose proof (Hold j1 m1 H1 Hne). lia.
  - by apply Hdis.
Qed.

Lemma distinct_same st st' :
  distinct_members st →
  (∀ j m, 0 ≤ j → member_at st' j m = member_at st j m) → distinct_members st'.
Proof.
  intros Hdis Hsame j1 m1 j2 m2 H1 H2. rewrite !Hsame by lia. by apply Hdis.
Qed.

(** A script that is not all successes has a first failure. *)
Lemma exists_first_failure (script : list Z) (n : nat) :
  ¬ Forall (λ r, r = VK_SUCCESS) (take n script) →
  ∃ k e, (k < n)%nat ∧ first_failure script k e.
Proof.
  induction n as [|n IH]; intros Hnot.
  - exfalso. apply Hnot. rewrite take_0. constructor.
  - destruct (decide (Forall (λ r, r = VK_SUCCESS) (take n script))) as [Hall|Hn].
    + destruct (script !! n) as [e|] eqn:E.
      * exists n, e. split; [lia|]. split; [done|]. split; [done|].
        intros ->. apply Hnot. rewrite (take_S_r _ _ _ E).
        apply Forall_app. split; [done | by constructor].
      * exfalso. apply Hnot. apply script_success_at; [by rewrite E | done].
    + destruct (IH Hn) as (k & e & Hk & Hff). exists k, e. split; [lia | done].
Qed.

(** The check at the end of a frame failed: some semaphore of the frame was
    the first creation to fail. *)
Lemma init_inv_semaphore_failure d0 i st d m :
  init_inv d0 i 7 st d → 0 ≤ i → 3 ≤ member_index m → member_at st i m = 0 →
  ∃ k e, (Z.to_nat (7 * i + 3) ≤ k < Z.to_nat (7 * i + 7))%nat
         ∧ first_failure (vk_results d0) k e.
Proof.
  intros (_ & _ & _ & _ & _ & _ & Hall & Hsem) Hi Hm Hzero.
  pose proof (member_index_range m) as Hr.
  destruct (exists_first_failure (vk_results d0) (Z.to_nat (7 * i + 7))) as (k & e & Hk & Hff).
  { intros Hsucc. specialize (Hsem m ltac:(lia)). rewrite Hzero in Hsem.
    destruct (vk_results d0 !! Z.to_nat (7 * i + member_index m)) as [r|] eqn:E.
    - rewrite Forall_lookup in Hsucc. specialize (Hsucc (Z.to_nat (7 * i + member_index m)) r).
      rewrite lookup_take_lt in Hsucc by lia. specialize (Hsucc E). subst r.
      cbn in Hsem. by apply Hsem.
    - cbn in Hsem. by apply Hsem. }
  exists k, e. split; [|done]. split; [|done].
  destruct (Nat.lt_ge_cases k (Z.to_nat (7 * i + 3))) as [Hlt|]; [|done].
  exfalso. apply (first_failure_not_all _ _ _ (Z.to_nat (7 * i + 3)) Hff Hlt).
  by replace (7 * i + 3) with (7 * i + Z.min 7 3) by lia.
Qed.

(** Every member of every frame has been created. *)
Lemma init_inv_ready d0 st d :
  init_inv d0 VE_MAX_FRAMES_IN_FLIGHT 0 st d →
  all_slots_ready st d
  ∧ Forall (λ r, r = VK_SUCCESS) (take (Z.to_nat (7 * VE_MAX_FRAMES_IN_FLIGHT)) (vk_results d0)).
Proof.
  intros ([Hlen _] & (_ & _ & _ & Hmem & _) & _ & Hdone & _ & _ & Hall & _).
  split; [|exact Hall]. split; [done|].
  intros f Hf. apply list_elem_of_lookup in Hf as [k Hk].
  assert (Hlt : (k < Z.to_nat VE_MAX_FRAMES_IN_FLIGHT)%nat).
  { rewrite <- Hlen. by apply lookup_lt_is_Some_1. }
  assert (Hj : 0 ≤ Z.of_nat k < VE_MAX_FRAMES_IN_FLIGHT) by lia.
  assert (Hat : ∀ m, member_at st (Z.of_nat k) m = get_member m f).
  { intros m. unfold member_at. by rewrite Nat2Z.id, Hk. }
  assert (Hm : ∀ m, live d !! get_member m f = Some (member_kind m)).
  { intros m. rewrite <- Hat. apply Hmem; [done|]. apply Hdone. lia. }
  split_and!.
  - apply (Hm m_render_fence).
  - apply (Hm m_compute_fence).
  - apply (Hm m_transfer_fence).
  - apply (Hm m_image_available).
  - apply (Hm m_render_finished).
  - apply (Hm m_compute_finished).
  - apply (Hm m_transfer_finished).
Qed.

Section init.
Variables (wb : world) (d0 : driver) (dev : Z).
Hypothesis Hdev : dev ≠ VK_NULL_HANDLE.
Hypothesis Hctx : device (g_vulkan_context wb) = dev.
Hypothesis Hwf0 : wf_drv d0.

(** Giving up: the shutdown destroys exactly what has been created. *)
Lemma init_abort r w (Q : option Z → world → Prop) :
  same_but_sync wb w → shaped (g_sync_state w) → tracks d0 (g_sync_state w) (drv w) →
  (∀ w2, rolled_back wb d0 w2 → Q (Some r) w2) →
  wp (ve_sync_shutdown;; ret (Some r)) Q w.
Proof.
  intros Hsame [Hlen _] Htr HQ. apply wp_bind.
  eapply wp_mono.
  { apply wp_ve_sync_shutdown.
    - by rewrite (same_but_sync_context _ _ Hsame), Hctx.
    - done.
    - by destruct Htr. }
  intros [] w2 (st & d & -> & Hinv). apply wp_ret, HQ.
  destruct (shutdown_restores d0 _ _ _ _ Hwf0 Htr Hinv) as (Hl & Hwf & Hn).
  exists d. split; [|done]. rewrite Hsame. reflexivity.
Qed.

(** One [vkCreateFence] of [ve_sync_init] with its error check. *)
Lemma init_fence_step i m (rest : M (option Z)) (Q : option Z → world → Prop) w :
  0 ≤ i < VE_MAX_FRAMES_IN_FLIGHT → member_index m < 3 →
  init_at wb d0 i (member_index m) w →
  (∀ r w2, init_failed wb d0 r w2 → Q (Some r) w2) →
  (∀ w1, init_at wb d0 i (member_index m + 1) w1 → wp rest Q w1) →
  wp ('(result, oh) ← vkCreateFence dev VK_FENCE_CREATE_SIGNALED_BIT;
      out_member i m oh;;
      if bool_decide (result ≠ VK_SUCCESS) then ve_sync_shutdown;; ret (Some result)
      else rest) Q w.
Proof.
  intros Hi Hm (Hsame & Hinv & Hdis) Hfail Hrest.
  pose proof (member_index_range m) as Hr.
  pose proof Hinv as (Hshape & Htr & _).
  apply wp_bind. unfold vkCreateFence. apply wp_vk_create; [done | |].
  - intros Hko. cbn [out_member]. apply wp_bind, wp_ret.
    rewrite (bool_decide_eq_true_2 _ Hko).
    apply init_abort.
    + by apply same_but_sync_drv.
    + done.
    + wsimpl. by apply (tracks_same d0 (g_sync_state w) (drv w)).
    + intros w2 Hback. apply Hfail. split; [|done].
      exists (Z.to_nat (7 * i + member_index m)), (next_result w).
      split; [apply (init_inv_fence_failure _ _ _ _ _ Hinv); [lia | lia | done]|].
      split; [unfold VE_MAX_FRAMES_IN_FLIGHT in *; lia|].
      rewrite bool_decide_eq_true_2; [done|].
      rewrite Z2Nat.id by lia. rewrite Z.mul_comm, Z.add_comm, Z.mod_add by lia.
      rewrite Z.mod_small; lia.
  - intros Hok. cbn [out_member]. apply wp_bind.
    destruct Hshape as [Hlen Hcur].
    apply wp_set_frame_member; wsimpl.
    + lia.
    + rewrite Hlen. lia.
    + intros st' Hlen' Hcur' Hst'.
      rewrite bool_decide_eq_false_2 by (intros N; by apply N).
      apply Hrest. split_and!.
      * apply same_but_sync_state. by apply same_but_sync_drv.
      * wsimpl. apply (init_inv_created d0 i (member_index m) (g_sync_state w) (drv w) st' _ m);
          try done.
        -- split; congruence.
        -- wsimpl. destruct m; cbn in Hm; try lia; reflexivity.
      * wsimpl. by apply (distinct_created d0 (g_sync_state w) (drv w) st' i m).
Qed.

(** One semaphore of [ve_sync_init]; its failure is seen later. *)
Lemma init_semaphore_step i m name (rest : M (option Z)) (Q : option Z → world → Prop) w :
  0 ≤ i < VE_MAX_FRAMES_IN_FLIGHT → 3 ≤ member_index m →
  init_at wb d0 i (member_index m) w →
  (∀ w1, init_at wb d0 i (member_index m + 1) w1 → wp rest Q w1) →
  wp (s ← ve_sync_create_semaphore name; set_frame_member i m s;; rest) Q w.
Proof.
  intros Hi Hm (Hsame & Hinv & Hdis) Hrest.
  pose proof (member_index_range m) as Hr.
  pose proof Hinv as ([Hlen Hcur] & Htr & _).
  apply wp_bind. unfold ve_sync_create_semaphore.
  apply wp_bind, wp_gets. rewrite (same_but_sync_context _ _ Hsame), Hctx.
  rewrite (bool_decide_eq_true_2 _ Hdev). apply wp_bind, wp_VE_ASSERT_true.
  apply wp_bind. unfold vkCreateSemaphore. apply wp_vk_create; [done | |].
  - intros Hko. apply wp_ret. cbn [default]. apply wp_bind.
    apply wp_set_frame_member; wsimpl.
    + lia.
    + rewrite Hlen. lia.
    + intros st' Hlen' Hcur' Hst'. apply Hrest. split_and!.
      * apply same_but_sync_state. by apply same_but_sync_drv.
      * wsimpl. apply (init_inv_missed d0 i (member_index m) (g_sync_state w) (drv w) st' _ m);
          try done.
        split; congruence.
      * wsimpl. apply (distinct_same (g_sync_state w)); [done|].
        intros j m' Hj. rewrite Hst' by done.
        destruct (decide _) as [[-> ->]|]; [|done].
        symmetry. apply (untouched_zero _ _ _ _ _ m Hinv Hi). lia.
  - intros Hok. apply wp_ret. cbn [default]. apply wp_bind.
    apply wp_set_frame_member; wsimpl.
    + lia.
    + rewrite Hlen. lia.
    + intros st' Hlen' Hcur' Hst'. apply Hrest. split_and!.
      * apply same_but_sync_state. by apply same_but_sync_drv.
      * wsimpl. apply (init_inv_created d0 i (member_index m) (g_sync_state w) (drv w) st' _ m);
          try done.
        -- split; congruence.
        -- wsimpl. destruct m; cbn in Hm; try lia; reflexivity.
      * wsimpl. by apply (distinct_created d0 (g_sync_state w) (drv w) st' i m).
Qed.
End init.

(** *** The timeline query *)

Lemma set_mem_same w : w = set_mem (mem w) w.
Proof. by destruct w. Qed.

(** [ve_sync_supports_timeline] returns, and gives back the array it
    allocates: only the allocator's bookkeeping has moved. *)
Lemma wp_ve_sync_supports_timeline (Q : bool → world → Prop) w :
  wf_mem (mem w) →
  (∀ b m', heap m' = heap (mem w) → wf_mem m' → Q b (set_mem m' w)) →
  wp ve_sync_supports_timeline Q w.
Proof.
  intros [Hnb Hkeys] HQ. unfold ve_sync_supports_timeline.
  assert (Hsame : ∀ b, Q b w).
  { intros b. rewrite (set_mem_same w). by apply HQ. }
  apply wp_bind, wp_gets. case_bool_decide as Hphys; [by apply wp_ret|].
  apply wp_bind, wp_gets. set (exts := rep_extensions (report w)).
  apply wp_bind, wp_ve_allocate.
  - intros _. rewrite bool_decide_eq_true_2 by done. by apply wp_ret.
  - intros _ _. rewrite bool_decide_eq_true_2 by done. apply wp_ret.
    apply HQ; [done | by split].
  - intros Hn _. rewrite bool_decide_eq_false_2 by lia.
    set (p := next_block (mem w)).
    assert (Hfresh : heap (mem w) !! p = None).
    { destruct (heap (mem w) !! p) eqn:E; [|done].
      apply (map_Forall_lookup_1 _ _ _ _ Hkeys) in E. lia. }
    apply wp_bind. eexists (), _. split.
    { unfold vk_fill. rewrite bool_decide_eq_false_2 by lia. wsimpl.
      by rewrite lookup_insert_eq. }
    set (wf := set_mem (mkHost (<[p := CExt <$> exts]> (heap (mem w))) (p + 1)
                               (tl (alloc_results (mem w)))) w).
    match goal with |- wp _ _ ?w1 => assert (w1 = wf) as -> end.
    { unfold wf, mem_write, set_mem. cbn. rewrite insert_insert_eq.
      rewrite length_replicate, Nat2Z.id.
      rewrite <- (length_fmap CExt exts) at 1. rewrite firstn_all, drop_replicate.
      by rewrite length_fmap, Nat.sub_diag, app_nil_r. }
    assert (Hfree : ∀ b, Q b (set_mem (mem_free p (mem wf)) wf)).
    { intros b. unfold wf, mem_free, set_mem. cbn.
      rewrite delete_insert_id by done.
      apply (HQ b (mkHost (heap (mem w)) (p + 1) (tl (alloc_results (mem w))))); [done|].
      split; wsimpl; [lia|]. intros q l Hq.
      apply (map_Forall_lookup_1 _ _ _ _ Hkeys) in Hq. fold p in Hq. lia. }
    apply wp_bind.
    apply (wp_for_u32 (λ _ w1, w1 = wf)); [lia | done | |].
    + intros j w1 Hj ->. apply wp_bind.
      destruct (lookup_lt_is_Some_2 exts (Z.to_nat j) ltac:(lia)) as [name Hname].
      exists (CExt name), wf. split.
      { unfold load, wf. wsimpl. rewrite lookup_insert_eq.
        by rewrite list_lookup_fmap, Hname. }
      destruct (String.eqb _ _); apply wp_ret; [|done].
      apply wp_bind, wp_ve_free; [lia|]. apply wp_ret. apply Hfree.
    + intros w1 ->. apply wp_bind, wp_ve_free; [lia|]. apply wp_ret. apply Hfree.
Qed.

(** *** Initialisation as a whole *)

Lemma member_at_zero n c tl j m :
  member_at (mkSyncState (replicate n zero_frame_sync) c tl) j m = 0.
Proof.
  unfold member_at. cbn [frames].
  destruct (replicate n zero_frame_sync !! Z.to_nat j) as [f|] eqn:E; [|done].
  apply lookup_replicate in E as [-> _]. by destruct m.
Qed.

(** The registry right after the memset, before anything is created. *)
Lemma init_at_start wb tl :
  wf_drv (drv wb) →
  g_sync_state wb
  = mkSyncState (replicate (Z.to_nat VE_MAX_FRAMES_IN_FLIGHT) zero_frame_sync) 0 tl →
  init_at wb (drv wb) 0 0 wb.
Proof.
  intros Hwf Hst. split; [apply same_but_sync_refl|]. rewrite Hst. split.
  - split_and!.
    + split; [apply length_replicate | done].
    + split_and!; try done.
      * destruct Hwf. lia.
      * intros j m _ Hne. by rewrite member_at_zero in Hne.
      * intros h Hh [o Ho]. destruct Hwf as [_ Hall].
        apply (map_Forall_lookup_1 _ _ _ _ Hall) in Ho. lia.
    + intros j m _ _. apply member_at_zero.
    + intros j m Hj. lia.
    + intros m Hm. pose proof (member_index_range m). lia.
    + done.
    + constructor.
    + intros m Hm. lia.
  - intros j m j' m' _ _ Hne. by rewrite member_at_zero in Hne.
Qed.

(** One iteration of the creation loop. *)
Lemma init_frame wb d0 dev i (Q : option Z → world → Prop) w :
  dev ≠ VK_NULL_HANDLE → device (g_vulkan_context wb) = dev → wf_drv d0 →
  0 ≤ i < VE_MAX_FRAMES_IN_FLIGHT →
  init_at wb d0 i 0 w →
  (∀ r w2, init_failed wb d0 r w2 → Q (Some r) w2) →
  (∀ w1, init_at wb d0 (i + 1) 0 w1 → Q None w1) →
  wp ('(result, oh) ← vkCreateFence dev VK_FENCE_CREATE_SIGNALED_BIT;
      out_member i m_render_fence oh;;
      if bool_decide (result ≠ VK_SUCCESS) then ve_sync_shutdown;; ret (Some result)
      else
        '(result, oh) ← vkCreateFence dev VK_FENCE_CREATE_SIGNALED_BIT;
        out_member i m_compute_fence oh;;
        if bool_decide (result ≠ VK_SUCCESS) then ve_sync_shutdown;; ret (Some result)
        else
          '(result, oh) ← vkCreateFence dev VK_FENCE_CREATE_SIGNALED_BIT;
          out_member i m_transfer_fence oh;;
          if bool_decide (result ≠ VK_SUCCESS) then ve_sync_shutdown;; ret (Some result)
          else
            s ← ve_sync_create_semaphore "image_available";
            set_frame_member i m_image_available s;;
            s ← ve_sync_create_semaphore "render_finished";
            set_frame_member i m_render_finished s;;
            s ← ve_sync_create_semaphore "compute_finished";
            set_frame_member i m_compute_finished s;;
            s ← ve_sync_create_semaphore "transfer_finished";
            set_frame_member i m_transfer_finished s;;
            a ← frame_member i m_image_available;
            b ← frame_member i m_render_finished;
            c ← frame_member i m_compute_finished;
            d ← frame_member i m_transfer_finished;
            if bool_decide (a = 0) || bool_decide (b = 0)
               || bool_decide (c = 0) || bool_decide (d = 0) then
              ve_sync_shutdown;;
              ret (Some VK_ERROR_OUT_OF_DEVICE_MEMORY)
            else ret None) Q w.
Proof.
  intros Hdev Hctx Hwf0 Hi Hat Hfail Hnext.
  apply (init_fence_step wb d0 dev Hdev Hctx Hwf0 i m_render_fence); [done | cbn; lia | done | done |].
  intros w1 Hat1.
  apply (init_fence_step wb d0 dev Hdev Hctx Hwf0 i m_compute_fence); [done | cbn; lia | done | done |].
  intros w2 Hat2.
  apply (init_fence_step wb d0 dev Hdev Hctx Hwf0 i m_transfer_fence); [done | cbn; lia | done | done |].
  intros w3 Hat3.
  apply (init_semaphore_step wb d0 dev Hdev Hctx i m_image_available); [done | cbn; lia | done |].
  intros w4 Hat4.
  apply (init_semaphore_step wb d0 dev Hdev Hctx i m_render_finished); [done | cbn; lia | done |].
  intros w5 Hat5.
  apply (init_semaphore_step wb d0 dev Hdev Hctx i m_compute_finished); [done | cbn; lia | done |].
  intros w6 Hat6.
  apply (init_semaphore_step wb d0 dev Hdev Hctx i m_transfer_finished); [done | cbn; lia | done |].
  intros w7 (Hsame & Hinv & Hdis). cbn in Hinv.
  pose proof Hinv as ([Hlen Hcur] & Htr & _).
  assert (Hl : (Z.to_nat i < length (frames (g_sync_state w7)))%nat) by (rewrite Hlen; lia).
  do 4 (apply wp_bind, wp_frame_member; [lia | done |]).
  destruct (bool_decide _ || bool_decide _ || bool_decide _ || bool_decide _) eqn:Hcheck.
  - assert (∃ m, 3 ≤ member_index m ∧ member_at (g_sync_state w7) i m = 0) as (m & Hm & Hzero).
    { apply orb_true_iff in Hcheck as [Hcheck|Hd].
      - apply orb_true_iff in Hcheck as [Hcheck|Hc].
        + apply orb_true_iff in Hcheck as [Ha|Hb].
          * exists m_image_available. split; [cbn; lia | exact (bool_decide_eq_true_1 _ Ha)].
          * exists m_render_finished. split; [cbn; lia | exact (bool_decide_eq_true_1 _ Hb)].
        + exists m_compute_finished. split; [cbn; lia | exact (bool_decide_eq_true_1 _ Hc)].
      - exists m_transfer_finished. split; [cbn; lia | exact (bool_decide_eq_true_1 _ Hd)]. }
    apply (init_abort wb d0 dev Hdev Hctx Hwf0); [done | done | done |].
    intros w8 Hback. apply Hfail. split; [|done].
    destruct (init_inv_semaphore_failure _ _ _ _ m Hinv ltac:(lia) Hm Hzero)
      as (k & e & Hk & Hff).
    exists k, e. split; [done|]. split; [unfold VE_MAX_FRAMES_IN_FLIGHT in *; lia|].
    rewrite bool_decide_eq_false_2; [done|].
    unfold VE_MAX_FRAMES_IN_FLIGHT in *. Z.div_mod_to_equations. lia.
  - apply wp_ret, Hnext. split_and!; [done | | done].
    apply init_inv_next_frame; [done | lia |].
    repeat (apply orb_false_iff in Hcheck as [Hcheck ?]).
    intros m Hm. destruct m; cbn in Hm; try lia;
      match goal with H : bool_decide (?x = 0) = false |- ?x ≠ 0 =>
        exact (bool_decide_eq_false_1 _ H) end.
Qed.

(** [ve_sync_init] on an initialised device returns; it has either built
    the whole registry or met a failure and rolled everything back. *)
Lemma ve_sync_init_cases w :
  wf w → device (g_vulkan_context w) ≠ VK_NULL_HANDLE →
  wp ve_sync_init (λ r w',
    ∃ st d m', w' = set_g_sync_state st (set_drv d (set_mem m' w))
      ∧ heap m' = heap (mem w) ∧ wf_mem m' ∧ wf_drv d ∧ current_frame st = 0
      ∧ ((r = VK_SUCCESS ∧ init_inv (drv w) VE_MAX_FRAMES_IN_FLIGHT 0 st d
          ∧ distinct_members st)
         ∨ (st = zero_sync_state ∧ live d = live (drv w)
            ∧ ∃ k e, first_failure (vk_results (drv w)) k e
                     ∧ (k < Z.to_nat (7 * VE_MAX_FRAMES_IN_FLIGHT))%nat
                     ∧ r = if bool_decide (Z.of_nat k mod 7 < 3) then e
                           else VK_ERROR_OUT_OF_DEVICE_MEMORY))) w.
Proof.
  intros [Hwfd Hwfm] Hdev. unfold ve_sync_init.
  apply wp_bind, wp_gets. rewrite (bool_decide_eq_true_2 _ Hdev).
  apply wp_bind, wp_VE_ASSERT_true. apply wp_bind, wp_modify.
  apply wp_bind, wp_ve_sync_supports_timeline; [done|].
  intros timeline m' Hheap Hwfm'. apply wp_bind, wp_modify.
  match goal with |- wp _ _ ?w1 => set (wb := w1) end.
  assert (Hwb : ∀ st d, set_g_sync_state st (set_drv d wb)
                        = set_g_sync_state st (set_drv d (set_mem m' w))) by done.
  apply wp_bind.
  apply (wp_for_u32 (λ j w1, init_at wb (drv w) j 0 w1)).
  - done.
  - by apply (init_at_start wb timeline).
  - intros j w1 Hj Hat. cbv beta.
    apply (init_frame wb (drv w) (device (g_vulkan_context w)) j); try done.
    intros r w2 [Hff (d & -> & Hlive & Hwf & _)]. apply wp_ret.
    exists zero_sync_state, d, m'. split_and!; try done. right. by split_and!.
  - intros w1 (Hsame & Hinv & Hdis). apply wp_ret.
    exists (g_sync_state w1), (drv w1), m'. split_and!; try done.
    + by destruct Hinv as (_ & (? & _) & _).
    + by destruct Hinv as ([_ ?] & _).
    + left. by split_and!.
Qed.

(** C6. [ve_sync_init] on an initialised device always returns.  When
    every creation succeeds it returns VK_SUCCESS and the registry holds
    VE_MAX_FRAMES_IN_FLIGHT slots, each with its fences created in the
    signaled state and its four semaphores, all of them alive, no handle
    stored twice, and nothing else created.  When the [k]-th creation is
    the first to fail, with code [e], it returns an error (the code [e] for
    a fence, VK_ERROR_OUT_OF_DEVICE_MEMORY for a semaphore), the registry is
    zeroed and the device's live objects are exactly those from before the
    call: no partial state survives.  The host heap is unchanged either
    way. *)
Theorem sync_init_all_or_nothing w :
  wf w → device (g_vulkan_context w) ≠ VK_NULL_HANDLE →
  ∃ r w', ve_sync_init w = Ret (r, w')
    ∧ heap (mem w') = heap (mem w)
    ∧ (Forall (λ x, x = VK_SUCCESS)
         (take (Z.to_nat (7 * VE_MAX_FRAMES_IN_FLIGHT)) (vk_results (drv w))) →
       r = VK_SUCCESS
       ∧ all_slots_ready (g_sync_state w') (drv w')
       ∧ distinct_members (g_sync_state w')
       ∧ current_frame (g_sync_state w') = 0
       ∧ ∀ h, is_Some (live (drv w') !! h)
              ↔ is_Some (live (drv w) !! h)
                ∨ ∃ j m, 0 ≤ j < VE_MAX_FRAMES_IN_FLIGHT
                         ∧ member_at (g_sync_state w') j m = h)
    ∧ (∀ k e, first_failure (vk_results (drv w)) k e →
              (k < Z.to_nat (7 * VE_MAX_FRAMES_IN_FLIGHT))%nat →
       r = (if bool_decide (Z.of_nat k mod 7 < 3) then e
            else VK_ERROR_OUT_OF_DEVICE_MEMORY)
       ∧ r ≠ VK_SUCCESS
       ∧ g_sync_state w' = zero_sync_state
       ∧ live (drv w') = live (drv w)).
Proof.
  intros Hwf Hdev.
  destruct (ve_sync_init_cases w Hwf Hdev)
    as (r & w' & E & st & d & m' & -> & Hheap & Hwfm & Hwfd & Hcur & Hcases).
  eexists r, _. split; [exact E|]. split; [exact Hheap|]. wsimpl.
  destruct Hcases as [(-> & Hinv & Hdis)|(-> & Hlive & k & e & Hff & Hk & ->)]; split.
  - intros _. split; [done|]. destruct (init_inv_ready _ _ _ Hinv) as [Hready _].
    split_and!; try done.
    destruct Hinv as (_ & (_ & Hn & Hold & Hmem & Hnew) & _ & Hdone & _).
    destruct Hwf as [[_ Hkeys] _].
    intros h. split.
    + intros Hh. destruct (Z.lt_ge_cases h (next_handle (drv w))) as [Hlt|Hge].
      * left. by rewrite <- Hold.
      * right. by apply Hnew.
    + intros [[o Ho]|(j & m & Hj & <-)].
      * pose proof (map_Forall_lookup_1 _ _ _ _ Hkeys Ho) as Hlt. cbv beta in Hlt.
        rewrite Hold by lia. by exists o.
      * destruct (Hmem j m Hj) as [_ Hl]; [apply Hdone; lia|]. by rewrite Hl.
  - intros k e Hff Hk. exfalso.
    destruct (init_inv_ready _ _ _ Hinv) as [_ Hall].
    by apply (first_failure_not_all _ _ _ _ Hff Hk).
  - intros Hall. exfalso. by apply (first_failure_not_all _ _ _ _ Hff Hk).
  - intros k' e' Hff' Hk'.
    destruct (first_failure_unique _ _ _ _ _ Hff Hff') as [-> ->].
    split_and!; try done.
    destruct Hff as (_ & _ & He). case_bool_decide; [done | discriminate].
Qed.

Lemma sync_init_all_or_nothing_witness :
  let w := sample_world VE_ASSERT_MODE_DEBUG_BREAK
             [VK_SUCCESS; VK_SUCCESS; VK_SUCCESS; VK_SUCCESS; VK_ERROR_OUT_OF_HOST_MEMORY] in
  ∃ w', ve_sync_init w = Ret (VK_ERROR_OUT_OF_DEVICE_MEMORY, w')
        ∧ heap (mem w') = heap (mem w)
        ∧ g_sync_state w' = zero_sync_state
        ∧ live (drv w') = live (drv w).
Proof.
  intros w.
  assert (Hwf : wf w).
  { split; (split; [reflexivity|]); apply (bool_decide_unpack _); vm_compute; exact I. }
  destruct (sync_init_all_or_nothing w Hwf ltac:(discriminate))
    as (r & w' & E & Hheap & _ & Hfail).
  destruct (Hfail 4%nat VK_ERROR_OUT_OF_HOST_MEMORY) as (-> & _ & Hst & Hlive).
  { split; [by repeat constructor|]. split; [reflexivity | discriminate]. }
  { vm_compute. lia. }
  exists w'. by split_and!.
Defined.

(** ** The current-frame index *)

Lemma wp_run_sync_op o w :
  wf w → device (g_vulkan_context w) ≠ VK_NULL_HANDLE →
  wp (run_sync_op o) (λ _ w',
    wf w' ∧ g_vulkan_context w' = g_vulkan_context w
    ∧ 0 ≤ current_frame (g_sync_state w') < VE_MAX_FRAMES_IN_FLIGHT
    ∧ match o with
      | OpSyncInit => current_frame (g_sync_state w') = 0
      | OpSyncAdvance =>
          current_frame (g_sync_state w')
          = u32 (current_frame (g_sync_state w) + 1) mod VE_MAX_FRAMES_IN_FLIGHT
      end) w.
Proof.
  intros Hwf Hdev. destruct o; cbn [run_sync_op].
  - apply wp_bind. eapply wp_mono; [by apply ve_sync_init_cases|].
    intros r w' (st & d & m' & -> & _ & Hwfm & Hwfd & Hcur & _). apply wp_ret. wsimpl.
    split_and!; try done. all: rewrite Hcur; unfold VE_MAX_FRAMES_IN_FLIGHT; lia.
  - apply wp_modify. wsimpl. split_and!; try done.
    all: apply Z.mod_pos_bound; reflexivity.
Qed.

(** C10. From a state whose current-frame index is in bounds (the static
    initial value is 0), every sequence of [ve_sync_init] and
    [ve_sync_advance_frame] calls on an initialised device runs to its end
    and leaves the index below VE_MAX_FRAMES_IN_FLIGHT; initialisation
    leaves it at 0, whatever its result; and [ve_sync_get_frame] returns
    NULL, without touching the state, for every index from
    VE_MAX_FRAMES_IN_FLIGHT on. *)
Theorem current_frame_in_bounds ops w :
  wf w → device (g_vulkan_context w) ≠ VK_NULL_HANDLE →
  0 ≤ current_frame (g_sync_state w) < VE_MAX_FRAMES_IN_FLIGHT →
  (∃ w', run_sync_ops ops w = Ret ((), w')
         ∧ 0 ≤ current_frame (g_sync_state w') < VE_MAX_FRAMES_IN_FLIGHT
         ∧ ∀ idx, VE_MAX_FRAMES_IN_FLIGHT ≤ idx → ve_sync_get_frame idx w' = Ret (None, w'))
  ∧ (∃ r w', ve_sync_init w = Ret (r, w') ∧ current_frame (g_sync_state w') = 0)
  ∧ (∃ w', ve_sync_advance_frame w = Ret ((), w')
           ∧ current_frame (g_sync_state w')
             = (current_frame (g_sync_state w) + 1) mod VE_MAX_FRAMES_IN_FLIGHT).
Proof.
  intros Hwf Hdev Hcur. split_and!.
  - revert w Hwf Hdev Hcur. induction ops as [|o ops IH]; intros w Hwf Hdev Hcur.
    + exists w. split; [done|]. split; [done|].
      intros idx Hidx. unfold ve_sync_get_frame. by rewrite bool_decide_eq_true_2.
    + destruct (wp_run_sync_op o w Hwf Hdev) as ([] & w1 & E1 & Hwf1 & Hctx1 & Hcur1 & _).
      destruct (IH w1 Hwf1 ltac:(by rewrite Hctx1) Hcur1) as (w' & E & H).
      exists w'. split; [|done]. cbn [run_sync_ops]. unfold bind. by rewrite E1.
  - destruct (wp_run_sync_op OpSyncInit w Hwf Hdev) as ([] & w1 & E1 & _ & _ & _ & H0).
    cbn [run_sync_op] in E1. apply bind_inv in E1 as (r & w2 & E2 & E3).
    injection E3 as <-. by exists r, w2.
  - eexists. split; [reflexivity|]. wsimpl. f_equal.
    unfold u32. apply Z.mod_small. unfold VE_MAX_FRAMES_IN_FLIGHT in *. lia.
Qed.

Lemma current_frame_in_bounds_witness :
  let w := sample_world VE_ASSERT_MODE_DEBUG_BREAK [] in
  let ops := [OpSyncInit; OpSyncAdvance; OpSyncAdvance; OpSyncInit; OpSyncAdvance] in
  ∃ w', run_sync_ops ops w = Ret ((), w')
        ∧ 0 ≤ current_frame (g_sync_state w') < VE_MAX_FRAMES_IN_FLIGHT
        ∧ ∀ idx, VE_MAX_FRAMES_IN_FLIGHT ≤ idx → ve_sync_get_frame idx w' = Ret (None, w').
Proof.
  intros w ops.
  assert (Hwf : wf w).
  { split; (split; [reflexivity|]); apply (bool_decide_unpack _); vm_compute; exact I. }
  exact (proj1 (current_frame_in_bounds ops w Hwf ltac:(discriminate)
                  ltac:(vm_compute; split; [discriminate | reflexivity]))).
Defined.

(** * Further properties of the embedded code *)

(** ** sync.c: tearing the registry down *)

(** [ve_sync_shutdown] on an initialised device returns with the registry
    zeroed; every handle the registry held is dead, every other object of
    the device is as it was, and nothing but the driver and the registry
    has changed. *)
Theorem sync_shutdown_releases w :
  device (g_vulkan_context w) ≠ VK_NULL_HANDLE →
  length (frames (g_sync_state w)) = Z.to_nat VE_MAX_FRAMES_IN_FLIGHT →
  wf_drv (drv w) →
  ∃ d, ve_sync_shutdown w = Ret ((), set_g_sync_state zero_sync_state (set_drv d w))
       ∧ wf_drv d ∧ next_handle d = next_handle (drv w)
       ∧ (∀ j m, 0 ≤ j < VE_MAX_FRAMES_IN_FLIGHT →
            live d !! member_at (g_sync_state w) j m = None)
       ∧ (∀ h, (∀ j m, 0 ≤ j < VE_MAX_FRAMES_IN_FLIGHT → member_at (g_sync_state w) j m ≠ h) →
            live d !! h = live (drv w) !! h).
Proof.
  intros Hdev Hlen Hwf.
  destruct (wp_ve_sync_shutdown w Hdev Hlen Hwf)
    as ([] & w' & E & st & d & -> & _ & _ & Hwfd & Hnext & Hdead & _ & Hother).
  exists d. split; [exact E|]. split_and!; try done.
  intros j m Hj. apply Hdead; [done|].
  pose proof (member_index_range m). unfold VE_MAX_FRAMES_IN_FLIGHT in *. lia.
Qed.

Lemma sync_shutdown_releases_witness :
  let f := mkFrameSync 1 2 3 4 5 6 7 in
  let w := set_g_sync_state (mkSyncState [f; zero_frame_sync; zero_frame_sync] 0 false)
             (set_drv (mkDriver {[ 1 := Fence true; 4 := Semaphore; 9 := ImageView ]} 10 [] [] 0)
                      (sample_world VE_ASSERT_MODE_DEBUG_BREAK [])) in
  ∃ d, ve_sync_shutdown w = Ret ((), set_g_sync_state zero_sync_state (set_drv d w))
       ∧ live d !! 1 = None ∧ live d !! 4 = None ∧ live d !! 9 = Some ImageView.
Proof.
  intros f w.
  assert (Hwf : wf_drv (drv w)).
  { split; [reflexivity|]. apply (bool_decide_unpack _). vm_compute. exact I. }
  destruct (sync_shutdown_releases w ltac:(discriminate) eq_refl Hwf)
    as (d & E & _ & _ & Hdead & Hother).
  exists d. split; [exact E|]. split_and!.
  - exact (Hdead 0 m_render_fence ltac:(vm_compute; split; [discriminate | reflexivity])).
  - exact (Hdead 0 m_image_available ltac:(vm_compute; split; [discriminate | reflexivity])).
  - rewrite Hother; [reflexivity|].
    intros j m [Hj1 Hj2]. unfold VE_MAX_FRAMES_IN_FLIGHT in Hj2.
    assert (j = 0 ∨ j = 1 ∨ j = 2) as [-> | [-> | ->]] by lia; destruct m; discriminate.
Defined.

(** [ve_sync_init] followed by [ve_sync_shutdown]: whatever the driver
    answered during the initialisation, the device keeps alive exactly the
    objects from before, the registry is zeroed and the host heap is as it
    was. *)
Theorem sync_init_shutdown_round_trip w :
  wf w → device (g_vulkan_context w) ≠ VK_NULL_HANDLE →
  ∃ r w1 w2, ve_sync_init w = Ret (r, w1) ∧ ve_sync_shutdown w1 = Ret ((), w2)
    ∧ g_sync_state w2 = zero_sync_state
    ∧ live (drv w2) = live (drv w)
    ∧ heap (mem w2) = heap (mem w).
Proof.
  intros Hwf Hdev.
  destruct (ve_sync_init_cases w Hwf Hdev)
    as (r & w1 & E & st & d & m' & -> & Hheap & Hwfm & Hwfd & Hcur & Hcases).
  assert (Hlen : length (frames st) = Z.to_nat VE_MAX_FRAMES_IN_FLIGHT).
  { destruct Hcases as [(_ & ([? _] & _) & _)|(-> & _)]; [done|]. apply length_replicate. }
  assert (∃ d1, tracks d1 st d ∧ wf_drv d1 ∧ live d1 = live (drv w))
    as (d1 & Htr & Hwf1 & Hl1).
  { destruct Hcases as [(_ & (_ & Htr & _) & _)|(-> & Hlive & _)].
    - exists (drv w). split_and!; [done | by destruct Hwf | done].
    - exists d. split_and!; [|done..].
      assert (0 < next_handle d) by (by destruct Hwfd).
      split_and!; try done; try lia.
      + intros j m _ Hne. unfold zero_sync_state in Hne. by rewrite member_at_zero in Hne.
      + intros h Hh [o Ho]. destruct Hwfd as [_ Hall].
        apply (map_Forall_lookup_1 _ _ _ _ Hall) in Ho. lia. }
  destruct (wp_ve_sync_shutdown (set_g_sync_state st (set_drv d (set_mem m' w))) Hdev Hlen Hwfd)
    as ([] & w2 & E2 & st2 & d2 & -> & Hinv).
  wsimpl. destruct (shutdown_restores d1 st d st2 d2 Hwf1 Htr Hinv) as (Hl & _).
  eexists r, _, _. split; [exact E|]. split; [exact E2|]. wsimpl.
  split_and!; [done | congruence | done].
Qed.

Lemma sync_init_shutdown_round_trip_witness :
  let w := sample_world VE_ASSERT_MODE_DEBUG_BREAK [] in
  ∃ r w1 w2, ve_sync_init w = Ret (r, w1) ∧ ve_sync_shutdown w1 = Ret ((), w2)
    ∧ g_sync_state w2 = zero_sync_state
    ∧ live (drv w2) = live (drv w)
    ∧ heap (mem w2) = heap (mem w).
Proof.
  intros w.
  assert (Hwf : wf w).
  { split; (split; [reflexivity|]); apply (bool_decide_unpack _); vm_compute; exact I. }
  exact (sync_init_shutdown_round_trip w Hwf ltac:(discriminate)).
Defined.

(** Shutting down twice is harmless: the second [ve_sync_shutdown] finds
    the registry zeroed, destroys nothing and leaves it zeroed. *)
Theorem sync_shutdown_twice w :
  device (g_vulkan_context w) ≠ VK_NULL_HANDLE →
  length (frames (g_sync_state w)) = Z.to_nat VE_MAX_FRAMES_IN_FLIGHT →
  wf_drv (drv w) →
  ∃ w1 w2, ve_sync_shutdown w = Ret ((), w1) ∧ ve_sync_shutdown w1 = Ret ((), w2)
    ∧ live (drv w2) = live (drv w1)
    ∧ g_sync_state w2 = g_sync_state w1
    ∧ mem w2 = mem w1 ∧ g_swapchain w2 = g_swapchain w1.
Proof.
  intros Hdev Hlen Hwf.
  destruct (wp_ve_sync_shutdown w Hdev Hlen Hwf)
    as ([] & w1 & E1 & st1 & d1 & -> & _ & _ & Hwfd & _).
  match type of E1 with _ = Ret (_, ?w1) =>
    destruct (wp_ve_sync_shutdown w1 Hdev (length_replicate _ _) Hwfd)
      as ([] & w2 & E2 & st2 & d2 & -> & _ & _ & _ & _ & _ & Hsub & Hother)
  end.
  eexists _, _. split; [exact E1|]. split; [exact E2|]. wsimpl.
  split_and!; try done.
  apply map_eq. intros h. destruct (decide (h = 0)) as [->|Hh].
  - assert (live d1 !! 0 = None) as Hz.
    { destruct Hwfd as [_ Hall]. destruct (live d1 !! 0) as [o|] eqn:Eo; [|done].
      apply (map_Forall_lookup_1 _ _ _ _ Hall) in Eo. lia. }
    destruct (Hsub 0) as [->| ->]; by rewrite ?Hz.
  - apply Hother. intros j m _. wsimpl.
    unfold zero_sync_state. rewrite member_at_zero. congruence.
Qed.

Lemma sync_shutdown_twice_witness :
  let f := mkFrameSync 1 2 3 4 5 6 7 in
  let w := set_g_sync_state (mkSyncState [f; zero_frame_sync; zero_frame_sync] 0 false)
             (set_drv (mkDriver {[ 1 := Fence true; 4 := Semaphore; 9 := ImageView ]} 10 [] [] 0)
                      (sample_world VE_ASSERT_MODE_DEBUG_BREAK [])) in
  ∃ w1 w2, ve_sync_shutdown w = Ret ((), w1) ∧ ve_sync_shutdown w1 = Ret ((), w2)
    ∧ live (drv w2) = live (drv w1)
    ∧ g_sync_state w2 = g_sync_state w1
    ∧ mem w2 = mem w1 ∧ g_swapchain w2 = g_swapchain w1.
Proof.
  intros f w.
  assert (Hwf : wf_drv (drv w)).
  { split; [reflexivity|]. apply (bool_decide_unpack _). vm_compute. exact I. }
  exact (sync_shutdown_twice w ltac:(discriminate) eq_refl Hwf).
Defined.

(** ** sync.c: the timeline query *)

(** The result of [ve_sync_supports_timeline]: the extension has to be in
    the device's list, and the array for the list has to be there. *)
Lemma supports_timeline_result (Q : bool → world → Prop) w :
  wf_mem (mem w) →
  (∀ m', heap m' = heap (mem w) → wf_mem m' →
     Q (bool_decide (physical_device (g_vulkan_context w) ≠ VK_NULL_HANDLE)
        && hd true (alloc_results (mem w))
        && bool_decide (VK_KHR_TIMELINE_SEMAPHORE_EXTENSION_NAME ∈ rep_extensions (report w)))
       (set_mem m' w)) →
  wp ve_sync_supports_timeline Q w.
Proof.
  intros [Hnb Hkeys] HQ. unfold ve_sync_supports_timeline.
  apply wp_bind, wp_gets.
  destruct (decide (physical_device (g_vulkan_context w) = VK_NULL_HANDLE)) as [Hphys|Hphys].
  { rewrite (bool_decide_eq_true_2 _ Hphys). apply wp_ret. rewrite (set_mem_same w).
    rewrite bool_decide_eq_false_2 in HQ by (intros N; by apply N).
    by apply HQ. }
  rewrite (bool_decide_eq_false_2 _ Hphys).
  rewrite (bool_decide_eq_true_2 _ Hphys) in HQ. cbn [andb] in HQ.
  apply wp_bind, wp_gets. set (exts := rep_extensions (report w)) in *.
  apply wp_bind, wp_ve_allocate.
  - intros Hn. rewrite bool_decide_eq_true_2 by done. apply wp_ret.
    destruct exts as [|e exts']; [|discriminate].
    rewrite (set_mem_same w). rewrite andb_false_r in HQ. by apply HQ.
  - intros _ Hal. rewrite bool_decide_eq_true_2 by done. apply wp_ret.
    rewrite Hal in HQ. apply HQ; [done | by split].
  - intros Hn Hal. rewrite bool_decide_eq_false_2 by lia.
    rewrite Hal in HQ. cbn [andb] in HQ.
    set (p := next_block (mem w)).
    assert (Hfresh : heap (mem w) !! p = None).
    { destruct (heap (mem w) !! p) eqn:E; [|done].
      apply (map_Forall_lookup_1 _ _ _ _ Hkeys) in E. lia. }
    apply wp_bind. eexists (), _. split.
    { unfold vk_fill. rewrite bool_decide_eq_false_2 by lia. wsimpl.
      by rewrite lookup_insert_eq. }
    set (wf := set_mem (mkHost (<[p := CExt <$> exts]> (heap (mem w))) (p + 1)
                               (tl (alloc_results (mem w)))) w).
    match goal with |- wp _ _ ?w1 => assert (w1 = wf) as -> end.
    { unfold wf, mem_write, set_mem. cbn. rewrite insert_insert_eq.
      rewrite length_replicate, Nat2Z.id.
      rewrite <- (length_fmap CExt exts) at 1. rewrite firstn_all, drop_replicate.
      by rewrite length_fmap, Nat.sub_diag, app_nil_r. }
    assert (Hfree : ∀ b, b = bool_decide (VK_KHR_TIMELINE_SEMAPHORE_EXTENSION_NAME ∈ exts) →
                         Q b (set_mem (mem_free p (mem wf)) wf)).
    { intros b ->. unfold wf, mem_free, set_mem. cbn.
      rewrite delete_insert_id by done.
      apply (HQ (mkHost (heap (mem w)) (p + 1) (tl (alloc_results (mem w))))); [done|].
      split; wsimpl; [lia|]. intros q l Hq.
      apply (map_Forall_lookup_1 _ _ _ _ Hkeys) in Hq. fold p in Hq. lia. }
    apply wp_bind.
    apply (wp_for_u32 (λ j w1, w1 = wf ∧ ∀ k name, (k < Z.to_nat j)%nat → exts !! k = Some name →
                                      name ≠ VK_KHR_TIMELINE_SEMAPHORE_EXTENSION_NAME));
      [lia | split; [done | intros; lia] | |].
    + intros j w1 Hj [-> Hnot]. apply wp_bind.
      destruct (lookup_lt_is_Some_2 exts (Z.to_nat j) ltac:(lia)) as [name Hname].
      exists (CExt name), wf. split.
      { unfold load, wf. wsimpl. rewrite lookup_insert_eq.
        by rewrite list_lookup_fmap, Hname. }
      destruct (String.eqb_spec name VK_KHR_TIMELINE_SEMAPHORE_EXTENSION_NAME) as [->|Hne];
        apply wp_ret.
      * apply wp_bind, wp_ve_free; [lia|]. apply wp_ret. apply Hfree. cbn [default].
        symmetry. apply bool_decide_eq_true_2. by apply list_elem_of_lookup_2 in Hname.
      * split; [done|]. intros k name' Hk Hk'.
        destruct (decide (k = Z.to_nat j)) as [->|]; [congruence|].
        apply (Hnot k); [lia | done].
    + intros w1 [-> Hnot]. apply wp_bind, wp_ve_free; [lia|]. apply wp_ret.
      apply Hfree. cbn [default]. symmetry. apply bool_decide_eq_false_2.
      intros Hin. apply list_elem_of_lookup in Hin as [k Hk].
      apply (Hnot k _ ltac:(apply lookup_lt_Some in Hk; lia) Hk). reflexivity.
Qed.

(** [ve_sync_supports_timeline] always returns.  It answers true exactly
    when a physical device has been picked, the array for the extension
    list could be allocated, and the device lists
    VK_KHR_timeline_semaphore; the array is freed again on every path, so
    the heap is as before. *)
Theorem supports_timeline_iff_listed w :
  wf_mem (mem w) →
  ∃ b m', ve_sync_supports_timeline w = Ret (b, set_mem m' w)
    ∧ heap m' = heap (mem w)
    ∧ (b = true ↔ physical_device (g_vulkan_context w) ≠ VK_NULL_HANDLE
                  ∧ hd true (alloc_results (mem w)) = true
                  ∧ VK_KHR_TIMELINE_SEMAPHORE_EXTENSION_NAME ∈ rep_extensions (report w)).
Proof.
  intros Hwf.
  destruct (supports_timeline_result
              (λ b w', ∃ m', w' = set_mem m' w ∧ heap m' = heap (mem w)
                 ∧ b = bool_decide (physical_device (g_vulkan_context w) ≠ VK_NULL_HANDLE)
                       && hd true (alloc_results (mem w))
                       && bool_decide (VK_KHR_TIMELINE_SEMAPHORE_EXTENSION_NAME
                                       ∈ rep_extensions (report w))) w Hwf)
    as (b & w' & E & m' & -> & Hheap & ->).
  { intros m' Hheap _. by exists m'. }
  eexists _, m'. split; [exact E|]. split; [exact Hheap|].
  rewrite !andb_true_iff, !bool_decide_eq_true. tauto.
Qed.

Lemma supports_timeline_iff_listed_witness :
  let w := sample_world VE_ASSERT_MODE_DEBUG_BREAK [] in
  ∃ m', ve_sync_supports_timeline w = Ret (false, set_mem m' w) ∧ heap m' = heap (mem w).
Proof.
  intros w.
  assert (Hwf : wf_mem (mem w)).
  { split; [reflexivity|]. apply (bool_decide_unpack _). vm_compute. exact I. }
  destruct (supports_timeline_iff_listed w Hwf) as (b & m' & E & Hheap & Hb).
  exists m'. split; [|exact Hheap]. destruct b; [|exact E].
  exfalso. destruct Hb as [Hb _]. destruct (Hb eq_refl) as (_ & _ & Hin).
  vm_compute in Hin. apply list_elem_of_In in Hin. destruct Hin as [Hin|[]]. discriminate.
Defined.

(** ** sync.c: single fences and semaphores *)

Lemma wf_drv_not_live d h : wf_drv d → next_handle d ≤ h → live d !! h = None.
Proof.
  intros [_ Hall] Hh. destruct (live d !! h) as [o|] eqn:E; [|done].
  apply (map_Forall_lookup_1 _ _ _ _ Hall) in E. lia.
Qed.

(** A creation call followed by the destruction of what it returned. *)
Lemma wp_create_then_destroy dev o w
    (create : M Z) (destroy : Z → M unit) :
  dev ≠ VK_NULL_HANDLE → device (g_vulkan_context w) = dev → wf_drv (drv w) →
  create = (dev ← gets (λ w, device (g_vulkan_context w));
            VE_ASSERT (bool_decide (dev ≠ VK_NULL_HANDLE));;
            '(result, oh) ← vk_create dev o;
            ret (default VK_NULL_HANDLE oh)) →
  destroy = (λ h, dev ← gets (λ w, device (g_vulkan_context w));
                  if bool_decide (dev = VK_NULL_HANDLE) || bool_decide (h = VK_NULL_HANDLE)
                  then ret ()
                  else vk_destroy dev h) →
  ∃ h w1 w2, create w = Ret (h, w1) ∧ destroy h w1 = Ret ((), w2)
    ∧ (if bool_decide (next_result w = VK_SUCCESS)
       then h = next_handle (drv w) ∧ h ≠ VK_NULL_HANDLE
            ∧ live (drv w1) = <[h := o]> (live (drv w))
       else h = VK_NULL_HANDLE ∧ live (drv w1) = live (drv w))
    ∧ live (drv w2) = live (drv w).
Proof.
  intros Hdev Hctx Hwf -> ->.
  assert (wp (dev ← gets (λ w, device (g_vulkan_context w));
              VE_ASSERT (bool_decide (dev ≠ VK_NULL_HANDLE));;
              '(result, oh) ← vk_create dev o;
              ret (default VK_NULL_HANDLE oh))
            (λ h w1, wp (dev ← gets (λ w, device (g_vulkan_context w));
                         if bool_decide (dev = VK_NULL_HANDLE)
                            || bool_decide (h = VK_NULL_HANDLE)
                         then ret ()
                         else vk_destroy dev h)
               (λ _ w2,
                  (if bool_decide (next_result w = VK_SUCCESS)
                   then h = next_handle (drv w) ∧ h ≠ VK_NULL_HANDLE
                        ∧ live (drv w1) = <[h := o]> (live (drv w))
                   else h = VK_NULL_HANDLE ∧ live (drv w1) = live (drv w))
                  ∧ live (drv w2) = live (drv w)) w1) w) as (h & w1 & E1 & [] & w2 & E2 & H).
  { apply wp_bind, wp_gets. rewrite Hctx, (bool_decide_eq_true_2 _ Hdev).
    apply wp_bind, wp_VE_ASSERT_true. apply wp_bind, wp_vk_create; [done | |].
    - intros Hko. apply wp_ret. cbn [default].
      apply wp_bind, wp_gets. wsimpl. rewrite Hctx, (bool_decide_eq_false_2 _ Hdev).
      rewrite (bool_decide_eq_true_2 (VK_NULL_HANDLE = VK_NULL_HANDLE)) by done.
      cbn [orb]. apply wp_ret. wsimpl. by rewrite (bool_decide_eq_false_2 _ Hko).
    - intros Hok. apply wp_ret. cbn [default].
      assert (next_handle (drv w) ≠ VK_NULL_HANDLE) as Hh.
      { destruct Hwf. unfold VK_NULL_HANDLE. lia. }
      apply wp_bind, wp_gets. wsimpl. rewrite Hctx, (bool_decide_eq_false_2 _ Hdev).
      rewrite (bool_decide_eq_false_2 _ Hh). cbn [orb].
      apply wp_vk_destroy; [done|]. wsimpl. rewrite (bool_decide_eq_true_2 _ Hok).
      split_and!; try done.
      apply delete_insert_id. apply wf_drv_not_live; [done | lia]. }
  by exists h, w1, w2.
Qed.

(** [ve_sync_create_fence] and [ve_sync_create_semaphore] return the new
    handle, or VK_NULL_HANDLE with nothing created when the driver refuses;
    a fence is signaled exactly when bit 0 of [flags] is set.  Handing the
    result to the matching destroy function brings the device back to the
    objects it had, in both cases: destroying VK_NULL_HANDLE does nothing. *)
Theorem sync_create_destroy_round_trip flags name w :
  device (g_vulkan_context w) ≠ VK_NULL_HANDLE → wf_drv (drv w) →
  (∃ h w1 w2, ve_sync_create_fence flags name w = Ret (h, w1)
     ∧ ve_sync_destroy_fence h w1 = Ret ((), w2)
     ∧ (if bool_decide (next_result w = VK_SUCCESS)
        then h = next_handle (drv w) ∧ h ≠ VK_NULL_HANDLE
             ∧ live (drv w1) = <[h := Fence (Z.testbit flags 0)]> (live (drv w))
        else h = VK_NULL_HANDLE ∧ live (drv w1) = live (drv w))
     ∧ live (drv w2) = live (drv w))
  ∧ (∃ h w1 w2, ve_sync_create_semaphore name w = Ret (h, w1)
       ∧ ve_sync_destroy_semaphore h w1 = Ret ((), w2)
       ∧ (if bool_decide (next_result w = VK_SUCCESS)
          then h = next_handle (drv w) ∧ h ≠ VK_NULL_HANDLE
               ∧ live (drv w1) = <[h := Semaphore]> (live (drv w))
          else h = VK_NULL_HANDLE ∧ live (drv w1) = live (drv w))
       ∧ live (drv w2) = live (drv w)).
Proof.
  intros Hdev Hwf. split.
  - eapply wp_create_then_destroy; [exact Hdev | reflexivity | exact Hwf | reflexivity..].
  - eapply wp_create_then_destroy; [exact Hdev | reflexivity | exact Hwf | reflexivity..].
Qed.

Lemma sync_create_destroy_round_trip_witness :
  let w := sample_world VE_ASSERT_MODE_DEBUG_BREAK [VK_ERROR_OUT_OF_HOST_MEMORY] in
  ∃ w1 w2, ve_sync_create_fence VK_FENCE_CREATE_SIGNALED_BIT "f" w = Ret (VK_NULL_HANDLE, w1)
    ∧ ve_sync_destroy_fence VK_NULL_HANDLE w1 = Ret ((), w2)
    ∧ live (drv w2) = live (drv w).
Proof.
  intros w.
  assert (Hwf : wf_drv (drv w)).
  { split; [reflexivity|]. apply (bool_decide_unpack _). vm_compute. exact I. }
  destruct (sync_create_destroy_round_trip VK_FENCE_CREATE_SIGNALED_BIT "f" w
              ltac:(discriminate) Hwf) as [(h & w1 & w2 & E1 & E2 & Hc & Hl) _].
  rewrite bool_decide_eq_false_2 in Hc by discriminate. destruct Hc as [-> _].
  by exists w1, w2.
Defined.

(** ** sync.c: the fence of the current frame *)





(** ** command_buffer.c: pools and initialisation *)

Lemma wpC_ret {A} (a : A) Q g w : Q a g w → wpC (retC a) Q g w.
Proof. intros H. by exists a, g, w. Qed.

Lemma wpC_bind {A B} (m : MC A) (k : A → MC B) Q g w :
  wpC m (λ a g' w', wpC (k a) Q g' w') g w → wpC (bindC m k) Q g w.
Proof.
  intros (a & g' & w' & Hm & b & g'' & w'' & Hk & HQ). exists b, g'', w''.
  split; [|done]. unfold bindC, bind. by rewrite Hm.
Qed.

Lemma wpC_lift {A} (m : M A) Q g w : wp m (λ a w', Q a g w') w → wpC (liftC m) Q g w.
Proof.
  intros (a & w' & Hm & HQ). exists a, g, w'. split; [|done].
  unfold liftC, bind. by rewrite Hm.
Qed.

Lemma wpC_gets {A} (f : cmd_globals → A) Q g w : Q (f g) g w → wpC (getsC f) Q g w.
Proof. intros H. by exists (f g), g, w. Qed.

Lemma wpC_modify f (Q : unit → cmd_globals → world → Prop) g w :
  Q () (f g) w → wpC (modifyC f) Q g w.
Proof. intros H. by exists (), (f g), w. Qed.

Lemma wpC_mono {A} (m : MC A) (Q Q' : A → cmd_globals → world → Prop) g w :
  wpC m Q g w → (∀ a g' w', Q a g' w' → Q' a g' w') → wpC m Q' g w.
Proof. intros (a & g' & w' & E & HQ) H. exists a, g', w'. eauto. Qed.

Lemma wpC_iter_range (I : Z → cmd_globals → world → Prop) n i body
    (Q : unit → cmd_globals → world → Prop) g w :
  I i g w →
  (∀ j g1 w1, i ≤ j < i + Z.of_nat n → I j g1 w1 →
     wpC (body j) (λ _ g2 w2, I (j + 1) g2 w2) g1 w1) →
  (∀ g1 w1, I (i + Z.of_nat n) g1 w1 → Q () g1 w1) →
  wpC (iter_rangeC n i body) Q g w.
Proof.
  revert i g w. induction n as [|n IH]; intros i g w Hi Hbody Hend; cbn [iter_rangeC].
  - apply wpC_ret, Hend. by rewrite Z.add_0_r.
  - apply wpC_bind. eapply wpC_mono; [apply Hbody; [lia | exact Hi]|].
    intros [] g1 w1 H1. apply IH; [exact H1 | |].
    + intros j g2 w2 Hj. apply Hbody. lia.
    + intros g2 w2. replace (i + 1 + Z.of_nat n) with (i + Z.of_nat (S n)) by lia. apply Hend.
Qed.

Lemma wpC_iter_u32 (I : Z → cmd_globals → world → Prop) lo hi body
    (Q : unit → cmd_globals → world → Prop) g w :
  lo ≤ hi →
  I lo g w →
  (∀ j g1 w1, lo ≤ j < hi → I j g1 w1 →
     wpC (body j) (λ _ g2 w2, I (j + 1) g2 w2) g1 w1) →
  (∀ g1 w1, I hi g1 w1 → Q () g1 w1) →
  wpC (iter_u32C lo hi body) Q g w.
Proof.
  intros Hle Hi Hbody Hend. unfold iter_u32C.
  apply (wpC_iter_range I); [exact Hi | |].
  - intros j g1 w1 Hj. apply Hbody. lia.
  - intros g1 w1. rewrite Z2Nat.id by lia. replace (lo + (hi - lo)) with hi by lia. apply Hend.
Qed.

Ltac allsimpl :=
  cbn [drv mem report g_assert_mode g_assert_callback g_vulkan_context g_swapchain
       g_owns_framebuffers g_sync_state g_frame_command_buffers g_initialized cmd_store
       set_drv set_mem set_g_vulkan_context set_g_swapchain set_g_owns_framebuffers
       set_g_sync_state set_cmd_store set_g_frame_command_buffers set_g_initialized
       live next_handle vk_results vk_indices idle_waits
       drv_pop_result drv_pop_index drv_insert drv_delete drv_idle
       heap next_block alloc_results mem_write mem_free
       physical_device surface device queues_present vk_current_frame
       g_command_pools graphics_family compute_family transfer_family
       queues_graphics queues_compute queues_transfer live_pools live_buffers
       set_g_command_pools set_live_pools set_live_buffers
       pool pool_type queue_family_index set_pool_handle] in *.

Ltac gsimpl :=
  cbn [g_command_pools graphics_family compute_family transfer_family
       queues_graphics queues_compute queues_transfer live_pools live_buffers
       set_g_command_pools set_live_pools set_live_buffers
       set_g_frame_command_buffers set_g_initialized
       pool pool_type queue_family_index set_pool_handle] in *.

Lemma frame_table_at_zero frame type w :
  g_frame_command_buffers w = replicate (Z.to_nat VE_MAX_FRAMES_IN_FLIGHT) (replicate 3 0) →
  0 ≤ frame < VE_MAX_FRAMES_IN_FLIGHT → 0 ≤ type < 3 →
  frame_table_at frame type w = Ret (0, w).
Proof.
  intros Ht Hf Hty. unfold frame_table_at. rewrite Ht.
  rewrite lookup_replicate_2 by lia. cbn [mbind option_bind].
  by rewrite lookup_replicate_2 by lia.
Qed.

Lemma set_pool_handle_id p : pool p = VK_NULL_HANDLE → set_pool_handle VK_NULL_HANDLE p = p.
Proof. destruct p. cbn. by intros ->. Qed.

(** [ve_command_buffer_shutdown] with an empty frame table: every pool of
    the table is destroyed and its handle reset. *)
Lemma wpC_shutdown_empty_table (Q : unit → cmd_globals → world → Prop) g w :
  device (g_vulkan_context w) ≠ VK_NULL_HANDLE →
  g_frame_command_buffers w = replicate (Z.to_nat VE_MAX_FRAMES_IN_FLIGHT) (replicate 3 0) →
  length (g_command_pools g) = 3%nat →
  (∀ i p, g_command_pools g !! i = Some p →
          pool p = VK_NULL_HANDLE ∨ pool p ∈ live_pools g) →
  (∀ i j p q, (i < j)%nat → g_command_pools g !! i = Some p → g_command_pools g !! j = Some q →
              pool q ≠ VK_NULL_HANDLE → pool q ≠ pool p) →
  VK_NULL_HANDLE ∉ live_pools g →
  (∀ b p, live_buffers g !! b = Some p → p ≠ VK_NULL_HANDLE) →
  (∀ g', g_command_pools g' = set_pool_handle VK_NULL_HANDLE <$> g_command_pools g →
         pools_destroyed (list_to_set (pool <$> g_command_pools g)) g g' →
         Q () g' (set_g_initialized false w)) →
  wpC ve_command_buffer_shutdown Q g w.
Proof.
  intros Hdev Htable Hlen Hvalid Hdist H0 Hb0 HQ. unfold ve_command_buffer_shutdown.
  apply wpC_bind, wpC_lift, wp_gets. rewrite (bool_decide_eq_false_2 _ Hdev).
  apply wpC_bind.
  apply (wpC_iter_u32 (λ _ g1 w1, g1 = g ∧ w1 = w)); [done | done | |].
  { intros frame g1 w1 Hf [-> ->].
    apply (wpC_iter_u32 (λ _ g1 w1, g1 = g ∧ w1 = w)); [done | done | |done].
    intros type g1 w1 Hty [-> ->]. apply wpC_bind, wpC_lift.
    exists 0, w. split; [by apply frame_table_at_zero|].
    rewrite bool_decide_eq_false_2 by (intros N; by apply N). by apply wpC_ret. }
  intros g1 w1 [-> ->]. apply wpC_bind.
  set (pools := g_command_pools g) in *.
  apply (wpC_iter_u32 (λ j g1 w1,
           w1 = w
           ∧ g_command_pools g1
             = (set_pool_handle VK_NULL_HANDLE <$> take (Z.to_nat j) pools)
               ++ drop (Z.to_nat j) pools
           ∧ pools_destroyed (list_to_set (pool <$> take (Z.to_nat j) pools)) g g1)).
  - done.
  - split; [done|]. split; [done|]. cbn. unfold pools_destroyed.
    split_and!; try done; [set_solver | intros b p; set_solver].
  - intros j g1 w1 Hj (-> & Hpools & Hd).
    destruct (lookup_lt_is_Some_2 pools (Z.to_nat j) ltac:(lia)) as [p Hp].
    assert (Hnext : take (Z.to_nat (j + 1)) pools = take (Z.to_nat j) pools ++ [p]).
    { replace (Z.to_nat (j + 1)) with (S (Z.to_nat j)) by lia. by apply take_S_r. }
    assert (Hp1 : g_command_pools g1 !! Z.to_nat j = Some p).
    { rewrite Hpools, lookup_app_r; rewrite length_fmap, length_take; [|lia].
      replace (Z.to_nat j - Z.to_nat j `min` length pools)%nat with 0%nat by lia.
      by rewrite lookup_drop, Nat.add_0_r. }
    assert (Hins : ∀ g2, g_command_pools g2
                         = <[Z.to_nat j := set_pool_handle VK_NULL_HANDLE p]> (g_command_pools g1) →
              g_command_pools g2
              = (set_pool_handle VK_NULL_HANDLE <$> take (Z.to_nat (j + 1)) pools)
                ++ drop (Z.to_nat (j + 1)) pools).
    { intros g2 ->. rewrite Hpools, Hnext, fmap_app. cbn [fmap list_fmap].
      rewrite insert_app_r_alt; rewrite length_fmap, length_take; [|lia].
      replace (Z.to_nat j - Z.to_nat j `min` length pools)%nat with 0%nat by lia.
      rewrite (drop_S _ _ _ Hp). cbn [list_insert list_alter].
      replace (Z.to_nat (j + 1)) with (S (Z.to_nat j)) by lia.
      by rewrite <- app_assoc. }
    apply wpC_bind. exists p, g1, w. split; [unfold pool_at; by rewrite Hp1|].
    destruct Hd as (Hlp & Hlb & Hrest).
    destruct (decide (pool p = VK_NULL_HANDLE)) as [Hz|Hnz].
    + rewrite bool_decide_eq_false_2 by (intros N; by apply N). apply wpC_ret.
      split; [done|]. split.
      * apply Hins. rewrite (set_pool_handle_id p Hz). symmetry. by apply list_insert_id.
      * rewrite Hnext, fmap_app, list_to_set_app_L. cbn. rewrite Hz.
        split_and!; try (by destruct Hrest as (? & ? & ? & ? & ? & ?)).
        -- rewrite Hlp. set_solver.
        -- intros b q. rewrite Hlb. split; [|set_solver].
           intros [Hq Hn]. split; [done|]. specialize (Hb0 _ _ Hq). set_solver.
    + rewrite (bool_decide_eq_true_2 _ Hnz).
      assert (Hin : pool p ∈ live_pools g1).
      { rewrite Hlp. destruct (Hvalid _ _ Hp) as [?|Hin]; [done|].
        apply elem_of_difference. split; [done|].
        rewrite elem_of_list_to_set, list_elem_of_fmap. intros (q & Hq & Hqin).
        apply list_elem_of_lookup in Hqin as [i Hi].
        apply lookup_take_Some in Hi as [Hi Hlt].
        by apply (Hdist i (Z.to_nat j) q p Hlt Hi Hp Hnz). }
      apply wpC_bind. unfold vkDestroyCommandPool.
      rewrite (bool_decide_eq_false_2 _ Hdev).
      apply wpC_bind, wpC_gets. rewrite (bool_decide_eq_true_2 _ Hin).
      apply wpC_modify.
      eexists (), _, w. split.
      { unfold set_pool_at. gsimpl. by rewrite Hp1. }
      split; [done|]. split; [by apply Hins|].
      rewrite Hnext, fmap_app, list_to_set_app_L. unfold pools_destroyed. gsimpl.
      split_and!; try (by destruct Hrest as (? & ? & ? & ? & ? & ?)).
      * rewrite Hlp. set_solver.
      * intros b q. rewrite map_lookup_filter_Some, Hlb. cbn [snd]. set_solver.
  - intros g1 w1 (-> & Hpools & Hd). apply wpC_lift, wp_modify. apply HQ.
    + rewrite Hpools. replace (Z.to_nat 3) with (length pools) by lia.
      by rewrite firstn_all, drop_all, app_nil_r.
    + replace (Z.to_nat 3) with (length pools) in Hd by lia. by rewrite firstn_all in Hd.
Qed.

Lemma wpC_vkCreateCommandPool dev family (Q : Z * option Z → cmd_globals → world → Prop) g w :
  dev ≠ VK_NULL_HANDLE →
  (next_result w ≠ VK_SUCCESS →
   Q (next_result w, None) g (set_drv (drv_pop_result (drv w)) w)) →
  (next_result w = VK_SUCCESS →
   Q (VK_SUCCESS, Some (next_handle (drv w)))
     (set_live_pools ({[next_handle (drv w)]} ∪ live_pools g) g)
     (set_drv (mkDriver (live (drv w)) (next_handle (drv w) + 1) (tl (vk_results (drv w)))
                        (vk_indices (drv w)) (idle_waits (drv w))) w)) →
  wpC (vkCreateCommandPool dev family) Q g w.
Proof.
  intros Hdev Hko Hok. unfold vkCreateCommandPool. rewrite (bool_decide_eq_false_2 _ Hdev).
  apply wpC_bind, wpC_lift. eexists _, _. split; [reflexivity|]. fold (next_result w).
  case_bool_decide as Hr.
  - rewrite Hr. apply wpC_bind, wpC_lift. eexists _, _. split; [reflexivity|].
    apply wpC_bind, wpC_modify, wpC_ret. by apply Hok.
  - apply wpC_ret. by apply Hko.
Qed.

Lemma wpC_set_pool_at i f p (Q : unit → cmd_globals → world → Prop) g w :
  g_command_pools g !! i = Some p →
  Q () (set_g_command_pools (<[i := f p]> (g_command_pools g)) g) w →
  wpC (set_pool_at i f) Q g w.
Proof.
  intros Hp HQ. eexists (), _, w. split; [|exact HQ]. unfold set_pool_at. by rewrite Hp.
Qed.

(** The pools of a clean state. *)
Lemma cmd_clean_pools g w :
  cmd_clean g w →
  ∃ a b c, g_command_pools g = [a; b; c]
    ∧ pool a = VK_NULL_HANDLE ∧ pool b = VK_NULL_HANDLE ∧ pool c = VK_NULL_HANDLE.
Proof.
  intros (_ & _ & Hlen & Hz).
  destruct (g_command_pools g) as [|a [|b [|c [|]]]]; try discriminate.
  exists a, b, c. split; [done|]. split_and!; apply Hz; set_solver.
Qed.

(** While the file is not initialised no pool is handed out, and
    [ve_command_buffer_allocate] gives up before it calls the driver. *)
Lemma wpC_allocate_uninitialised t level (Q : Z → cmd_globals → world → Prop) g w :
  device (g_vulkan_context w) ≠ VK_NULL_HANDLE → g_initialized w = false →
  Q 0 g w → wpC (ve_command_buffer_allocate t level) Q g w.
Proof.
  intros Hdev Hinit HQ. unfold ve_command_buffer_allocate.
  apply wpC_bind, wpC_lift, wp_gets. rewrite (bool_decide_eq_true_2 _ Hdev).
  apply wpC_bind, wpC_lift, wp_VE_ASSERT_true.
  apply wpC_bind. unfold ve_command_buffer_get_pool.
  apply wpC_bind, wpC_lift, wp_gets. rewrite Hinit. cbn [negb orb].
  by apply wpC_ret, wpC_ret.
Qed.

(** Shutting down after [k] pools have been created on top of a clean
    state: the new pools go, the old ones and their command buffers stay. *)
Lemma shutdown_after_pools (Q : unit → cmd_globals → world → Prop) g0 g w (hs : list Z) :
  device (g_vulkan_context w) ≠ VK_NULL_HANDLE →
  g_frame_command_buffers w = replicate (Z.to_nat VE_MAX_FRAMES_IN_FLIGHT) (replicate 3 0) →
  length (g_command_pools g) = 3%nat →
  pool <$> g_command_pools g = hs →
  (∀ i h, hs !! i = Some h → h = VK_NULL_HANDLE ∨ h ∈ live_pools g ∧ h ∉ live_pools g0) →
  (∀ i j h, (i < j)%nat → hs !! i = Some h → hs !! j = Some h → h = VK_NULL_HANDLE) →
  live_pools g = list_to_set (filter (λ h, h ≠ VK_NULL_HANDLE) hs) ∪ live_pools g0 →
  live_buffers g = live_buffers g0 →
  VK_NULL_HANDLE ∉ live_pools g0 →
  (∀ b p, live_buffers g0 !! b = Some p → p ∈ live_pools g0) →
  (∀ g', (∀ p, p ∈ g_command_pools g' → pool p = VK_NULL_HANDLE) →
         length (g_command_pools g') = 3%nat →
         live_pools g' = live_pools g0 → live_buffers g' = live_buffers g0 →
         graphics_family g' = graphics_family g ∧ compute_family g' = compute_family g
         ∧ transfer_family g' = transfer_family g
         ∧ queues_graphics g' = queues_graphics g ∧ queues_compute g' = queues_compute g
         ∧ queues_transfer g' = queues_transfer g →
         Q () g' (set_g_initialized false w)) →
  wpC ve_command_buffer_shutdown Q g w.
Proof.
  intros Hdev Htable Hlen Hhs Hvalid Hdist Hlive Hbufs H0 Hwfb HQ.
  assert (Hlook : ∀ i p, g_command_pools g !! i = Some p → hs !! i = Some (pool p)).
  { intros i p Hp. by rewrite <- Hhs, list_lookup_fmap, Hp. }
  apply wpC_shutdown_empty_table; try done.
  - intros i p Hp. destruct (Hvalid _ _ (Hlook _ _ Hp)) as [?|[? _]]; eauto.
  - intros i j p q Hij Hp Hq Hnz Heq. apply Hnz.
    apply (Hdist i j (pool q) Hij); [rewrite Heq|]; by apply Hlook.
  - rewrite Hlive. rewrite elem_of_union, elem_of_list_to_set, list_elem_of_filter.
    intros [[? _]|?]; done.
  - intros b p Hb. rewrite Hbufs in Hb. apply Hwfb in Hb. intros ->. done.
  - intros g' Hpools (Hlp & Hlb & Hrest). apply HQ; try done.
    + intros p. rewrite Hpools, list_elem_of_fmap. intros (q & -> & _). reflexivity.
    + by rewrite Hpools, length_fmap.
    + rewrite Hlp, Hlive, Hhs. apply set_eq. intros h.
      rewrite elem_of_difference, elem_of_union, !elem_of_list_to_set, list_elem_of_filter.
      split.
      * intros [[[_ Hin]|Hin] Hnot]; done.
      * intros Hin. split; [by right|]. intros Hin'.
        apply list_elem_of_lookup in Hin' as [i Hi].
        destruct (Hvalid _ _ Hi) as [->|[_ ?]]; done.
    + apply map_eq. intros b. apply option_eq. intros p. rewrite Hlb, Hbufs.
      split; [by intros [? _]|]. intros Hb. split; [done|].
      rewrite Hhs, elem_of_list_to_set. intros Hin.
      apply list_elem_of_lookup in Hin as [i Hi]. apply Hwfb in Hb.
      destruct (Hvalid _ _ Hi) as [->|[_ ?]]; done.
Qed.

Ltac pool_index i H :=
  destruct i as [|[|[|i]]]; cbn in H; rewrite ?lookup_nil in H;
  try discriminate H; injection H as H.

Ltac list_ins :=
  repeat first
    [ progress change (<[0%nat := ?x]> (?y :: ?l)) with (x :: l)
    | progress change (<[1%nat := ?x]> (?y :: ?z :: ?l)) with (y :: x :: l)
    | progress change (<[2%nat := ?x]> (?y :: ?z :: ?u :: ?l)) with (y :: z :: x :: l) ].

(** [ve_command_buffer_init] from a clean state.  A pool that cannot be
    created ends it with the driver's code.  With three pools it goes on
    to allocate the first frame buffer, which fails since no pool is
    handed out before [g_initialized] is set; the pools are destroyed
    again and the out-of-device-memory code comes back. *)
Lemma wpC_init_clean g w :
  cmd_clean g w → cmd_wf g w → device (g_vulkan_context w) ≠ VK_NULL_HANDLE →
  wpC ve_command_buffer_init (λ r g' w',
    r = default VK_ERROR_OUT_OF_DEVICE_MEMORY (first_pool_failure (vk_results (drv w)))
    ∧ r ≠ VK_SUCCESS
    ∧ cmd_clean g' w' ∧ cmd_wf g' w'
    ∧ live_pools g' = live_pools g ∧ live_buffers g' = live_buffers g
    ∧ mem w' = mem w ∧ cmd_store w' = cmd_store w ∧ live (drv w') = live (drv w)
    ∧ g_vulkan_context w' = g_vulkan_context w ∧ g_assert_mode w' = g_assert_mode w) g w.
Proof.
  intros Hclean (Hn & Hlt & Hwfb) Hdev.
  destruct (cmd_clean_pools g w Hclean) as (a & b & c & Hpools & Ha & Hb & Hc).
  destruct Hclean as (Hinit & Htable & Hlen & Hzero).
  assert (H0 : VK_NULL_HANDLE ∉ live_pools g).
  { intros Hin. apply Hlt in Hin. unfold VK_NULL_HANDLE in Hin. lia. }
  set (n := next_handle (drv w)) in *.
  assert (Hfresh : ∀ k, 0 ≤ k → n + k ∉ live_pools g).
  { intros k Hk Hin. apply Hlt in Hin. lia. }
  unfold ve_command_buffer_init.
  apply wpC_bind, wpC_lift, wp_gets. rewrite (bool_decide_eq_true_2 _ Hdev).
  apply wpC_bind, wpC_lift, wp_VE_ASSERT_true. apply wpC_bind, wpC_gets.
  unfold first_pool_failure.
  rewrite <- !hd_drop. change (drop 0 ?l) with l. fold (next_result w).
  (* Graphics pool *)
  apply wpC_bind, wpC_vkCreateCommandPool; [done | |].
  { intros Hko. cbn [out_pool]. apply wpC_bind, wpC_ret.
    rewrite !(bool_decide_eq_true_2 _ Hko). apply wpC_ret. wsimpl.
    split_and!; done. }
  intros Hok0. cbn [out_pool type_index].
  apply wpC_bind. eapply (wpC_set_pool_at 0); [gsimpl; by rewrite Hpools|]. gsimpl. rewrite Hpools.
  list_ins. gsimpl.
  rewrite (bool_decide_eq_false_2 (VK_SUCCESS ≠ VK_SUCCESS)) by (intros N; by apply N).
  apply wpC_bind. eapply (wpC_set_pool_at 0); [gsimpl; reflexivity|]. gsimpl. list_ins. gsimpl.
  rewrite (bool_decide_eq_false_2 (next_result w ≠ VK_SUCCESS)) by (intros N; by apply N).
  (* Compute pool *)
  apply wpC_bind, wpC_gets. gsimpl.
  match goal with |- wpC _ _ _ ?w1 => set (w1' := w1) end.
  assert (Hres1 : next_result w1' = hd VK_SUCCESS (drop 1 (vk_results (drv w)))).
  { unfold next_result, w1'. wsimpl. by destruct (vk_results (drv w)). }
  apply wpC_bind, wpC_vkCreateCommandPool; [done | |]; rewrite Hres1.
  { intros Hko. cbn [out_pool]. apply wpC_bind, wpC_ret.
    rewrite !(bool_decide_eq_true_2 _ Hko). apply wpC_bind.
    apply (shutdown_after_pools _ g _ _ [n; 0; 0]); unfold w1'; wsimpl; gsimpl;
      cbn [fmap list_fmap]; gsimpl; try done.
    - cbn. gsimpl. by rewrite Hb, Hc.
    - intros i h Hi. pool_index i Hi; subst h; [right | by left..].
      split; [set_solver|]. rewrite <- (Z.add_0_r n). by apply Hfresh.
    - intros i j h Hij Hi Hj. pool_index i Hi; pool_index j Hj; unfold VK_NULL_HANDLE in *; lia.
    - rewrite filter_cons_True by (unfold VK_NULL_HANDLE; lia).
      rewrite !filter_cons_False by (intros N; by apply N). set_solver.
    - intros g' Hz Hl3 Hlp Hlb Hrest. apply wpC_ret. allsimpl.
      split_and!; try done.
      split_and!; allsimpl;
        [unfold n in *; lia | intros h Hh; rewrite Hlp in Hh; apply Hlt in Hh; unfold n in *; lia
         | intros bb pp Hbb; rewrite Hlb in Hbb; rewrite Hlp; by eapply Hwfb]. }
  intros Hok1. cbn [out_pool type_index].
  apply wpC_bind. eapply (wpC_set_pool_at 1); [gsimpl; reflexivity|]. gsimpl. list_ins. gsimpl.
  rewrite (bool_decide_eq_false_2 (VK_SUCCESS ≠ VK_SUCCESS)) by (intros N; by apply N).
  apply wpC_bind. eapply (wpC_set_pool_at 1); [gsimpl; reflexivity|]. gsimpl. list_ins. gsimpl.
  rewrite (bool_decide_eq_false_2 (hd _ _ ≠ VK_SUCCESS)) by (intros N; by apply N).
  (* Transfer pool *)
  apply wpC_bind, wpC_gets. gsimpl. unfold w1'. wsimpl.
  match goal with |- wpC _ _ _ ?w2 => set (w2' := w2) end.
  assert (Hres2 : next_result w2' = hd VK_SUCCESS (drop 2 (vk_results (drv w)))).
  { unfold next_result, w2'. wsimpl. by destruct (vk_results (drv w)) as [|? [|? ?]]. }
  apply wpC_bind, wpC_vkCreateCommandPool; [done | |]; rewrite Hres2.
  { intros Hko. cbn [out_pool]. apply wpC_bind, wpC_ret.
    rewrite !(bool_decide_eq_true_2 _ Hko). apply wpC_bind.
    apply (shutdown_after_pools _ g _ _ [n; n + 1; 0]); unfold w2'; wsimpl; gsimpl;
      cbn [fmap list_fmap]; gsimpl; try done.
    - cbn. gsimpl. by rewrite Hc.
    - intros i h Hi. pool_index i Hi; subst h; [right | right | by left..].
      + split; [set_solver|]. rewrite <- (Z.add_0_r n). by apply Hfresh.
      + split; [set_solver|]. by apply Hfresh.
    - intros i j h Hij Hi Hj. pool_index i Hi; pool_index j Hj; unfold VK_NULL_HANDLE in *; lia.
    - rewrite !filter_cons_True by (unfold VK_NULL_HANDLE; lia).
      rewrite !filter_cons_False by (intros N; by apply N). set_solver.
    - intros g' Hz Hl3 Hlp Hlb Hrest. apply wpC_ret. allsimpl.
      split_and!; try done.
      split_and!; allsimpl;
        [unfold n in *; lia | intros h Hh; rewrite Hlp in Hh; apply Hlt in Hh; unfold n in *; lia
         | intros bb pp Hbb; rewrite Hlb in Hbb; rewrite Hlp; by eapply Hwfb]. }
  intros Hok2. cbn [out_pool type_index].
  apply wpC_bind. eapply (wpC_set_pool_at 2); [gsimpl; reflexivity|]. gsimpl. list_ins. gsimpl.
  rewrite (bool_decide_eq_false_2 (VK_SUCCESS ≠ VK_SUCCESS)) by (intros N; by apply N).
  apply wpC_bind. eapply (wpC_set_pool_at 2); [gsimpl; reflexivity|]. gsimpl. list_ins. gsimpl.
  rewrite (bool_decide_eq_false_2 (hd _ _ ≠ VK_SUCCESS)) by (intros N; by apply N).
  cbn [default]. unfold w2'. wsimpl.
  (* The first allocation of the frame table *)
  match goal with |- wpC _ _ _ ?w3 => set (w3' := w3) end.
  apply wpC_bind. unfold for_u32C at 1.
  change (Z.to_nat (VE_MAX_FRAMES_IN_FLIGHT - 0)) with 3%nat. cbn [for_rangeC].
  apply wpC_bind. unfold for_u32C at 1. change (Z.to_nat (3 - 0)) with 3%nat. cbn [for_rangeC].
  apply wpC_bind, wpC_bind, wpC_allocate_uninitialised; [done | done |].
  apply wpC_bind, wpC_lift.
  set (w4' := set_g_frame_command_buffers
                (replicate (Z.to_nat VE_MAX_FRAMES_IN_FLIGHT) (replicate 3 0)) w3').
  exists (), w4'. split.
  { unfold set_frame_table_at. replace (g_frame_command_buffers w3') with
      (replicate (Z.to_nat VE_MAX_FRAMES_IN_FLIGHT) (replicate 3 0)) by done.
    reflexivity. }
  apply wpC_bind, wpC_lift. exists 0, w4'. split; [by apply frame_table_at_zero|].
  rewrite bool_decide_eq_true_2 by done. apply wpC_bind.
  apply (shutdown_after_pools _ g _ _ [n; n + 1; n + 1 + 1]);
    unfold w4', w3'; wsimpl; gsimpl; cbn [fmap list_fmap]; gsimpl; try done.
  - intros i h Hi. pool_index i Hi; subst h; right.
    + split; [set_solver|]. rewrite <- (Z.add_0_r n). by apply Hfresh.
    + split; [set_solver|]. by apply Hfresh.
    + split; [set_solver|]. rewrite <- Z.add_assoc. by apply Hfresh.
  - intros i j h Hij Hi Hj. pool_index i Hi; pool_index j Hj; unfold VK_NULL_HANDLE in *; lia.
  - rewrite !filter_cons_True by (unfold VK_NULL_HANDLE; lia). set_solver.
  - intros g' Hz Hl3 Hlp Hlb Hrest. do 4 apply wpC_ret. allsimpl.
    split_and!; try done.
      split_and!; allsimpl;
        [unfold n in *; lia | intros h Hh; rewrite Hlp in Hh; apply Hlt in Hh; unfold n in *; lia
         | intros bb pp Hbb; rewrite Hlb in Hbb; rewrite Hlp; by eapply Hwfb].
Qed.

(** [ve_command_buffer_init] cannot succeed from the state the static
    initialisers leave.  It returns the code of the first command pool the
    driver refuses; when the driver grants all three it returns
    VK_ERROR_OUT_OF_DEVICE_MEMORY, because the first
    [ve_command_buffer_allocate] gets no pool from
    [ve_command_buffer_get_pool] while [g_initialized] is still false.
    Either way the pools it created are destroyed again, the frame table
    stays empty and [g_initialized] stays false. *)
Theorem command_buffer_init_never_succeeds g w :
  cmd_clean g w → cmd_wf g w → device (g_vulkan_context w) ≠ VK_NULL_HANDLE →
  ∃ r g' w', ve_command_buffer_init g w = Ret ((r, g'), w')
    ∧ r = default VK_ERROR_OUT_OF_DEVICE_MEMORY (first_pool_failure (vk_results (drv w)))
    ∧ r ≠ VK_SUCCESS
    ∧ g_initialized w' = false
    ∧ cmd_clean g' w'
    ∧ live_pools g' = live_pools g ∧ live_buffers g' = live_buffers g
    ∧ live (drv w') = live (drv w) ∧ mem w' = mem w.
Proof.
  intros Hclean Hwf Hdev.
  destruct (wpC_init_clean g w Hclean Hwf Hdev)
    as (r & g' & w' & E & Hr & Hne & Hc & _ & Hlp & Hlb & Hmem & _ & Hlive & _).
  exists r, g', w'. split; [exact E|]. split_and!; try done. by destruct Hc.
Qed.

Lemma command_buffer_init_never_succeeds_witness :
  let w := fresh_cmd_world [] in
  ∃ g' w', ve_command_buffer_init sample_cmd_globals w
           = Ret ((VK_ERROR_OUT_OF_DEVICE_MEMORY, g'), w')
    ∧ g_initialized w' = false
    ∧ live_pools g' = ∅.
Proof.
  intros w.
  assert (Hclean : cmd_clean sample_cmd_globals w).
  { split_and!; try reflexivity. intros p Hp.
    apply list_elem_of_In in Hp. cbn in Hp. by destruct Hp as [<-|[<-|[<-|[]]]]. }
  assert (Hwf : cmd_wf sample_cmd_globals w).
  { split_and!; [reflexivity | intros h Hh; by apply elem_of_empty in Hh | intros b p Hb; done]. }
  destruct (command_buffer_init_never_succeeds sample_cmd_globals w Hclean Hwf
              ltac:(discriminate)) as (r & g' & w' & E & -> & _ & Hi & _ & Hlp & _).
  exists g', w'. by split_and!.
Defined.

(** One call while the file is not initialised. *)
Lemma wpC_run_cmd_op o g w :
  cmd_clean g w → cmd_wf g w → device (g_vulkan_context w) ≠ VK_NULL_HANDLE →
  wpC (run_cmd_op o) (λ r g' w',
    uninitialised_answer o r
    ∧ cmd_clean g' w' ∧ cmd_wf g' w'
    ∧ g_vulkan_context w' = g_vulkan_context w
    ∧ live_pools g' = live_pools g ∧ live_buffers g' = live_buffers g) g w.
Proof.
  intros Hclean Hwf Hdev. destruct o as [| |t level|t]; cbn [run_cmd_op].
  - apply wpC_bind. eapply wpC_mono; [by apply wpC_init_clean|].
    intros r g' w' (_ & Hne & Hc & Hwf' & Hlp & Hlb & _ & _ & _ & Hctx & _).
    apply wpC_ret. split_and!; try done. by exists r.
  - destruct (cmd_clean_pools g w Hclean) as (a & b & c & Hpools & Ha & Hb & Hc).
    destruct Hclean as (Hinit & Htable & Hlen & Hzero).
    destruct Hwf as (Hn & Hlt & Hwfb).
    assert (H0 : VK_NULL_HANDLE ∉ live_pools g).
    { intros Hin. apply Hlt in Hin. unfold VK_NULL_HANDLE in Hin. lia. }
    apply wpC_bind.
    apply (shutdown_after_pools _ g g w [0; 0; 0]); try done.
    + rewrite Hpools. cbn. by rewrite Ha, Hb, Hc.
    + intros i h Hi. left. pool_index i Hi; by subst h.
    + intros i j h _ Hi _. pool_index i Hi; by subst h.
    + rewrite !filter_cons_False by (intros N; by apply N). set_solver.
    + intros g' Hz Hl3 Hlp Hlb _. apply wpC_ret. allsimpl. split_and!; try done.
      split_and!; allsimpl; [done | |].
      * intros h Hh. rewrite Hlp in Hh. by apply Hlt.
      * intros bb pp Hbb. rewrite Hlb in Hbb. rewrite Hlp. by eapply Hwfb.
  - apply wpC_bind, wpC_allocate_uninitialised; [done | by destruct Hclean |].
    apply wpC_ret. by split_and!.
  - apply wpC_bind, wpC_lift. exists 0, w. split.
    + unfold ve_command_buffer_begin_frame, ve_command_buffer_get_current.
      rewrite bind_assoc, bind_gets. destruct Hclean as [-> _]. cbn [negb orb].
      by rewrite bind_ret_l, bool_decide_eq_true_2.
    + apply wpC_ret. by split_and!.
Qed.

(** From the static initial state no sequence of calls gets
    command_buffer.c initialised: every [ve_command_buffer_init] in it
    returns an error, every [ve_command_buffer_allocate] and
    [ve_command_buffer_begin_frame] returns NULL, and the driver's command
    pools and command buffers are the same at the end. *)
Theorem command_buffers_stay_uninitialised ops g w :
  cmd_clean g w → cmd_wf g w → device (g_vulkan_context w) ≠ VK_NULL_HANDLE →
  ∃ rs g' w', run_cmd_ops ops g w = Ret ((rs, g'), w')
    ∧ Forall2 uninitialised_answer ops rs
    ∧ g_initialized w' = false
    ∧ live_pools g' = live_pools g ∧ live_buffers g' = live_buffers g.
Proof.
  revert g w. induction ops as [|o ops IH]; intros g w Hclean Hwf Hdev.
  - exists [], g, w. split; [reflexivity|]. split_and!; try done. by destruct Hclean.
  - destruct (wpC_run_cmd_op o g w Hclean Hwf Hdev)
      as (r & g1 & w1 & E1 & Hr & Hc1 & Hwf1 & Hctx1 & Hlp1 & Hlb1).
    destruct (IH g1 w1 Hc1 Hwf1 ltac:(by rewrite Hctx1)) as (rs & g' & w' & E & Hrs & Hi & Hlp & Hlb).
    exists (r :: rs), g', w'. split.
    + cbn [run_cmd_ops]. unfold bindC at 1, bind. rewrite E1.
      unfold bindC, bind. by rewrite E.
    + split_and!; [by constructor | done | congruence | congruence].
Qed.

Lemma command_buffers_stay_uninitialised_witness :
  let w := fresh_cmd_world [VK_SUCCESS; VK_ERROR_OUT_OF_HOST_MEMORY] in
  let ops := [CmdInit; CmdBeginFrame VE_COMMAND_BUFFER_GRAPHICS; CmdInit;
              CmdAllocate VE_COMMAND_BUFFER_COMPUTE 0; CmdShutdown] in
  ∃ rs g' w', run_cmd_ops ops sample_cmd_globals w = Ret ((rs, g'), w')
    ∧ Forall2 uninitialised_answer ops rs
    ∧ g_initialized w' = false.
Proof.
  intros w ops.
  assert (Hclean : cmd_clean sample_cmd_globals w).
  { split_and!; try reflexivity. intros p Hp.
    apply list_elem_of_In in Hp. cbn in Hp. by destruct Hp as [<-|[<-|[<-|[]]]]. }
  assert (Hwf : cmd_wf sample_cmd_globals w).
  { split_and!; [reflexivity | intros h Hh; by apply elem_of_empty in Hh | intros b p Hb; done]. }
  destruct (command_buffers_stay_uninitialised ops sample_cmd_globals w Hclean Hwf
              ltac:(discriminate)) as (rs & g' & w' & E & Hrs & Hi & _).
  exists rs, g', w'. split; [exact E|]. split; [exact Hrs | exact Hi].
Defined.

(** ** command_buffer.c: recording and submitting *)

Lemma wp_deref_cmd cmd c (Q : ve_command_buffer → world → Prop) w :
  cmd_store w !! cmd = Some c → Q c w → wp (deref_cmd cmd) Q w.
Proof. intros Hc HQ. exists c, w. split; [by apply deref_cmd_eq | done]. Qed.

Lemma wp_vk_pop_result (Q : Z → world → Prop) w :
  Q (next_result w) (set_drv (drv_pop_result (drv w)) w) → wp vk_pop_result Q w.
Proof. intros HQ. by eexists _, _. Qed.

Lemma wp_set_is_recording cmd c b (Q : unit → world → Prop) w :
  cmd_store w !! cmd = Some c →
  Q () (set_cmd_store (<[cmd := with_is_recording b c]> (cmd_store w)) w) →
  wp (set_is_recording cmd b) Q w.
Proof.
  intros Hc HQ. unfold set_is_recording.
  apply wp_bind, (wp_deref_cmd _ c); [done|]. by apply wp_modify.
Qed.

Lemma with_is_recording_id c : with_is_recording (is_recording c) c = c.
Proof. by destruct c. Qed.

(** Begin and end on a buffer that is not recording.  Each call returns
    the driver's answer.  A begin the driver refuses leaves the buffer as
    it was; a successful one puts it in the recording state, and the end
    that follows takes it out again, exactly when the driver accepts it;
    the store then is what it was before the begin. *)
Theorem begin_end_round_trip cmd c flags w :
  cmd ≠ 0 → cmd_store w !! cmd = Some c → is_recording c = false →
  ∃ w1, ve_command_buffer_begin cmd flags w = Ret (next_result w, w1)
    ∧ (next_result w ≠ VK_SUCCESS → cmd_store w1 = cmd_store w)
    ∧ (next_result w = VK_SUCCESS →
         cmd_store w1 = <[cmd := with_is_recording true c]> (cmd_store w)
         ∧ ∃ w2, ve_command_buffer_end cmd w1 = Ret (next_result w1, w2)
             ∧ cmd_store w2 = if bool_decide (next_result w1 = VK_SUCCESS)
                              then cmd_store w else cmd_store w1).
Proof.
  intros Hnz Hc Hrec.
  assert (wp (ve_command_buffer_begin cmd flags)
            (λ r w1, r = next_result w
               ∧ (next_result w ≠ VK_SUCCESS → cmd_store w1 = cmd_store w)
               ∧ (next_result w = VK_SUCCESS →
                    cmd_store w1 = <[cmd := with_is_recording true c]> (cmd_store w)
                    ∧ wp (ve_command_buffer_end cmd)
                        (λ r2 w2, r2 = next_result w1
                           ∧ cmd_store w2 = if bool_decide (next_result w1 = VK_SUCCESS)
                                            then cmd_store w else cmd_store w1) w1)) w)
    as (r & w1 & E1 & -> & Hko & Hok).
  { unfold ve_command_buffer_begin. apply wp_bind.
    rewrite (bool_decide_eq_false_2 _ Hnz). apply wp_bind, (wp_deref_cmd _ c); [done|].
    apply wp_ret. rewrite Hrec. cbn [negb]. apply wp_bind, wp_VE_ASSERT_true.
    apply wp_bind, (wp_deref_cmd _ c); [done|].
    apply wp_bind, wp_vk_pop_result. apply wp_bind.
    destruct (decide (next_result w = VK_SUCCESS)) as [Hok|Hko].
    - rewrite (bool_decide_eq_true_2 _ Hok).
      apply (wp_set_is_recording _ c); [done|]. apply wp_ret. wsimpl.
      split; [done|]. split; [done|]. intros _. split; [done|].
      set (c1 := with_is_recording true c).
      match goal with |- wp _ _ ?x => set (w1 := x) end.
      assert (Hc1 : cmd_store w1 !! cmd = Some c1) by apply lookup_insert_eq.
      unfold ve_command_buffer_end. apply wp_bind.
      rewrite (bool_decide_eq_false_2 _ Hnz). apply wp_bind, (wp_deref_cmd _ c1); [done|].
      apply wp_ret. cbn [c1 with_is_recording is_recording].
      apply wp_bind, wp_VE_ASSERT_true. apply wp_bind, (wp_deref_cmd _ c1); [done|].
      apply wp_bind, wp_vk_pop_result. apply wp_bind.
      destruct (decide (next_result w1 = VK_SUCCESS)) as [Hok2|Hko2].
      + rewrite !(bool_decide_eq_true_2 _ Hok2).
        apply (wp_set_is_recording _ c1); [done|]. apply wp_ret. wsimpl.
        split; [done|]. unfold w1. wsimpl. rewrite insert_insert_eq.
        replace (with_is_recording false c1) with c.
        * by apply insert_id.
        * unfold c1. destruct c. cbn in *. by subst.
      + rewrite !(bool_decide_eq_false_2 _ Hko2). by apply wp_ret, wp_ret.
    - rewrite (bool_decide_eq_false_2 _ Hko). apply wp_ret, wp_ret. wsimpl.
      split; [done|]. split; [done|]. intros Hok. by destruct Hko. }
  exists w1. split; [exact E1|]. split; [exact Hko|]. intros Hs.
  destruct (Hok Hs) as (Hst & r2 & w2 & E2 & -> & Hst2). split; [exact Hst|].
  by exists w2.
Qed.

Lemma begin_end_round_trip_witness :
  let w := hand_built_cmd_world VE_ASSERT_MODE_DEBUG_BREAK [] false in
  ∃ w1 w2, ve_command_buffer_begin 1 0 w = Ret (VK_SUCCESS, w1)
    ∧ ve_command_buffer_end 1 w1 = Ret (VK_SUCCESS, w2)
    ∧ cmd_store w2 = cmd_store w.
Proof.
  intros w.
  destruct (begin_end_round_trip 1 (mkCommandBuffer 51 VE_COMMAND_BUFFER_GRAPHICS false false)
              0 w ltac:(lia) eq_refl eq_refl) as (w1 & E1 & _ & Hok).
  destruct (Hok eq_refl) as (Hst & w2 & E2 & Hst2).
  exists w1, w2. split; [exact E1|].
  assert (Hr : next_result w1 = VK_SUCCESS).
  { injection E1 as <-. reflexivity. }
  rewrite Hr in E2, Hst2. split; [exact E2 | exact Hst2].
Defined.

(** [ve_command_buffer_end_frame] never reaches the assertion of
    [ve_command_buffer_end]: for a NULL buffer and for a buffer that is
    not recording it returns VK_ERROR_OUT_OF_HOST_MEMORY and changes
    nothing, the driver is not called; for a recording buffer it returns
    the driver's answer and the buffer leaves the recording state exactly
    when that answer is VK_SUCCESS.  This holds in every assert mode. *)
Theorem end_frame_guards_end cmd w :
  (cmd ≠ 0 → is_Some (cmd_store w !! cmd)) →
  ∃ r w', ve_command_buffer_end_frame cmd w = Ret (r, w')
    ∧ match (if bool_decide (cmd = 0) then None else cmd_store w !! cmd) with
      | Some c =>
          if is_recording c then
            r = next_result w
            ∧ w' = (if bool_decide (r = VK_SUCCESS)
                    then set_cmd_store (<[cmd := with_is_recording false c]> (cmd_store w))
                    else id) (set_drv (drv_pop_result (drv w)) w)
          else r = VK_ERROR_OUT_OF_HOST_MEMORY ∧ w' = w
      | None => r = VK_ERROR_OUT_OF_HOST_MEMORY ∧ w' = w
      end.
Proof.
  intros Hvalid. unfold ve_command_buffer_end_frame.
  destruct (decide (cmd = 0)) as [Hz|Hnz].
  { rewrite !(bool_decide_eq_true_2 _ Hz). rewrite bind_ret_l. cbn [negb].
    by exists VK_ERROR_OUT_OF_HOST_MEMORY, w. }
  rewrite !(bool_decide_eq_false_2 _ Hnz). destruct (Hvalid Hnz) as [c Hc]. rewrite Hc.
  rewrite bind_assoc, (bind_Ret _ _ _ _ _ (deref_cmd_eq w cmd c Hc)), bind_ret_l.
  destruct (is_recording c) eqn:Hrec; cbn [negb].
  2: { by exists VK_ERROR_OUT_OF_HOST_MEMORY, w. }
  assert (wp (ve_command_buffer_end cmd)
            (λ r w', r = next_result w
               ∧ w' = (if bool_decide (r = VK_SUCCESS)
                       then set_cmd_store (<[cmd := with_is_recording false c]> (cmd_store w))
                       else id) (set_drv (drv_pop_result (drv w)) w)) w)
    as (r & w' & E & H); [|by exists r, w'].
  unfold ve_command_buffer_end. apply wp_bind.
  rewrite (bool_decide_eq_false_2 _ Hnz). apply wp_bind, (wp_deref_cmd _ c); [done|].
  apply wp_ret. rewrite Hrec. apply wp_bind, wp_VE_ASSERT_true.
  apply wp_bind, (wp_deref_cmd _ c); [done|].
  apply wp_bind, wp_vk_pop_result. apply wp_bind.
  case_bool_decide as Hr.
  - apply (wp_set_is_recording _ c); [done|]. apply wp_ret. by rewrite bool_decide_eq_true_2.
  - apply wp_ret, wp_ret. by rewrite bool_decide_eq_false_2.
Qed.

Lemma end_frame_guards_end_witness :
  let w := hand_built_cmd_world VE_ASSERT_MODE_DEBUG_BREAK [] false in
  ve_command_buffer_end_frame 1 w = Ret (VK_ERROR_OUT_OF_HOST_MEMORY, w)
  ∧ ve_command_buffer_end 1 w = Fatal.
Proof.
  intros w. split; [|reflexivity].
  destruct (end_frame_guards_end 1 w) as (r & w' & E & Hr).
  { intros _. by eexists. }
  cbn in Hr. destruct Hr as [-> ->]. exact E.
Defined.




(** ** swapchain.c: tearing a chain down *)

(** The loop "destroy every non-NULL handle of the array". *)
Lemma wp_destroy_filled_checked dev p n0 (N : nat) o base (Q : unit → world → Prop) w :
  dev ≠ VK_NULL_HANDLE → 0 < n0 →
  heap (mem w) !! p = Some (filled n0 N N) →
  range_live n0 (n0 + Z.of_nat N) o base (live (drv w)) →
  (∀ h, n0 ≤ h → base !! h = None) →
  (∀ d, live d = base → next_handle d = next_handle (drv w) →
        vk_results d = vk_results (drv w) → idle_waits d = idle_waits (drv w) →
        vk_indices d = vk_indices (drv w) → Q () (set_drv d w)) →
  wp (iter_u32 0 (Z.of_nat N)
        (λ j, v ← load_handle p j;
              if bool_decide (v ≠ VK_NULL_HANDLE) then vk_destroy dev v else ret ())) Q w.
Proof.
  intros Hdev Hn0 Hp Hlive Hbase HQ.
  apply (wp_iter_u32 (λ j w1,
           0 ≤ j ≤ Z.of_nat N ∧ mem w1 = mem w
           ∧ (∃ d, w1 = set_drv d w ∧ next_handle d = next_handle (drv w)
                   ∧ vk_results d = vk_results (drv w) ∧ idle_waits d = idle_waits (drv w)
                   ∧ vk_indices d = vk_indices (drv w)
                   ∧ range_live (n0 + j) (n0 + Z.of_nat N) o base (live d)))).
  - lia.
  - split; [lia|]. split; [done|]. exists (drv w). split; [by destruct w|].
    split_and!; try done. by rewrite Z.add_0_r.
  - intros j w1 Hj (Hjk & Hmem & d & -> & Hnext & Hscr & Hidle & Hidx & Hr).
    apply wp_bind.
    eapply (wp_load_handle p j (filled n0 N N) (n0 + j)).
    { wsimpl. exact Hp. }
    { rewrite filled_lookup by lia. f_equal. f_equal. lia. }
    rewrite bool_decide_eq_true_2 by (unfold VK_NULL_HANDLE; lia).
    apply wp_vk_destroy; [done|]. wsimpl.
    split; [lia|]. split; [done|]. eexists. split; [reflexivity|]. wsimpl.
    split_and!; try done.
    rewrite Z.add_assoc. apply range_live_delete; [apply Hbase; lia | done].
  - intros w1 (_ & _ & d & -> & Hnext & Hscr & Hidle & Hidx & Hr). apply HQ; try done.
    eapply range_live_nil; [|exact Hr]. lia.
Qed.

Lemma range_live_above lo hi o base m h :
  range_live lo hi o base m → hi ≤ h → m !! h = base !! h.
Proof. intros H Hh. rewrite (H h). by rewrite bool_decide_eq_false_2 by lia. Qed.

(** [ve_swapchain_destroy] on a built chain. *)
Lemma wp_swapchain_destroy live0 heap0 fb (Q : unit → world → Prop) w :
  device (g_vulkan_context w) ≠ VK_NULL_HANDLE →
  chain_state live0 heap0 fb w →
  (∀ d m, live d = live0 → heap m = heap0 →
          next_handle d = next_handle (drv w) → vk_results d = vk_results (drv w) →
          vk_indices d = vk_indices (drv w) →
          next_block m = next_block (mem w) → alloc_results m = alloc_results (mem w) →
          Q () (set_g_swapchain (torn_down (g_swapchain w)) (set_mem m (set_drv d w)))) →
  wp ve_swapchain_destroy Q w.
Proof.
  intros Hdev (imgs & nv & live1 & Hcount & Hchain & Himgs & Hviews & Hiv & Hnv & Hlt
               & Hfresh & Hfrom & Hrange & Hhi & Hhv & Hfb) HQ.
  set (s := g_swapchain w) in *. set (N := Z.to_nat (image_count s)) in *.
  set (heap1 := <[image_views s := filled nv N N]> (<[images s := CHandle <$> imgs]> heap0)) in *.
  assert (HN : Z.of_nat N = image_count s) by (unfold N; lia).
  unfold ve_swapchain_destroy. apply wp_bind, wp_gets.
  apply wp_bind. unfold ve_vulkan_wait_idle. apply wp_bind, wp_gets.
  rewrite (bool_decide_eq_true_2 _ Hdev). unfold vkDeviceWaitIdle.
  rewrite (bool_decide_eq_false_2 _ Hdev). apply wp_modify.
  set (w0 := set_drv (drv_idle (drv w)) w).
  apply wp_bind, wp_gets. apply wp_bind.
  apply (wp_mono _ (λ _ w1, ∃ d m,
           w1 = set_g_swapchain (set_framebuffers 0 s) (set_mem m (set_drv d w))
           ∧ live d = live1 ∧ heap m = heap1
           ∧ next_handle d = next_handle (drv w) ∧ vk_results d = vk_results (drv w)
           ∧ vk_indices d = vk_indices (drv w)
           ∧ next_block m = next_block (mem w) ∧ alloc_results m = alloc_results (mem w))).
  { change (framebuffers (g_swapchain w0)) with (framebuffers s).
    destruct fb as [|nf|l].
    - destruct Hfb as (Hz & Hlive & Hheap). rewrite Hz.
      rewrite bool_decide_eq_false_2 by (intros N'; by apply N'). apply wp_ret.
      exists (drv w0), (mem w). split.
      { unfold w0. destruct w as [? ? ? ? ? ? [] ? ? ? ? ?]. cbn in *. by rewrite Hz. }
      by split_and!.
    - destruct Hfb as (Hnz & Howns & Hfi & Hfv & Hhf & Hnf & Hfr & Hheap).
      rewrite (bool_decide_eq_true_2 _ Hnz). apply wp_bind, wp_gets.
      change (g_owns_framebuffers w0) with (g_owns_framebuffers w). rewrite Howns.
      apply wp_bind. apply wp_bind, wp_gets.
      change (image_count (g_swapchain w0)) with (image_count s). rewrite <- HN.
      apply (wp_destroy_filled_checked _ _ nf N Framebuffer live1); [done | lia | | done | |].
      { unfold w0. wsimpl. rewrite Hheap. apply lookup_insert_eq. }
      { intros h Hh. rewrite (range_live_above _ _ _ _ _ h Hrange) by lia.
        rewrite lookup_insert_ne by lia. apply Hfrom. lia. }
      intros d Hd Hnext Hscr Hidle Hidx. apply wp_bind, wp_ve_free; [done|].
      apply wp_modify. unfold w0. wsimpl.
      exists d, (mem_free (framebuffers s) (mem w)). split; [reflexivity|].
      split_and!; try done. wsimpl. rewrite Hheap. apply delete_insert_id.
      unfold heap1. by rewrite !lookup_insert_ne.
    - destruct Hfb as (Hnz & Howns & Hfi & Hfv & Hhf & Hlive & Hheap).
      rewrite (bool_decide_eq_true_2 _ Hnz). apply wp_bind, wp_gets.
      change (g_owns_framebuffers w0) with (g_owns_framebuffers w). rewrite Howns.
      apply wp_bind, wp_ret. apply wp_bind, wp_ve_free; [done|].
      apply wp_modify. unfold w0. wsimpl.
      exists (drv_idle (drv w)), (mem_free (framebuffers s) (mem w)). split; [reflexivity|].
      split_and!; try done. wsimpl. rewrite Hheap. apply delete_insert_id.
      unfold heap1. by rewrite !lookup_insert_ne. }
  intros [] w1 (d & m & -> & Hd & Hm & Hnext & Hscr & Hidx & Hnb & Hal).
  (* Destroy image views *)
  apply wp_bind, wp_gets. wsimpl. fold s. rewrite (bool_decide_eq_true_2 _ Hviews).
  apply wp_bind. apply wp_bind, wp_gets. wsimpl. fold s. rewrite <- HN. apply wp_bind.
  apply (wp_destroy_filled_checked _ _ nv N ImageView (<[swapchain s := Swapchain imgs]> live0));
    [done | done | | wsimpl; by rewrite Hd | |].
  { wsimpl. rewrite Hm. apply lookup_insert_eq. }
  { intros h Hh. rewrite lookup_insert_ne by lia. by apply Hfrom. }
  intros d2 Hd2 Hnext2 Hscr2 Hidle2 Hidx2. wsimpl.
  apply wp_bind, wp_ve_free; [done|]. apply wp_modify. wsimpl.
  (* Destroy images *)
  apply wp_bind, wp_gets. wsimpl. fold s. rewrite (bool_decide_eq_true_2 _ Himgs).
  apply wp_bind. apply wp_bind, wp_ve_free; [done|]. apply wp_modify. wsimpl.
  (* Destroy swapchain *)
  apply wp_bind, wp_gets. wsimpl. fold s. rewrite (bool_decide_eq_true_2 _ Hchain).
  apply wp_bind. apply wp_bind. unfold vkDestroySwapchainKHR.
  apply wp_vk_destroy; [done|]. apply wp_modify. wsimpl.
  apply wp_bind, wp_modify, wp_modify. wsimpl.
  match goal with |- Q () ?x =>
    replace x with (set_g_swapchain (torn_down s)
                      (set_mem (mem_free (images s) (mem_free (image_views s) m))
                         (set_drv (drv_delete (swapchain s) d2) w))) by reflexivity
  end.
  apply HQ; wsimpl; try congruence.
  - rewrite Hd2. by apply delete_insert_id.
  - rewrite Hm. unfold heap1. rewrite delete_insert_id.
    + by apply delete_insert_id.
    + by rewrite lookup_insert_ne.
Qed.

(** ** vulkan_core.c: querying the surface *)

Lemma wp_vk_fill p cells l (Q : unit → world → Prop) w :
  p ≠ 0 → heap (mem w) !! p = Some l →
  Q () (set_mem (mem_write p (take (length l) cells ++ drop (length cells) l) (mem w)) w) →
  wp (vk_fill p cells) Q w.
Proof.
  intros Hp Hl HQ. eexists (), _. split; [|exact HQ].
  unfold vk_fill. by rewrite (bool_decide_eq_false_2 _ Hp), Hl.
Qed.

Lemma wf_mem_fresh_block m : wf_mem m → heap m !! next_block m = None.
Proof.
  intros [_ Hall]. destruct (heap m !! next_block m) eqn:E; [|done].
  apply (map_Forall_lookup_1 _ _ _ _ Hall) in E. lia.
Qed.

Lemma wf_mem_null m : wf_mem m → heap m !! 0 = None.
Proof.
  intros [_ Hall]. destruct (heap m !! 0) eqn:E; [|done].
  apply (map_Forall_lookup_1 _ _ _ _ Hall) in E. lia.
Qed.

Lemma wf_mem_array_query cells m : wf_mem m → wf_mem (array_query cells m).2.
Proof.
  intros [Hpos Hall]. unfold array_query. case_bool_decide; [done|].
  destruct (hd true (alloc_results m)); cbn; split; cbn; try done; [lia|].
  apply map_Forall_insert_2; [lia|].
  eapply map_Forall_impl; [exact Hall|]. cbn. intros. lia.
Qed.

(** One of the two array queries of [ve_vulkan_query_swapchain_support]. *)
Lemma wp_array_query (cells : list cell) (Q : Z → world → Prop) w :
  wf_mem (mem w) →
  Q (array_query cells (mem w)).1 (set_mem (array_query cells (mem w)).2 w) →
  wp (if bool_decide (0 < Z.of_nat (length cells)) then
        p ← ve_allocate (Z.of_nat (length cells));
        vk_fill p cells;;
        ret p
      else ret 0) Q w.
Proof.
  intros Hwf HQ. unfold array_query in HQ. destruct cells as [|c cells].
  { rewrite bool_decide_eq_true_2 in HQ by done. cbn in HQ.
    rewrite bool_decide_eq_false_2 by (cbn; lia). apply wp_ret.
    by rewrite (set_mem_same w). }
  rewrite bool_decide_eq_false_2 in HQ by done.
  rewrite bool_decide_eq_true_2 by (cbn [length]; lia).
  apply wp_bind, wp_ve_allocate.
  - cbn [length]. lia.
  - intros _ Hal. rewrite Hal in HQ. cbn in HQ.
    apply wp_bind. eexists (), _. split; [reflexivity|]. by apply wp_ret.
  - intros _ Hal. rewrite Hal in HQ. cbn in HQ.
    apply wp_bind. eapply wp_vk_fill.
    { destruct Hwf. lia. }
    { wsimpl. apply lookup_insert_eq. }
    apply wp_ret.
    match goal with |- Q _ ?x =>
      assert (x = set_mem (mkHost (<[next_block (mem w) := c :: cells]> (heap (mem w)))
                                  (next_block (mem w) + 1) (tl (alloc_results (mem w)))) w)
        as ->; [|exact HQ]
    end.
    unfold mem_write, set_mem. wsimpl. rewrite insert_insert_eq.
    rewrite length_replicate, Nat2Z.id, firstn_all, drop_replicate.
    by rewrite Nat.sub_diag, app_nil_r.
Qed.

Lemma wp_query_swapchain_support phys (Q : ve_swapchain_support → world → Prop) w :
  surface (g_vulkan_context w) ≠ VK_NULL_HANDLE → wf_mem (mem w) →
  (let fq := array_query (CFormat <$> rep_formats (report w)) (mem w) in
   let mq := array_query (CMode <$> rep_present_modes (report w)) fq.2 in
   Q (mkSupport (rep_capabilities (report w))
        fq.1 (Z.of_nat (length (rep_formats (report w))))
        mq.1 (Z.of_nat (length (rep_present_modes (report w)))))
     (set_mem mq.2 w)) →
  wp (ve_vulkan_query_swapchain_support phys) Q w.
Proof.
  intros Hsurf Hwf HQ. unfold ve_vulkan_query_swapchain_support.
  apply wp_bind, wp_gets. rewrite (bool_decide_eq_true_2 _ Hsurf).
  apply wp_bind, wp_gets. apply wp_bind, wp_gets. apply wp_bind.
  rewrite <- (length_fmap CFormat). apply wp_array_query; [done|].
  apply wp_bind, wp_gets. apply wp_bind. wsimpl.
  rewrite <- (length_fmap CMode (rep_present_modes _)). apply wp_array_query.
  { wsimpl. by apply wf_mem_array_query. }
  apply wp_ret. wsimpl. rewrite !length_fmap. exact HQ.
Qed.

Lemma array_query_facts cells m :
  wf_mem m →
  let p := (array_query cells m).1 in
  let m' := (array_query cells m).2 in
  (p = 0 ↔ cells = [] ∨ hd true (alloc_results m) = false)
  ∧ (p ≠ 0 → p = next_block m ∧ heap m' = <[p := cells]> (heap m) ∧ heap m !! p = None
             ∧ next_block m' = next_block m + 1)
  ∧ (p = 0 → heap m' = heap m ∧ next_block m' = next_block m).
Proof.
  intros Hwf. pose proof (wf_mem_fresh_block m Hwf) as Hfresh. destruct Hwf as [Hpos _].
  unfold array_query. case_bool_decide as Hc; cbn.
  - split_and!; [split; [by left | done] | done | done].
  - destruct (hd true (alloc_results m)) eqn:Hal; cbn.
    + split_and!; [|done|lia]. split; [lia|]. by intros [?|?].
    + split_and!; [|done|done]. split; [by right | done].
Qed.

(** [ve_vulkan_query_swapchain_support] always returns.  Without a
    surface it reports nothing and allocates nothing.  With a surface the
    two counts are the numbers of formats and present modes the surface
    reports, whether or not the arrays could be allocated: an array that
    could not be is NULL beside its non-zero count.  An array that is
    there is a fresh block holding exactly what the surface reports, and
    freeing both arrays gives back the heap from before the call. *)
Theorem query_swapchain_support_reports phys w :
  wf_mem (mem w) →
  ∃ s m', ve_vulkan_query_swapchain_support phys w = Ret (s, set_mem m' w)
    ∧ if bool_decide (surface (g_vulkan_context w) = VK_NULL_HANDLE)
      then s = mkSupport zero_capabilities 0 0 0 0 ∧ m' = mem w
      else
        let fmts := rep_formats (report w) in
        let modes := rep_present_modes (report w) in
        capabilities s = rep_capabilities (report w)
        ∧ format_count s = Z.of_nat (length fmts)
        ∧ present_mode_count s = Z.of_nat (length modes)
        ∧ (formats s = 0 ↔ fmts = [] ∨ hd true (alloc_results (mem w)) = false)
        ∧ (formats s ≠ 0 →
             heap m' !! formats s = Some (CFormat <$> fmts)
             ∧ heap (mem w) !! formats s = None)
        ∧ (present_modes s ≠ 0 →
             heap m' !! present_modes s = Some (CMode <$> modes)
             ∧ heap (mem w) !! present_modes s = None
             ∧ present_modes s ≠ formats s)
        ∧ (modes = [] → present_modes s = 0)
        ∧ delete (present_modes s) (delete (formats s) (heap m')) = heap (mem w).
Proof.
  intros Hwf.
  destruct (decide (surface (g_vulkan_context w) = VK_NULL_HANDLE)) as [Hs|Hs].
  { rewrite (bool_decide_eq_true_2 _ Hs). exists (mkSupport zero_capabilities 0 0 0 0), (mem w).
    split; [|done]. unfold ve_vulkan_query_swapchain_support.
    rewrite bind_gets, (bool_decide_eq_false_2 (_ ≠ _)) by (intros N; by apply N).
    by rewrite <- set_mem_same. }
  rewrite (bool_decide_eq_false_2 _ Hs).
  set (fmts := rep_formats (report w)). set (modes := rep_present_modes (report w)).
  set (fq := array_query (CFormat <$> fmts) (mem w)).
  set (mq := array_query (CMode <$> modes) fq.2).
  destruct (wp_query_swapchain_support phys
              (λ s w', s = mkSupport (rep_capabilities (report w)) fq.1
                             (Z.of_nat (length fmts)) mq.1 (Z.of_nat (length modes))
                       ∧ w' = set_mem mq.2 w) w Hs Hwf) as (s & w' & E & -> & ->); [done|].
  eexists _, _. split; [exact E|]. cbn [capabilities format_count present_mode_count
                                        formats present_modes]. cbv zeta.
  pose proof (wf_mem_array_query (CFormat <$> fmts) (mem w) Hwf) as Hwf1. fold fq in Hwf1.
  destruct (array_query_facts (CFormat <$> fmts) (mem w) Hwf) as (Hf0 & Hfnz & Hfz).
  destruct (array_query_facts (CMode <$> modes) fq.2 Hwf1) as (Hm0 & Hmnz & Hmz).
  fold fq in Hf0, Hfnz, Hfz. fold mq in Hm0, Hmnz, Hmz.
  pose proof (wf_mem_null _ Hwf) as Hnull.
  split_and!; try done.
  - rewrite Hf0. split; (intros [H|H]; [left | by right]).
    + by apply fmap_nil_inv in H.
    + by rewrite H.
  - intros Hnz. destruct (Hfnz Hnz) as (Hp & Hh & Hfr & Hnb). split; [|done].
    destruct (decide (mq.1 = 0)) as [Hz|Hmn].
    + destruct (Hmz Hz) as [-> _]. rewrite Hh. apply lookup_insert_eq.
    + destruct (Hmnz Hmn) as (Hp' & -> & _ & _). rewrite lookup_insert_ne by lia.
      rewrite Hh. apply lookup_insert_eq.
  - intros Hnz. destruct (Hmnz Hnz) as (Hp & Hh & Hfr & Hnb). split_and!.
    + rewrite Hh. apply lookup_insert_eq.
    + destruct (decide (fq.1 = 0)) as [Hz|Hfn].
      * destruct (Hfz Hz) as [Hh1 _]. by rewrite <- Hh1.
      * destruct (Hfnz Hfn) as (Hp1 & Hh1 & _ & Hnb1).
        rewrite Hh1 in Hfr. rewrite lookup_insert_ne in Hfr by lia. done.
    + destruct (decide (fq.1 = 0)) as [Hz|Hfn]; [congruence|].
      destruct (Hfnz Hfn) as (Hp1 & _ & _ & Hnb1). lia.
  - intros ->. apply Hm0. by left.
  - destruct (decide (mq.1 = 0)) as [Hz|Hmn].
    + rewrite Hz. destruct (Hmz Hz) as [-> _].
      destruct (decide (fq.1 = 0)) as [Hz1|Hfn].
      * rewrite Hz1. destruct (Hfz Hz1) as [-> _]. by rewrite !(delete_id (heap (mem w))) by done.
      * destruct (Hfnz Hfn) as (_ & -> & Hfr & _).
        rewrite delete_insert_id by done. by rewrite delete_id.
    + destruct (Hmnz Hmn) as (Hp & -> & Hfr & Hnb).
      destruct (decide (fq.1 = 0)) as [Hz1|Hfn].
      * rewrite Hz1. destruct (Hfz Hz1) as [Hh1 _]. rewrite Hh1 in *.
        rewrite delete_insert_ne by (intros N; by apply Hmn).
        rewrite (delete_id (heap (mem w))) by done. by rewrite delete_insert_id.
      * destruct (Hfnz Hfn) as (Hp1 & Hh1 & Hfr1 & Hnb1). rewrite Hh1 in *.
        rewrite delete_insert_ne by lia. rewrite (delete_insert_id (heap (mem w))) by done.
        rewrite delete_insert_id; [done|]. by rewrite lookup_insert_ne in Hfr by lia.
Qed.

Lemma query_swapchain_support_reports_witness :
  let w := set_mem (mkHost ∅ 1 [false]) (sample_world VE_ASSERT_MODE_DEBUG_BREAK []) in
  ∃ s m', ve_vulkan_query_swapchain_support 1 w = Ret (s, set_mem m' w)
    ∧ formats s = 0 ∧ format_count s = 2
    ∧ present_modes s ≠ 0 ∧ present_mode_count s = 1.
Proof.
  intros w.
  assert (Hwf : wf_mem (mem w)).
  { split; [reflexivity|]. apply (bool_decide_unpack _). vm_compute. exact I. }
  destruct (query_swapchain_support_reports 1 w Hwf) as (s & m' & E & H).
  rewrite bool_decide_eq_false_2 in H by discriminate.
  destruct H as (_ & Hfc & Hmc & Hf0 & _).
  exists s, m'. split; [exact E|].
  split; [apply Hf0; by right|]. split; [exact Hfc|]. split; [|exact Hmc].
  injection E as <- _. discriminate.
Defined.

(** ** swapchain.c: building a chain *)











Ltac chain_norm :=
  cbv [torn_down set_g_swapchain set_mem set_drv
       set_swapchain set_images set_image_views set_framebuffers set_format set_extent
       set_image_count set_current_image_index set_out_of_date
       swapchain images image_views framebuffers format extent image_count
       current_image_index out_of_date
       drv mem report g_assert_mode g_assert_callback g_vulkan_context g_swapchain
       g_owns_framebuffers g_sync_state g_frame_command_buffers g_initialized cmd_store].




(** [ve_swapchain_destroy] where no swapchain has been built. *)
Lemma wp_swapchain_destroy_empty (Q : unit → world → Prop) w :
  device (g_vulkan_context w) ≠ VK_NULL_HANDLE →
  swapchain (g_swapchain w) = VK_NULL_HANDLE → images (g_swapchain w) = 0 →
  image_views (g_swapchain w) = 0 → framebuffers (g_swapchain w) = 0 →
  Q () (set_g_swapchain (torn_down (g_swapchain w)) (set_drv (drv_idle (drv w)) w)) →
  wp ve_swapchain_destroy Q w.
Proof.
  intros Hdev Hs0 Hi0 Hv0 Hf0 HQ.
  unfold ve_swapchain_destroy. apply wp_bind, wp_gets.
  apply wp_bind. unfold ve_vulkan_wait_idle. apply wp_bind, wp_gets.
  rewrite (bool_decide_eq_true_2 _ Hdev). unfold vkDeviceWaitIdle.
  rewrite (bool_decide_eq_false_2 _ Hdev). apply wp_modify.
  apply wp_bind, wp_gets. wsimpl. rewrite Hf0.
  rewrite bool_decide_eq_false_2 by (intros X; by apply X). apply wp_bind, wp_ret.
  apply wp_bind, wp_gets. wsimpl. rewrite Hv0.
  rewrite bool_decide_eq_false_2 by (intros X; by apply X). apply wp_bind, wp_ret.
  apply wp_bind, wp_gets. wsimpl. rewrite Hi0.
  rewrite bool_decide_eq_false_2 by (intros X; by apply X). apply wp_bind, wp_ret.
  apply wp_bind, wp_gets. wsimpl. rewrite Hs0.
  rewrite bool_decide_eq_false_2 by (intros X; by apply X). apply wp_bind, wp_ret.
  apply wp_bind, wp_modify, wp_modify.
  match goal with |- Q _ ?x =>
    assert (x = set_g_swapchain (torn_down (g_swapchain w)) (set_drv (drv_idle (drv w)) w))
      as ->; [|exact HQ]
  end.
  revert Hs0 Hi0 Hv0 Hf0. clear. unfold update_swapchain. chain_norm.
  intros Hs0 Hi0 Hv0 Hf0. by rewrite Hs0, Hi0, Hv0, Hf0.
Qed.








(** [ve_swapchain_destroy] on a built swapchain returns and releases
    all of it: the chain, every image view, every framebuffer the
    swapchain owns, and the three arrays; what was alive and allocated
    beside the swapchain stays.  A framebuffer array handed in without
    ownership is freed as well, but its framebuffers are not destroyed.
    The record is reset except for format, extent and the out-of-date
    flag, and the ownership flag is kept.  Destroying once more changes
    nothing of this. *)
Theorem swapchain_destroy_releases live0 heap0 fb w :
  device (g_vulkan_context w) ≠ VK_NULL_HANDLE →
  chain_state live0 heap0 fb w →
  wp ve_swapchain_destroy (λ _ w',
    live (drv w') = live0 ∧ heap (mem w') = heap0
    ∧ g_swapchain w' = torn_down (g_swapchain w)
    ∧ g_owns_framebuffers w' = g_owns_framebuffers w
    ∧ wp ve_swapchain_destroy (λ _ w'',
        live (drv w'') = live0 ∧ heap (mem w'') = heap0
        ∧ g_swapchain w'' = g_swapchain w') w') w.
Proof.
  intros Hdev Hchain. eapply wp_swapchain_destroy; [done | exact Hchain |].
  intros d m Hlive Hheap _ _ _ _ _. wsimpl. split_and!; try done.
  apply wp_swapchain_destroy_empty; wsimpl; try done.
Qed.

Lemma built_chain_state : chain_state ∅ ∅ (OwnedFbs 15) built_chain_world.
Proof.
  exists [11; 12], 13, (<[14 := ImageView]> (<[13 := ImageView]>
                          (<[10 := Swapchain [11; 12]]> ∅))).
  do 9 (split; [done|]).
  split; [apply (range_live_insert 13 14); [lia|];
          apply (range_live_insert 13 13); [lia|]; apply range_live_refl|].
  do 2 (split; [done|]). do 5 (split; [done|]). split; [cbn; lia|].
  split; [|reflexivity].
  apply (range_live_insert 15 16); [lia|].
  apply (range_live_insert 15 15); [lia|]. apply range_live_refl.
Qed.

Lemma swapchain_destroy_releases_witness :
  ∃ w', ve_swapchain_destroy built_chain_world = Ret ((), w')
        ∧ live (drv w') = ∅ ∧ heap (mem w') = ∅.
Proof.
  destruct (swapchain_destroy_releases ∅ ∅ (OwnedFbs 15) built_chain_world
              ltac:(done) built_chain_state) as ([] & w' & E & Hl & Hh & _).
  exists w'. split; [exact E|]. split; [exact Hl | exact Hh].
Defined.



(** ** swapchain.c: framebuffers handed in from outside *)

Lemma chain_state_borrowed live0 heap0 fbs l w :
  chain_state live0 heap0 NoFbs w → fbs ≠ 0 → heap0 !! fbs = Some l →
  chain_state live0 (delete fbs heap0) (BorrowedFbs l)
    (set_g_owns_framebuffers false
       (set_g_swapchain (set_image_count (image_count (g_swapchain w))
                           (set_framebuffers fbs (g_swapchain w))) w)).
Proof.
  intros (imgs & nv & live1 & Hcount & Hchain & Himgs & Hviews & Hiv & Hnv & Hlt
          & Hfresh & Hfrom & Hrange & Hhi & Hhv & Hfz & Hlive & Hheap) Hfbs Hl.
  assert (Hfi : fbs ≠ images (g_swapchain w)) by (intros ->; congruence).
  assert (Hfv : fbs ≠ image_views (g_swapchain w)) by (intros ->; congruence).
  exists imgs, nv, live1. unfold set_g_owns_framebuffers. wsimpl.
  split_and!; try done.
  - by rewrite lookup_delete_ne.
  - by rewrite lookup_delete_ne.
  - apply lookup_delete_eq.
  - rewrite Hheap.
    rewrite (insert_insert_ne _ fbs) by done. rewrite (insert_insert_ne _ fbs) by done.
    by rewrite insert_delete_id.
Qed.

(** Declining ownership does not keep the array: after
    [ve_swapchain_set_framebuffers] has handed a framebuffer array to a
    built swapchain with [owns_framebuffers] false,
    [ve_swapchain_destroy] leaves the framebuffers in it alone but frees
    the array itself, together with everything the swapchain made. *)
Theorem borrowed_framebuffer_array_is_freed live0 heap0 fbs l w :
  device (g_vulkan_context w) ≠ VK_NULL_HANDLE →
  chain_state live0 heap0 NoFbs w →
  fbs ≠ 0 → heap0 !! fbs = Some l →
  wp (ve_swapchain_set_framebuffers fbs (image_count (g_swapchain w)) false;;
      ve_swapchain_destroy) (λ _ w',
    live (drv w') = live0 ∧ heap (mem w') = delete fbs heap0
    ∧ heap (mem w') !! fbs = None
    ∧ g_owns_framebuffers w' = false) w.
Proof.
  intros Hdev Hchain Hfbs Hl.
  assert (Hfz : framebuffers (g_swapchain w) = 0).
  { by destruct Hchain as (? & ? & ? & _ & _ & _ & _ & _ & _ & _ & _ & _ & _ & _ & _ & ? & _). }
  apply wp_bind. unfold ve_swapchain_set_framebuffers. apply wp_bind, wp_gets.
  apply wp_bind. unfold free_owned_framebuffers. apply wp_bind, wp_gets.
  apply wp_bind, wp_gets. rewrite Hfz.
  rewrite (bool_decide_eq_false_2 (0 ≠ 0)) by (intros X; by apply X).
  rewrite andb_false_r. apply wp_ret.
  apply wp_bind, wp_modify. apply wp_bind, wp_modify. apply wp_modify.
  match goal with |- wp _ _ ?x =>
    assert (x = set_g_owns_framebuffers false
                  (set_g_swapchain (set_image_count (image_count (g_swapchain w))
                                      (set_framebuffers fbs (g_swapchain w))) w)) as ->
  end.
  { clear. unfold update_swapchain, set_g_owns_framebuffers. by chain_norm. }
  eapply wp_swapchain_destroy; [done | by apply chain_state_borrowed |].
  intros d m Hlive Hheap _ _ _ _ _. unfold set_g_owns_framebuffers. wsimpl.
  split_and!; try done. rewrite Hheap. apply lookup_delete_eq.
Qed.

Lemma outside_framebuffers_chain :
  chain_state (<[6 := Framebuffer]> (<[5 := Framebuffer]> ∅))
              (<[3 := CHandle <$> [5; 6]]> ∅) NoFbs outside_framebuffers_world.
Proof.
  exists [11; 12], 13, (live (drv outside_framebuffers_world)).
  do 8 (split; [done|]). split.
  { intros x Hx. rewrite !lookup_insert_ne by lia. apply lookup_empty. }
  split.
  { apply (range_live_insert 13 14); [lia|].
    apply (range_live_insert 13 13); [lia|]. apply range_live_refl. }
  do 2 (split; [done|]). split; [done|]. split; reflexivity.
Qed.

Lemma borrowed_framebuffer_array_is_freed_witness :
  let w := outside_framebuffers_world in
  ∃ w', (ve_swapchain_set_framebuffers 3 2 false;; ve_swapchain_destroy) w = Ret ((), w')
        ∧ heap (mem w') !! 3 = None
        ∧ live (drv w') !! 5 = Some Framebuffer
        ∧ live (drv w') !! 13 = None.
Proof.
  intros w.
  destruct (borrowed_framebuffer_array_is_freed _ _ 3 (CHandle <$> [5; 6]) w
              ltac:(done) outside_framebuffers_chain ltac:(done) ltac:(done))
    as ([] & w' & E & Hl & _ & Hh & _).
  exists w'. split; [exact E|]. split; [exact Hh|]. rewrite Hl. split; reflexivity.
Defined.

(** ** swapchain.c: framebuffers of a built chain *)




(** ** swapchain.c: the current image's view and framebuffer *)

(** On a built swapchain the two getters for the current image return
    and change nothing; they read their arrays only inside the image
    count.  With the current index in range
    [ve_swapchain_get_current_image_view] returns a live image view made
    by this swapchain, and [ve_swapchain_get_current_framebuffer] returns
    a live framebuffer of the swapchain's own, or the element of the
    array handed in from outside, or NULL where there are no
    framebuffers.  With the index out of range both return
    VK_NULL_HANDLE. *)
Theorem current_view_and_framebuffer live0 heap0 fb w :
  chain_state live0 heap0 fb w →
  0 ≤ current_image_index (g_swapchain w) →
  let i := current_image_index (g_swapchain w) in
  let in_range := bool_decide (i < image_count (g_swapchain w)) in
  (∃ v, ve_swapchain_get_current_image_view w = Ret (v, w)
        ∧ if in_range
          then v ≠ VK_NULL_HANDLE ∧ live (drv w) !! v = Some ImageView ∧ live0 !! v = None
          else v = VK_NULL_HANDLE)
  ∧ match fb with
    | NoFbs => ve_swapchain_get_current_framebuffer w = Ret (VK_NULL_HANDLE, w)
    | OwnedFbs nf =>
        ∃ f, ve_swapchain_get_current_framebuffer w = Ret (f, w)
             ∧ if in_range
               then f = nf + i ∧ live (drv w) !! f = Some Framebuffer ∧ live0 !! f = None
               else f = VK_NULL_HANDLE
    | BorrowedFbs l =>
        if in_range
        then ∀ f, l !! Z.to_nat i = Some (CHandle f) →
                  ve_swapchain_get_current_framebuffer w = Ret (f, w)
        else ve_swapchain_get_current_framebuffer w = Ret (VK_NULL_HANDLE, w)
    end.
Proof.
  intros (imgs & nv & live1 & Hcount & Hchain & Himgs & Hviews & Hiv & Hnv & Hlt
          & Hfresh & Hfrom & Hrange & Hhi & Hhv & Hfb) Hi i in_range.
  set (s := g_swapchain w) in *. set (N := Z.to_nat (image_count s)) in *.
  assert (HN : Z.of_nat N = image_count s) by (unfold N; lia).
  assert (Hltb : (i <? image_count s) = in_range).
  { unfold in_range. destruct (Z.ltb_spec i (image_count s)).
    - by rewrite bool_decide_eq_true_2.
    - by rewrite bool_decide_eq_false_2 by lia. }
  assert (Hvl : heap (mem w) !! image_views s = Some (filled nv N N)).
  { destruct fb as [|nf|l].
    - destruct Hfb as (_ & _ & ->). apply lookup_insert_eq.
    - destruct Hfb as (_ & _ & _ & Hne & _ & _ & _ & ->).
      rewrite lookup_insert_ne by done. apply lookup_insert_eq.
    - destruct Hfb as (_ & _ & _ & Hne & _ & _ & ->).
      rewrite lookup_insert_ne by done. apply lookup_insert_eq. }
  assert (Hview : in_range = true →
            live (drv w) !! (nv + i) = Some ImageView ∧ live0 !! (nv + i) = None).
  { intros Hin. apply bool_decide_eq_true_1 in Hin.
    assert (Hl1 : live1 !! (nv + i) = Some ImageView).
    { rewrite (Hrange _). by rewrite bool_decide_eq_true_2 by lia. }
    split; [|apply Hfrom; lia].
    destruct fb as [|nf|l].
    - by destruct Hfb as (_ & -> & _).
    - destruct Hfb as (_ & _ & _ & _ & _ & Hnf & Hr & _).
      rewrite (Hr _). by rewrite bool_decide_eq_false_2 by lia.
    - by destruct Hfb as (_ & _ & _ & _ & _ & -> & _). }
  split.
  - unfold ve_swapchain_get_current_image_view.
    rewrite !bind_gets. fold s i. rewrite Hltb, (bool_decide_eq_true_2 _ Hviews).
    destruct in_range eqn:Hin; cbn [andb]; [|by exists VK_NULL_HANDLE].
    apply bool_decide_eq_true_1 in Hin as Hlt'.
    exists (nv + i). split.
    + unfold load_handle, load, bind. rewrite Hvl.
      rewrite filled_lookup by lia. by rewrite Z2Nat.id by lia.
    + split; [unfold VK_NULL_HANDLE; lia | by apply Hview].
  - unfold ve_swapchain_get_current_framebuffer. rewrite !bind_gets. fold s i.
    rewrite Hltb. destruct fb as [|nf|l].
    + destruct Hfb as (-> & _). rewrite bool_decide_eq_false_2 by (intros X; by apply X).
      by rewrite andb_false_r.
    + destruct Hfb as (Hnz & _ & _ & _ & _ & Hnf & Hr & Hh).
      rewrite (bool_decide_eq_true_2 _ Hnz).
      destruct in_range eqn:Hin; cbn [andb]; [|by exists VK_NULL_HANDLE].
      apply bool_decide_eq_true_1 in Hin as Hlt'.
      exists (nf + i). split.
      * unfold load_handle, load, bind. rewrite Hh, lookup_insert_eq.
        rewrite filled_lookup by lia. by rewrite Z2Nat.id by lia.
      * split; [done|]. split.
        -- rewrite (Hr _). by rewrite bool_decide_eq_true_2 by lia.
        -- apply Hfrom. lia.
    + destruct Hfb as (Hnz & _ & _ & _ & _ & _ & Hh).
      rewrite (bool_decide_eq_true_2 _ Hnz).
      destruct in_range eqn:Hin; cbn [andb]; [|done].
      intros f Hf. unfold load_handle, load, bind. by rewrite Hh, lookup_insert_eq, Hf.
Qed.

Lemma current_view_and_framebuffer_witness :
  let w := built_chain_world in
  ∃ v f, ve_swapchain_get_current_image_view w = Ret (v, w)
         ∧ ve_swapchain_get_current_framebuffer w = Ret (f, w)
         ∧ live (drv w) !! v = Some ImageView ∧ f = 15.
Proof.
  intros w.
  destruct (current_view_and_framebuffer ∅ ∅ (OwnedFbs 15) built_chain_world built_chain_state
              ltac:(done)) as [(v & Ev & Hv) (f & Ef & Hf)].
  rewrite bool_decide_eq_true_2 in Hv, Hf by (cbn; lia).
  exists v, f. split; [exact Ev|]. split; [exact Ef|].
  split; [exact (proj1 (proj2 Hv)) | exact (proj1 Hf)].
Defined.

(** ** vulkan_core.c: choosing a memory type *)

Lemma land_bit bits i :
  0 ≤ i → negb (Z.land bits (Z.shiftl 1 i) =? 0) = Z.testbit bits i.
Proof.
  intros Hi. rewrite Z.shiftl_1_l.
  destruct (Z.testbit bits i) eqn:Hb.
  - destruct (Z.eqb_spec (Z.land bits (2 ^ i)) 0) as [E|]; [|done].
    assert (Hbit : Z.testbit (Z.land bits (2 ^ i)) i = true).
    { rewrite Z.land_spec, Hb, Z.pow2_bits_true by done. done. }
    rewrite E, Z.bits_0 in Hbit. done.
  - destruct (Z.eqb_spec (Z.land bits (2 ^ i)) 0) as [|N]; [done|].
    exfalso. apply N. apply Z.bits_inj'. intros n Hn.
    rewrite Z.land_spec, Z.bits_0, Z.pow2_bits_eqb by done.
    destruct (Z.eqb_spec i n) as [<-|]; [by rewrite Hb | apply andb_false_r].
Qed.

Lemma memory_type_test type_bits properties i flags :
  0 ≤ i →
  negb (Z.land type_bits (Z.shiftl 1 i) =? 0) && (Z.land flags properties =? properties) = true
  ↔ memory_type_fits type_bits properties i flags.
Proof.
  intros Hi. rewrite land_bit by done. unfold memory_type_fits.
  rewrite andb_true_iff, Z.eqb_eq. done.
Qed.

(** The loop of [ve_vulkan_find_memory_type] over the types
    [[i, i + n)], all below 31. *)
Lemma wp_find_memory_type_loop types type_bits properties (n : nat) i w
    (Q : option Z → world → Prop) :
  0 ≤ i → i + Z.of_nat n ≤ 31 → (Z.to_nat i + n ≤ length types)%nat →
  (∀ r flags, i ≤ r < i + Z.of_nat n → types !! Z.to_nat r = Some flags →
     memory_type_fits type_bits properties r flags →
     (∀ j fl, i ≤ j < r → types !! Z.to_nat j = Some fl →
              ¬ memory_type_fits type_bits properties j fl) →
     Q (Some r) w) →
  ((∀ j fl, i ≤ j < i + Z.of_nat n → types !! Z.to_nat j = Some fl →
            ¬ memory_type_fits type_bits properties j fl) →
   Q None w) →
  wp (for_range n i (λ i,
        bit ← shl_int_1 i;
        match types !! Z.to_nat i with
        | Some flags =>
            if negb (Z.land type_bits bit =? 0) && (Z.land flags properties =? properties)
            then ret (Some i) else ret None
        | None => undef
        end)) Q w.
Proof.
  intros Hi Hn Hlen Hfound Hnone.
  apply (wp_for_range (λ j w1, w1 = w ∧ ∀ k fl, i ≤ k < j → types !! Z.to_nat k = Some fl →
                                   ¬ memory_type_fits type_bits properties k fl)).
  - split; [done|]. intros k fl Hk. lia.
  - intros j w1 Hj [-> Hbelow].
    apply wp_bind. unfold shl_int_1.
    replace ((0 <=? j) && (j <? 31)) with true
      by (symmetry; apply andb_true_intro; split; [apply Z.leb_le | apply Z.ltb_lt]; lia).
    apply wp_ret.
    destruct (lookup_lt_is_Some_2 types (Z.to_nat j) ltac:(lia)) as [flags Hfl]. rewrite Hfl.
    destruct (negb (Z.land type_bits (Z.shiftl 1 j) =? 0)
              && (Z.land flags properties =? properties)) eqn:Ht; apply wp_ret.
    + apply (Hfound j flags); [lia | done | by apply memory_type_test; [lia|] | done].
    + split; [done|]. intros k fl Hk Hkf.
      destruct (decide (k = j)) as [->|]; [|apply Hbelow; [lia | done]].
      rewrite Hfl in Hkf. injection Hkf as <-.
      intros Hfit. apply memory_type_test in Hfit; [congruence | lia].
  - intros w1 [-> Hbelow]. by apply Hnone.
Qed.

Lemma for_range_app {R} (n m : nat) i (body : Z → M (option R)) w :
  for_range (n + m) i body w
  = (r ← for_range n i body;
     match r with
     | Some v => ret (Some v)
     | None => for_range m (i + Z.of_nat n) body
     end) w.
Proof.
  revert i w. induction n as [|n IH]; intros i w.
  - cbn [for_range Nat.add]. rewrite bind_ret_l. by rewrite Z.add_0_r.
  - cbn [for_range Nat.add]. unfold bind.
    destruct (body i w) as [[[v|] w1]| |]; try reflexivity.
    rewrite IH. unfold bind.
    by replace (i + 1 + Z.of_nat n) with (i + Z.of_nat (S n)) by lia.
Qed.

(** [ve_vulkan_find_memory_type] returns the least index of a memory type
    whose bit is set in [type_bits] and which has all the requested
    property flags, and UINT32_MAX when no type fits; it changes nothing.
    This holds for up to 31 memory types.  With 32 of them, and none of
    the first 31 fitting, the loop goes on to evaluate [1 << 31], which
    does not fit [int]: the behaviour is undefined. *)
Theorem find_memory_type_least types type_bits properties w :
  ((length types ≤ 31)%nat →
   ∃ r, ve_vulkan_find_memory_type types type_bits properties w = Ret (r, w)
     ∧ ((∃ flags, 0 ≤ r ∧ types !! Z.to_nat r = Some flags
                  ∧ memory_type_fits type_bits properties r flags
                  ∧ ∀ j fl, 0 ≤ j < r → types !! Z.to_nat j = Some fl →
                            ¬ memory_type_fits type_bits properties j fl)
        ∨ (r = UINT32_MAX
           ∧ ∀ j fl, 0 ≤ j → types !! Z.to_nat j = Some fl →
                     ¬ memory_type_fits type_bits properties j fl)))
  ∧ (length types = 32%nat →
     (∀ j fl, 0 ≤ j < 31 → types !! Z.to_nat j = Some fl →
              ¬ memory_type_fits type_bits properties j fl) →
     ve_vulkan_find_memory_type types type_bits properties w = Undef).
Proof.
  split.
  - intros Hlen.
    assert (wp (ve_vulkan_find_memory_type types type_bits properties)
              (λ r w', w' = w
                 ∧ ((∃ flags, 0 ≤ r ∧ types !! Z.to_nat r = Some flags
                              ∧ memory_type_fits type_bits properties r flags
                              ∧ ∀ j fl, 0 ≤ j < r → types !! Z.to_nat j = Some fl →
                                        ¬ memory_type_fits type_bits properties j fl)
                    ∨ (r = UINT32_MAX
                       ∧ ∀ j fl, 0 ≤ j → types !! Z.to_nat j = Some fl →
                                 ¬ memory_type_fits type_bits properties j fl))) w)
      as (r & w' & E & -> & H).
    { unfold ve_vulkan_find_memory_type, for_u32. rewrite Z.sub_0_r, Nat2Z.id.
      apply wp_bind, wp_find_memory_type_loop; [lia | lia | cbn; lia | |].
      - intros r flags Hr Hfl Hfit Hleast. apply wp_ret. split; [done|]. left.
        exists flags. split_and!; [lia | done | done | done].
      - intros Hnone. apply wp_ret. split; [done|]. right. split; [done|].
        intros j fl Hj Hfl. apply Hnone; [|done]. split; [lia|].
        apply lookup_lt_Some in Hfl. lia. }
    by exists r.
  - intros Hlen Hnone.
    unfold ve_vulkan_find_memory_type, for_u32. rewrite Z.sub_0_r, Nat2Z.id, Hlen.
    change 32%nat with (31 + 1)%nat.
    assert (wp (for_range 31 0 (λ i,
                  bit ← shl_int_1 i;
                  match types !! Z.to_nat i with
                  | Some flags =>
                      if negb (Z.land type_bits bit =? 0)
                         && (Z.land flags properties =? properties)
                      then ret (Some i) else ret None
                  | None => undef
                  end)) (λ r w', r = None ∧ w' = w) w) as (r & w' & E & -> & ->).
    { apply wp_find_memory_type_loop; [lia | lia | cbn; lia | |].
      - intros r flags Hr Hfl Hfit _. destruct (Hnone r flags); [lia | done | done].
      - done. }
    unfold bind at 1. rewrite for_range_app. unfold bind at 1. rewrite E.
    reflexivity.
Qed.

Lemma find_memory_type_least_witness :
  let w := sample_world VE_ASSERT_MODE_DEBUG_BREAK [] in
  ve_vulkan_find_memory_type [1; 6; 7] 6 3 w = Ret (2, w)
  ∧ ve_vulkan_find_memory_type (replicate 32 0) 1 1 w = Undef.
Proof.
  intros w.
  destruct (find_memory_type_least [1; 6; 7] 6 3 w) as [H _].
  destruct (find_memory_type_least (replicate 32 0) 1 1 w) as [_ Hub].
  split.
  - destruct (H ltac:(cbn; lia)) as (r & E & _). rewrite E. f_equal.
    vm_compute in E. by injection E as <-.
  - apply Hub; [reflexivity|]. intros j fl Hj Hfl [_ Hfit].
    apply list_elem_of_lookup_2, elem_of_replicate in Hfl as [-> _]. discriminate Hfit.
Defined.

(** ** vulkan_core.c: finding the queue families *)

Lemma wp_for_range_acc {T} (I : Z → T → world → Prop) n i
    (body : Z → T → M (T * bool)) acc (Q : T → world → Prop) w :
  I i acc w →
  (∀ j a w1, i ≤ j < i + Z.of_nat n → I j a w1 →
     wp (body j a) (λ r w2, if (r.2 : bool) then Q r.1 w2 else I (j + 1) r.1 w2) w1) →
  (∀ a w1, I (i + Z.of_nat n) a w1 → Q a w1) →
  wp (for_range_acc n i body acc) Q w.
Proof.
  revert i acc w. induction n as [|n IH]; intros i acc w Hi Hbody Hend; cbn [for_range_acc].
  - apply wp_ret, Hend. by rewrite Z.add_0_r.
  - apply wp_bind. eapply wp_mono; [apply Hbody; [lia | exact Hi]|].
    intros [a' [|]] w1 H1; cbn in H1; [by apply wp_ret|].
    apply (IH (i + 1) a' w1 H1).
    + intros j a w2 Hj. apply Hbody. lia.
    + intros a w2 Hw2. apply Hend.
      by replace (i + Z.of_nat (S n)) with (i + 1 + Z.of_nat n) by lia.
Qed.

Lemma tracked_zero families cap idx : tracked families cap 0 false idx.
Proof. split; [done|]. intros j f Hj. lia. Qed.

(** One more family seen: where it offers the capability the flag is set
    afterwards and the index is this family or the one selected before;
    where it does not, flag and index are kept. *)
Lemma tracked_step families cap k valid idx f valid' idx' :
  0 ≤ k → families !! Z.to_nat k = Some f →
  tracked families cap k valid idx →
  (cap f = true → valid' = true ∧ (idx' = k ∨ (valid = true ∧ idx' = idx))) →
  (cap f = false → valid' = valid ∧ idx' = idx) →
  tracked families cap (k + 1) valid' idx'.
Proof.
  intros Hk Hf [Hsound Hcompl] Hyes Hno. destruct (cap f) eqn:Hc.
  - destruct (Hyes eq_refl) as [-> Hidx]. split; [|done].
    intros _. destruct Hidx as [->|[Hv ->]].
    + split; [lia|]. split; [done|]. by exists f.
    + destruct (Hsound Hv) as [? ?]. split; [lia | done].
  - destruct (Hno eq_refl) as [-> ->]. split.
    + intros Hv. destruct (Hsound Hv) as [? ?]. split; [lia | done].
    + intros j g Hj Hg Hcg. destruct (decide (j = k)) as [->|].
      * rewrite Hf in Hg. injection Hg as <-. congruence.
      * apply (Hcompl j g); [lia | done | done].
Qed.

Lemma tracked_selected_all families cap k valid idx :
  tracked families cap k valid idx → valid = true → selected families cap valid idx.
Proof.
  intros [Hsound _] Hv. split; [|intros _; by apply Hsound].
  split; [|done]. intros _. destruct (Hsound Hv) as (_ & _ & f & Hf & Hc).
  by exists (Z.to_nat idx), f.
Qed.

Lemma tracked_selected_end families cap valid idx :
  tracked families cap (Z.of_nat (length families)) valid idx →
  selected families cap valid idx.
Proof.
  intros [Hsound Hcompl]. split; [|intros Hv; by apply Hsound].
  split.
  - intros Hv. destruct (Hsound Hv) as (_ & _ & f & Hf & Hc). by exists (Z.to_nat idx), f.
  - intros (j & f & Hf & Hc). apply (Hcompl (Z.of_nat j) f); [|by rewrite Nat2Z.id | done].
    apply lookup_lt_Some in Hf. lia.
Qed.

(** [ve_vulkan_find_queue_families] always returns and leaves the heap as
    it was.  When the driver reports no family, or the array for the
    families cannot be allocated, nothing is valid.  Otherwise each of the
    four valid flags is set exactly when some reported family offers the
    capability (graphics, compute, transfer; presenting to the surface),
    and the index beside a set flag names a family that offers it: the
    early exit from the loop loses nothing. *)
Theorem find_queue_families_selects families device w :
  wf_mem (mem w) →
  ∃ ix m', ve_vulkan_find_queue_families families device w = Ret (ix, set_mem m' w)
    ∧ heap m' = heap (mem w)
    ∧ if bool_decide (families ≠ []) && hd true (alloc_results (mem w))
      then
        let surf := surface (g_vulkan_context w) in
        selected families cap_graphics (QF.graphics_valid ix) (QF.graphics_family ix)
        ∧ selected families cap_compute (QF.compute_valid ix) (QF.compute_family ix)
        ∧ selected families cap_transfer (QF.transfer_valid ix) (QF.transfer_family ix)
        ∧ selected families (cap_present surf) (QF.present_valid ix) (QF.present_family ix)
      else ix = QF.zero.
Proof.
  intros Hwf.
  pose proof (wf_mem_fresh_block _ Hwf) as Hfresh. destruct Hwf as [Hpos _].
  set (surf := surface (g_vulkan_context w)).
  assert (wp (ve_vulkan_find_queue_families families device)
            (λ ix w', ∃ m', w' = set_mem m' w ∧ heap m' = heap (mem w)
               ∧ if bool_decide (families ≠ []) && hd true (alloc_results (mem w))
                 then
                   selected families cap_graphics (QF.graphics_valid ix) (QF.graphics_family ix)
                   ∧ selected families cap_compute (QF.compute_valid ix) (QF.compute_family ix)
                   ∧ selected families cap_transfer (QF.transfer_valid ix)
                       (QF.transfer_family ix)
                   ∧ selected families (cap_present surf) (QF.present_valid ix)
                       (QF.present_family ix)
                 else ix = QF.zero) w) as (ix & w' & E & m' & -> & H).
  2: { by exists ix, m'. }
  unfold ve_vulkan_find_queue_families. apply wp_bind, wp_ve_allocate.
  - intros Hn. rewrite bool_decide_eq_true_2 by done. apply wp_ret.
    exists (mem w). split; [apply set_mem_same|]. split; [done|].
    rewrite bool_decide_eq_false_2; [done|]. intros N. apply N.
    apply length_zero_iff_nil. lia.
  - intros _ Hal. rewrite bool_decide_eq_true_2 by done. apply wp_ret.
    eexists. split; [reflexivity|]. split; [done|]. by rewrite Hal, andb_false_r.
  - intros Hn Hal. rewrite bool_decide_eq_false_2 by lia.
    rewrite Hal, bool_decide_eq_true_2 by (intros ->; by apply Hn).
    cbn [andb]. rewrite Nat2Z.id.
    set (w1 := set_mem _ w).
    apply wp_bind.
    apply (wp_for_range_acc (λ k ix w2,
             w2 = w1 ∧ 0 ≤ k
             ∧ tracked families cap_graphics k (QF.graphics_valid ix) (QF.graphics_family ix)
             ∧ tracked families cap_compute k (QF.compute_valid ix) (QF.compute_family ix)
             ∧ tracked families cap_transfer k (QF.transfer_valid ix) (QF.transfer_family ix)
             ∧ tracked families (cap_present surf) k (QF.present_valid ix)
                 (QF.present_family ix))).
    + split; [done|]. split; [done|]. split_and!; apply tracked_zero.
    + intros k a w2 Hk (-> & Hk0 & Hg & Hc & Ht & Hp).
      destruct (lookup_lt_is_Some_2 families (Z.to_nat k) ltac:(lia)) as [[flags ps] Hf].
      rewrite Hf. apply wp_bind, wp_gets. apply wp_ret.
      change (surface (g_vulkan_context w1)) with surf.
      destruct a as [gf cf tf pf gv cv tv pv].
      cbn [QF.graphics_valid QF.graphics_family QF.compute_valid QF.compute_family
           QF.transfer_valid QF.transfer_family QF.present_valid QF.present_family]
        in Hg, Hc, Ht, Hp.
      remember (has_flag flags VK_QUEUE_GRAPHICS_BIT) as g eqn:Eg.
      remember (has_flag flags VK_QUEUE_COMPUTE_BIT) as c eqn:Ec.
      remember (has_flag flags VK_QUEUE_TRANSFER_BIT) as t eqn:Et.
      remember (bool_decide (surf ≠ VK_NULL_HANDLE) && ps) as p eqn:Ep.
      match goal with |- context [(?x, _)] => set (a' := x) end.
      assert (Hg' : tracked families cap_graphics (k + 1)
                      (QF.graphics_valid a') (QF.graphics_family a')).
      { apply (tracked_step _ _ k _ _ (flags, ps) _ _ Hk0 Hf Hg);
          unfold cap_graphics; cbn [fst]; rewrite <- Eg; intros ->; unfold a';
          destruct c, t, p, cv, tv; cbn; auto. }
      assert (Hc' : tracked families cap_compute (k + 1)
                      (QF.compute_valid a') (QF.compute_family a')).
      { apply (tracked_step _ _ k _ _ (flags, ps) _ _ Hk0 Hf Hc);
          unfold cap_compute; cbn [fst]; rewrite <- Ec; intros ->; unfold a';
          destruct g, t, p, cv, tv; cbn; auto. }
      assert (Ht' : tracked families cap_transfer (k + 1)
                      (QF.transfer_valid a') (QF.transfer_family a')).
      { apply (tracked_step _ _ k _ _ (flags, ps) _ _ Hk0 Hf Ht);
          unfold cap_transfer; cbn [fst]; rewrite <- Et; intros ->; unfold a';
          destruct g, c, p, cv, tv; cbn; auto. }
      assert (Hp' : tracked families (cap_present surf) (k + 1)
                      (QF.present_valid a') (QF.present_family a')).
      { apply (tracked_step _ _ k _ _ (flags, ps) _ _ Hk0 Hf Hp);
          unfold cap_present; cbn [snd]; rewrite <- Ep; intros ->; unfold a';
          destruct g, c, t, cv, tv; cbn; auto. }
      clearbody a'.
      cbn [fst snd].
      destruct (QF.graphics_valid a') eqn:Egv; cbn [andb]; [|split; [done|]; split; [lia | done]].
      destruct (QF.present_valid a') eqn:Epv; cbn [andb]; [|split; [done|]; split; [lia|]; by rewrite ?Egv, ?Epv].
      destruct (QF.compute_valid a') eqn:Ecv; cbn [andb]; [|split; [done|]; split; [lia|]; by rewrite ?Egv, ?Epv, ?Ecv].
      destruct (QF.transfer_valid a') eqn:Etv; [|split; [done|]; split; [lia|]; by rewrite ?Egv, ?Epv, ?Ecv, ?Etv].
      (* every queue has been found: break *)
      apply wp_bind, wp_ve_free; [lia|]. apply wp_ret.
      eexists. split; [reflexivity|]. split.
      { unfold w1, mem_free. wsimpl. by apply delete_insert_id. }
      rewrite <- Egv in Hg'. rewrite <- Ecv in Hc'. rewrite <- Etv in Ht'. rewrite <- Epv in Hp'.
      rewrite Egv, Ecv, Etv, Epv in *.
      split_and!; eapply tracked_selected_all; done.
    + intros a w2 (-> & _ & Hg & Hc & Ht & Hp). rewrite Z.add_0_l in *.
      apply wp_bind, wp_ve_free; [lia|]. apply wp_ret.
      eexists. split; [reflexivity|]. split.
      { unfold w1, mem_free. wsimpl. by apply delete_insert_id. }
      split_and!; by apply tracked_selected_end.
Qed.

Lemma find_queue_families_selects_witness :
  let w := sample_world VE_ASSERT_MODE_DEBUG_BREAK [] in
  ∃ ix m', ve_vulkan_find_queue_families [(2, false); (5, true)] 1 w = Ret (ix, set_mem m' w)
    ∧ QF.graphics_valid ix = true ∧ QF.graphics_family ix = 1
    ∧ QF.compute_valid ix = true ∧ QF.compute_family ix = 0.
Proof.
  intros w.
  assert (Hwf : wf_mem (mem w)) by (split; [reflexivity | apply map_Forall_empty]).
  destruct (find_queue_families_selects [(2, false); (5, true)] 1 w Hwf)
    as (ix & m' & E & _ & _).
  exists ix, m'. split; [exact E|].
  vm_compute in E. injection E as <- _. by split_and!.
Defined.

(** The loop stops at the first family once all four queues are found.
    On a device whose family 0 offers graphics, compute and transfer and
    can present to the surface, all four indices are 0 whatever families
    follow: a dedicated compute or transfer family further on is never
    looked at. *)
Theorem find_queue_families_stops_at_first flags rest device w :
  wf_mem (mem w) → hd true (alloc_results (mem w)) = true →
  surface (g_vulkan_context w) ≠ VK_NULL_HANDLE →
  has_flag flags VK_QUEUE_GRAPHICS_BIT = true →
  has_flag flags VK_QUEUE_COMPUTE_BIT = true →
  has_flag flags VK_QUEUE_TRANSFER_BIT = true →
  ∃ m', ve_vulkan_find_queue_families ((flags, true) :: rest) device w
        = Ret (QF.mkIndices 0 0 0 0 true true true true, set_mem m' w)
    ∧ heap m' = heap (mem w).
Proof.
  intros Hwf Hal Hsurf Hg Hc Ht.
  pose proof (wf_mem_fresh_block _ Hwf) as Hfresh. destruct Hwf as [Hpos _].
  assert (wp (ve_vulkan_find_queue_families ((flags, true) :: rest) device)
            (λ ix w', ix = QF.mkIndices 0 0 0 0 true true true true
                      ∧ ∃ m', w' = set_mem m' w ∧ heap m' = heap (mem w)) w)
    as (ix & w' & E & -> & m' & -> & H).
  2: { by exists m'. }
  unfold ve_vulkan_find_queue_families.
  apply wp_bind, wp_ve_allocate; [cbn [length]; lia | congruence |].
  intros _ _. rewrite bool_decide_eq_false_2 by lia. rewrite Nat2Z.id.
  cbn [length for_range_acc lookup list_lookup Z.to_nat].
  apply wp_bind, wp_bind, wp_bind, wp_gets. wsimpl.
  rewrite Hg, Hc, Ht, (bool_decide_eq_true_2 _ Hsurf). cbn.
  apply wp_ret, wp_ret. apply wp_bind, wp_ve_free; [lia|]. apply wp_ret.
  split; [done|]. eexists. split; [reflexivity|].
  unfold mem_free. wsimpl. by apply delete_insert_id.
Qed.

Lemma find_queue_families_stops_at_first_witness :
  let w := sample_world VE_ASSERT_MODE_DEBUG_BREAK [] in
  ∃ m', ve_vulkan_find_queue_families [(7, true); (2, false); (4, false)] 1 w
        = Ret (QF.mkIndices 0 0 0 0 true true true true, set_mem m' w).
Proof.
  intros w.
  assert (Hwf : wf_mem (mem w)) by (split; [reflexivity | apply map_Forall_empty]).
  destruct (find_queue_families_stops_at_first 7 [(2, false); (4, false)] 1 w Hwf
              eq_refl ltac:(discriminate) eq_refl eq_refl eq_refl) as (m' & E & _).
  exists m'. exact E.
Defined.
